(** * Arina-BE: the recommendation engine and its storage adapter

    A shallow embedding of [dist/index.mjs] (the extractors, the seasonal
    advisor, [generateRecommendations]) and of
    [DatabaseStorage.createRecommendationSet], followed by the properties
    the specification states about them.

    Conventions of the embedding.
    - A JavaScript number read from an analysis payload is a binary64
      float ([PrimFloat.float]); every threshold test is the float test.
    - A candidate's [confidence] is one of the decimal literals of the
      source.  Its only use is the sign of [b.confidence - a.confidence]
      in the ranking comparator; the sign of a binary64 difference is the
      sign of the exact difference, so confidences are kept as exact
      rationals ([Q]).
    - [Date] values are their epoch milliseconds ([Z]).  [toDateString]
      prints the local calendar day; it is modelled by the number of that
      day, which determines the printed text and is determined by it.
      Local time is UTC plus the offset the host's time zone has at that
      instant ([tzOffsetMs], the LocalTZA of ECMAScript), so a zone with
      daylight saving time is a host like any other.  A host's local day
      never goes back while time advances ([localDay_mono]).
    - [new Date()], [Date.now()], [Number.prototype.toFixed] and [uuid.v4]
      belong to the host; they are fields of [Host], and every read of the
      clock advances a counter threaded through the [Eff] monad.
    - Strings are [string], read as UTF-8: a character outside ASCII is
      the sequence of its bytes.  The separators of [split] and the
      keywords of the chat extractor are ASCII; [trim] strips the
      Unicode white space of ECMAScript; case mapping is the ASCII
      one. *)

From Stdlib Require Import ZArith QArith Floats List String Ascii Bool Lia.
From Stdlib Require Import Permutation Sorted DecimalString.
Import ListNotations.
Set Warnings "-inexact-float,-register-all".

(* ================================================================== *)
(** * JavaScript built-ins used by the engine *)
(* ================================================================== *)

Module Js.

(** ** Numbers *)

(** ToBoolean on a number: [0], [-0] and [NaN] are falsy. *)
Definition truthy (x : float) : bool :=
  negb (PrimFloat.eqb x 0%float) && PrimFloat.eqb x x.

(** [o && ...] on an optional numeric field: absent is falsy. *)
Definition truthyOpt (o : option float) : bool :=
  match o with Some x => truthy x | None => false end.

(** The sign that [Array.prototype.sort] reads off a comparator's
    result: negative, positive, or neither ([0] and [NaN]). *)
Definition signF (v : float) : comparison :=
  if PrimFloat.ltb v 0%float then Lt
  else if PrimFloat.ltb 0%float v then Gt else Eq.

Definition signZ (v : Z) : comparison := Z.compare v 0.

Definition signQ (v : Q) : comparison := Qcompare v 0.

(** ** Arrays *)

Section Sort.
Context {A : Type}.
Variable cmp : A -> A -> comparison.

(** [x] stood before every element of the sorted list [s]; it moves
    behind [y] only when the comparator says [cmp x y > 0]. *)
Fixpoint insert (x : A) (s : list A) : list A :=
  match s with
  | [] => [x]
  | y :: s' =>
      match cmp x y with
      | Gt => y :: insert x s'
      | _ => x :: y :: s'
      end
  end.

(** [Array.prototype.sort(cmp)]: a stable sort (ECMAScript 2019),
    modelled as stable insertion sort. *)
Definition sort (l : list A) : list A := fold_right insert [] l.
End Sort.

(** [arr.slice(0, n)] *)
Definition slice0 {A} (n : nat) (l : list A) : list A := firstn n l.

(** ** Strings *)

Definition lowerChar (c : ascii) : ascii :=
  let n := nat_of_ascii c in
  if (65 <=? n)%nat && (n <=? 90)%nat then ascii_of_nat (n + 32) else c.

Definition upperChar (c : ascii) : ascii :=
  let n := nat_of_ascii c in
  if (97 <=? n)%nat && (n <=? 122)%nat then ascii_of_nat (n - 32) else c.

Fixpoint toLowerCase (s : string) : string :=
  match s with
  | EmptyString => EmptyString
  | String c s' => String (lowerChar c) (toLowerCase s')
  end.

Fixpoint toUpperCase (s : string) : string :=
  match s with
  | EmptyString => EmptyString
  | String c s' => String (upperChar c) (toUpperCase s')
  end.

(** [s.charAt(0)] and [s.slice(1)] *)
Definition charAt0 (s : string) : string :=
  match s with EmptyString => EmptyString | String c _ => String c EmptyString end.

Definition slice1 (s : string) : string :=
  match s with EmptyString => EmptyString | String _ s' => s' end.

Fixpoint startsWith (k s : string) : bool :=
  match k, s with
  | EmptyString, _ => true
  | String a k', String b s' => Ascii.eqb a b && startsWith k' s'
  | String _ _, EmptyString => false
  end.

(** [s.includes(k)] *)
Fixpoint includes (k s : string) : bool :=
  startsWith k s ||
  match s with
  | EmptyString => false
  | String _ s' => includes k s'
  end.

(** The separator class of [/[.!?]+/]. *)
Definition isDelim (c : ascii) : bool :=
  Ascii.eqb c "."%char || Ascii.eqb c "!"%char || Ascii.eqb c "?"%char.

Definition startsWithDelim (s : string) : bool :=
  match s with EmptyString => false | String c _ => isDelim c end.

Definition consHead (c : ascii) (ps : list string) : list string :=
  match ps with
  | [] => [String c EmptyString]
  | p :: ps' => String c p :: ps'
  end.

(** [s.split(/[.!?]+/)]: a maximal run of separators ends one piece and
    starts the next; a separator at either end yields an empty piece. *)
Fixpoint splitSentences (s : string) : list string :=
  match s with
  | EmptyString => [EmptyString]
  | String c s' =>
      if isDelim c then
        if startsWithDelim s' then splitSentences s'
        else EmptyString :: splitSentences s'
      else consHead c (splitSentences s')
  end.

(** ** White space

    [String.prototype.trim] strips the code points of WhiteSpace and
    LineTerminator: U+0009..U+000D, U+0020, U+00A0, U+1680,
    U+2000..U+200A, U+2028, U+2029, U+202F, U+205F, U+3000 and U+FEFF.
    In UTF-8 they take one, two or three bytes. *)
Definition isSpace (c : ascii) : bool :=
  let n := nat_of_ascii c in
  ((9 <=? n)%nat && (n <=? 13)%nat) || (n =? 32)%nat.

(** U+00A0 is [C2 A0]. *)
Definition isSpace2 (a b : ascii) : bool :=
  (nat_of_ascii a =? 194)%nat && (nat_of_ascii b =? 160)%nat.

(** U+1680 is [E1 9A 80]; U+2000..U+200A, U+2028, U+2029 and U+202F are
    [E2 80 80..8A], [E2 80 A8], [E2 80 A9] and [E2 80 AF]; U+205F is
    [E2 81 9F]; U+3000 is [E3 80 80]; U+FEFF is [EF BB BF]. *)
Definition isSpace3 (a b c : ascii) : bool :=
  let x := nat_of_ascii a in
  let y := nat_of_ascii b in
  let z := nat_of_ascii c in
  ((x =? 225)%nat && (y =? 154)%nat && (z =? 128)%nat)
  || ((x =? 226)%nat && (y =? 128)%nat
      && (((128 <=? z)%nat && (z <=? 138)%nat)
          || (z =? 168)%nat || (z =? 169)%nat || (z =? 175)%nat))
  || ((x =? 226)%nat && (y =? 129)%nat && (z =? 159)%nat)
  || ((x =? 227)%nat && (y =? 128)%nat && (z =? 128)%nat)
  || ((x =? 239)%nat && (y =? 187)%nat && (z =? 191)%nat).

(** [s.trimStart()] *)
Fixpoint trimStart (s : string) : string :=
  match s with
  | EmptyString => EmptyString
  | String a s1 =>
      if isSpace a then trimStart s1
      else
        match s1 with
        | EmptyString => s
        | String b s2 =>
            if isSpace2 a b then trimStart s2
            else
              match s2 with
              | EmptyString => s
              | String c s3 => if isSpace3 a b c then trimStart s3 else s
              end
        end
  end.

(** [s.trimEnd()]: the longest suffix made of white space only is
    dropped. *)
Fixpoint trimEnd (s : string) : string :=
  match s with
  | EmptyString => EmptyString
  | String c s' =>
      match trimStart s with
      | EmptyString => EmptyString
      | _ => String c (trimEnd s')
      end
  end.

(** [s.trim()] *)
Definition trim (s : string) : string := trimEnd (trimStart s).

(** [arr.join(sep)] *)
Definition join (sep : string) (l : list string) : string := String.concat sep l.

(** ToString of an integer-valued number. *)
Definition showZ (z : Z) : string := NilZero.string_of_int (Z.to_int z).

(** A template hole [${x}] over a field that may be absent. *)
Definition showOpt (o : option string) : string :=
  match o with Some s => s | None => "undefined"%string end.

End Js.

(* ================================================================== *)
(** * The host: clock, time zone, number formatting, uuid *)
(* ================================================================== *)

(** [tzOffsetMs t] is the offset of local time from UTC in force at
    the instant [t] (the LocalTZA of ECMAScript), daylight saving
    included.  The local calendar day is taken never to go back while
    time advances ([localDay_mono]): it is so for a fixed offset, and for
    a zone whose clocks are set back within one calendar day, as at the
    end of daylight saving time.  The second comparator of the ranking
    answers [0] between candidates of different days; on a list in
    creation order the candidates of one day then stand next to each
    other, which is the situation the model of [Array.prototype.sort]
    is meant for. *)
Record Host := mkHost {
  wallClock : nat -> Z;            (* the k-th reading of the clock, epoch ms *)
  tzOffsetMs : Z -> Z;             (* local time minus UTC at an instant *)
  toFixed : float -> nat -> string;   (* Number.prototype.toFixed *)
  v4 : nat -> string;              (* the k-th uuid drawn *)
  localDay_mono :
    forall a b : Z, (a <= b)%Z ->
      ((a + tzOffsetMs a) / 86400000 <= (b + tzOffsetMs b) / 86400000)%Z
}.

(** Computations that read the clock: the state is the number of
    readings made so far. *)
Definition Eff (A : Type) : Type := nat -> A * nat.

Definition ret {A} (a : A) : Eff A := fun k => (a, k).

Definition bind {A B} (m : Eff A) (f : A -> Eff B) : Eff B :=
  fun k => let (a, k') := m k in f a k'.

Notation "x <- m ;; f" := (bind m (fun x => f))
  (at level 61, m at next level, right associativity).

(** [arr.forEach(f)] where [f] pushes onto one shared output array. *)
Fixpoint forEachPush {A B} (f : A -> Eff (list B)) (l : list A) : Eff (list B) :=
  match l with
  | [] => ret []
  | x :: l' => out <- f x ;; rest <- forEachPush f l' ;; ret (out ++ rest)
  end.

(* ================================================================== *)
(** * Data model *)
(* ================================================================== *)

(** The evidence payload attached to a candidate. *)
Inductive json :=
| JUndefined
| JNull
| JBool (b : bool)
| JNum (x : float)
| JStr (s : string)
| JArr (l : list json)
| JObj (fields : list (string * json)).

Definition jnum (o : option float) : json :=
  match o with Some x => JNum x | None => JUndefined end.

Definition jstr (o : option string) : json :=
  match o with Some s => JStr s | None => JUndefined end.

Record CostItem := { cost_name : string; amount : float }.
Record ForecastPoint := { forecast : float }.
Record HistPoint := { hist_value : float }.
Record Chart := { historical : option (list HistPoint) }.
Record Accuracy := { mape : option float }.
Record OptVariable := { var_name : string; value : float }.
Record OptConstraint := { con_name : string; slack : float }.

(** [AnalysisResult.data]: the fields the engine reads; a field the
    stored object does not carry is [None]. *)
Record Payload := {
  businessName : option string;
  profitMargin : option float;
  roi : option float;
  paybackPeriod : option float;
  operationalCosts : option (list CostItem);
  breakEvenUnits : option float;
  monthlySalesVolume : option float;
  productName : option string;
  forecasted : option (list ForecastPoint);
  chart : option Chart;
  accuracy : option Accuracy;
  name : option string;
  feasible : option bool;
  objectiveValue : option float;
  variables : option (list OptVariable);
  constraints : option (list OptConstraint)
}.

Definition emptyPayload : Payload :=
  {| businessName := None; profitMargin := None; roi := None;
     paybackPeriod := None; operationalCosts := None;
     breakEvenUnits := None; monthlySalesVolume := None;
     productName := None; forecasted := None; chart := None;
     accuracy := None; name := None; feasible := None;
     objectiveValue := None; variables := None; constraints := None |}.

Record AnalysisResult := {
  ar_id : string;
  ar_type : string;
  ar_data : Payload;
  created_at : option Z      (* Date or null *)
}.

Record ChatMessage := {
  role : string;
  content : string;
  msg_created_at : option Z
}.

Inductive RecType := business | market | resource | crop.
Inductive RecSource := analysis | pattern | chat | seasonal.
Inductive Season := spring | summer | fall | winter.

(** The value of a candidate's [createdAt]: a [Date], or anything else. *)
Inductive DateValue := ADate (ms : Z) | NotADate.

Record Recommendation := {
  rec_id : string;
  rec_type : RecType;
  title : string;
  description : string;
  confidence : Q;
  data : json;
  source : RecSource;
  createdAt : DateValue
}.

Record RecommendationInput := {
  userId : string;
  analysisResults : list AnalysisResult;
  chatHistory : list ChatMessage;
  currentSeason : option Season
}.

Record RecommendationOutput := {
  out_id : string;
  out_userId : string;
  recommendations : list Recommendation;
  summary : string;
  out_createdAt : DateValue
}.

Definition RecType_eqb (a b : RecType) : bool :=
  match a, b with
  | business, business | market, market | resource, resource | crop, crop => true
  | _, _ => false
  end.

Definition DateValue_eqb (a b : DateValue) : bool :=
  match a, b with
  | ADate x, ADate y => Z.eqb x y
  | NotADate, NotADate => true
  | _, _ => false
  end.

(* ================================================================== *)
(** * The recommendation engine *)
(* ================================================================== *)

Module JsNum.
(** ToNumber of a field that may be absent: [undefined] is [NaN]. *)
Definition num (o : option float) : float :=
  match o with Some x => x | None => PrimFloat.nan end.

(** An array length or a count as a number. *)
Definition ofNat (n : nat) : float :=
  PrimFloat.of_uint63 (Uint63.of_Z (Z.of_nat n)).
End JsNum.

Section Engine.
Variable h : Host.
Open Scope string_scope.
Import Js JsNum.

(** [new Date()] and [Date.now()]: one reading of the clock each. *)
Definition newDate : Eff DateValue := fun k => (ADate (wallClock h k), S k).
Definition Date_now : Eff Z := fun k => (wallClock h k, S k).

(** The day [toDateString] prints for a [Date]. *)
Definition toDateString (ms : Z) : Z := ((ms + tzOffsetMs h ms) / 86400000)%Z.

Definition sortByRecency (results : list AnalysisResult) : list AnalysisResult :=
  sort (fun a b =>
          let dateA := match created_at a with Some t => t | None => 0%Z end in
          let dateB := match created_at b with Some t => t | None => 0%Z end in
          signZ (dateB - dateA))
       results.

(** ** Business-feasibility extractor *)

Definition businessProfit (result : AnalysisResult) : Eff (list Recommendation) :=
  let data := ar_data result in
  if truthyOpt (profitMargin data) && (0.25 <? num (profitMargin data))%float then
    now <- newDate ;;
    ret [ {| rec_id := "biz-profit-" ++ ar_id result;
             rec_type := business;
             title := "Profitable Business Model";
             description :=
               "Your " ++ showOpt (businessName data)
               ++ " shows a strong profit margin of "
               ++ toFixed h (num (profitMargin data) * 100)%float 1
               ++ "%. Consider scaling operations while maintaining current cost structure.";
             confidence := 0.8;
             data := JObj [("profitMargin", jnum (profitMargin data));
                           ("roi", jnum (roi data));
                           ("businessName", jstr (businessName data))];
             source := analysis;
             createdAt := now |} ]
  else ret [].

Definition businessRoi (result : AnalysisResult) : Eff (list Recommendation) :=
  let data := ar_data result in
  if truthyOpt (roi data) && (0.15 <? num (roi data))%float then
    now <- newDate ;;
    ret [ {| rec_id := "biz-roi-" ++ ar_id result;
             rec_type := business;
             title := "Strong Return on Investment";
             description :=
               "Your investment in " ++ showOpt (businessName data)
               ++ " shows a " ++ toFixed h (num (roi data) * 100)%float 1
               ++ "% ROI. Consider additional investment in similar ventures.";
             confidence := 0.75;
             data := JObj [("roi", jnum (roi data));
                           ("paybackPeriod", jnum (paybackPeriod data))];
             source := analysis;
             createdAt := now |} ]
  else ret [].

Definition businessCost (result : AnalysisResult) : Eff (list Recommendation) :=
  let data := ar_data result in
  match operationalCosts data with
  | Some costs =>
      let sortedCosts :=
        sort (fun a b => signF (amount b - amount a)%float) costs in
      match sortedCosts with
      | highestCost :: _ =>
          let costPercentage :=
            (amount highestCost /
             fold_left (fun sum cost => sum + amount cost) sortedCosts 0)%float in
          if (0.3 <? costPercentage)%float then
            now <- newDate ;;
            ret [ {| rec_id := "biz-cost-" ++ ar_id result;
                     rec_type := resource;
                     title := "Cost Reduction Opportunity";
                     description :=
                       cost_name highestCost ++ " represents "
                       ++ toFixed h (costPercentage * 100)%float 1
                       ++ "% of your operational costs. Reducing this could significantly improve profitability.";
                     confidence := 0.7;
                     data := JObj [("costName", JStr (cost_name highestCost));
                                   ("costAmount", JNum (amount highestCost));
                                   ("percentage", JNum costPercentage)];
                     source := analysis;
                     createdAt := now |} ]
          else ret []
      | [] => ret []
      end
  | None => ret []
  end.

Definition businessBreakEven (result : AnalysisResult) : Eff (list Recommendation) :=
  let data := ar_data result in
  if truthyOpt (breakEvenUnits data) && truthyOpt (monthlySalesVolume data) then
    let breakEvenRatio :=
      (num (breakEvenUnits data) / num (monthlySalesVolume data))%float in
    if (breakEvenRatio <? 0.5)%float then
      now <- newDate ;;
      ret [ {| rec_id := "biz-breakeven-" ++ ar_id result;
               rec_type := business;
               title := "Favorable Break-Even Point";
               description :=
                 "You reach break-even at just "
                 ++ toFixed h (breakEvenRatio * 100)%float 1
                 ++ "% of your monthly sales volume. This gives you a safety margin in market fluctuations.";
               confidence := 0.85;
               data := JObj [("breakEvenUnits", jnum (breakEvenUnits data));
                             ("monthlySalesVolume", jnum (monthlySalesVolume data));
                             ("ratio", JNum breakEvenRatio)];
               source := analysis;
               createdAt := now |} ]
    else ret []
  else ret [].

(** The body of the [forEach] callback: the four guarded rules in turn. *)
Definition businessRecord (result : AnalysisResult) : Eff (list Recommendation) :=
  r1 <- businessProfit result ;;
  r2 <- businessRoi result ;;
  r3 <- businessCost result ;;
  r4 <- businessBreakEven result ;;
  ret (r1 ++ r2 ++ r3 ++ r4)%list.

Definition extractBusinessRecommendations (results : list AnalysisResult)
  : Eff (list Recommendation) :=
  let businessResults :=
    sortByRecency (filter (fun r => ar_type r =? "business_feasibility") results) in
  let recentBusinessResults := slice0 3 businessResults in
  forEachPush businessRecord recentBusinessResults.
(** ** Demand-forecast extractor *)

Definition nanPoint : ForecastPoint := {| forecast := PrimFloat.nan |}.

Definition forecastGrowth (result : AnalysisResult) : Eff (list Recommendation) :=
  let data := ar_data result in
  match forecasted data with
  | Some points =>
      if (1 <? List.length points)%nat then
        let firstForecast := forecast (nth 0 points nanPoint) in
        let lastForecast := forecast (nth (List.length points - 1) points nanPoint) in
        let growthRate := ((lastForecast - firstForecast) / firstForecast)%float in
        if (0.1 <? growthRate)%float then
          now <- newDate ;;
          ret [ {| rec_id := "forecast-growth-" ++ ar_id result;
                   rec_type := market;
                   title := "Growing Demand Trend";
                   description :=
                     "Demand for " ++ showOpt (productName data)
                     ++ " is projected to grow by "
                     ++ toFixed h (growthRate * 100)%float 1
                     ++ "% over the forecast period. Consider increasing production capacity.";
                   confidence := 0.75;
                   data := JObj [("productName", jstr (productName data));
                                 ("growthRate", JNum growthRate);
                                 ("firstForecast", JNum firstForecast);
                                 ("lastForecast", JNum lastForecast)];
                   source := analysis;
                   createdAt := now |} ]
        else if (growthRate <? -0.1)%float then
          now <- newDate ;;
          ret [ {| rec_id := "forecast-decline-" ++ ar_id result;
                   rec_type := market;
                   title := "Declining Demand Alert";
                   description :=
                     "Demand for " ++ showOpt (productName data)
                     ++ " is projected to decline by "
                     ++ toFixed h (PrimFloat.abs growthRate * 100)%float 1
                     ++ "% over the forecast period. Consider diversifying your product mix.";
                   confidence := 0.75;
                   data := JObj [("productName", jstr (productName data));
                                 ("declineRate", JNum (PrimFloat.abs growthRate));
                                 ("firstForecast", JNum firstForecast);
                                 ("lastForecast", JNum lastForecast)];
                   source := analysis;
                   createdAt := now |} ]
        else ret []
      else ret []
  | None => ret []
  end.

Definition forecastSeasonal (result : AnalysisResult) : Eff (list Recommendation) :=
  let data := ar_data result in
  match chart data with
  | Some c =>
      match historical c with
      | Some hist =>
          let values := map hist_value hist in
          let avg :=
            (fold_left (fun sum val => sum + val) values 0 / ofNat (List.length values))%float in
          let peaks := List.length (filter (fun v => (avg * 1.2 <? v)%float) values) in
          if (2 <=? peaks)%nat then
            now <- newDate ;;
            ret [ {| rec_id := "forecast-seasonal-" ++ ar_id result;
                     rec_type := market;
                     title := "Seasonal Demand Pattern";
                     description :=
                       showOpt (productName data)
                       ++ " shows seasonal demand patterns with "
                       ++ showZ (Z.of_nat peaks)
                       ++ " peak periods. Plan inventory and production to align with these patterns.";
                     confidence := 0.7;
                     data := JObj [("productName", jstr (productName data));
                                   ("peakPeriods", JNum (ofNat peaks));
                                   ("averageDemand", JNum avg)];
                     source := pattern;
                     createdAt := now |} ]
          else ret []
      | None => ret []
      end
  | None => ret []
  end.

Definition forecastAccuracy (result : AnalysisResult) : Eff (list Recommendation) :=
  let data := ar_data result in
  match accuracy data with
  | Some acc =>
      if truthyOpt (mape acc) && (num (mape acc) <? 10)%float then
        now <- newDate ;;
        ret [ {| rec_id := "forecast-accuracy-" ++ ar_id result;
                 rec_type := business;
                 title := "High Forecast Reliability";
                 description :=
                   "Your " ++ showOpt (productName data)
                   ++ " forecast has a high accuracy (MAPE: "
                   ++ toFixed h (num (mape acc)) 1
                   ++ "%). Use this forecast with confidence for planning.";
                 confidence := 0.8;
                 data := JObj [("productName", jstr (productName data));
                               ("mape", jnum (mape acc))];
                 source := analysis;
                 createdAt := now |} ]
      else if truthyOpt (mape acc) && (20 <? num (mape acc))%float then
        now <- newDate ;;
        ret [ {| rec_id := "forecast-inaccuracy-" ++ ar_id result;
                 rec_type := business;
                 title := "Forecast Uncertainty Alert";
                 description :=
                   "Your " ++ showOpt (productName data)
                   ++ " forecast has a higher error rate (MAPE: "
                   ++ toFixed h (num (mape acc)) 1
                   ++ "%). Consider using more historical data or adjusting your forecast method.";
                 confidence := 0.7;
                 data := JObj [("productName", jstr (productName data));
                               ("mape", jnum (mape acc))];
                 source := analysis;
                 createdAt := now |} ]
      else ret []
  | None => ret []
  end.

Definition forecastRecord (result : AnalysisResult) : Eff (list Recommendation) :=
  r1 <- forecastGrowth result ;;
  r2 <- forecastSeasonal result ;;
  r3 <- forecastAccuracy result ;;
  ret (r1 ++ r2 ++ r3)%list.

Definition extractForecastRecommendations (results : list AnalysisResult)
  : Eff (list Recommendation) :=
  let forecastResults :=
    sortByRecency (filter (fun r => ar_type r =? "demand_forecast") results) in
  let recentForecasts := slice0 3 forecastResults in
  forEachPush forecastRecord recentForecasts.

(** ** Optimization extractor *)

Definition jvariable (v : OptVariable) : json :=
  JObj [("name", JStr (var_name v)); ("value", JNum (value v))].

Definition optFeasible (result : AnalysisResult) : Eff (list Recommendation) :=
  let data := ar_data result in
  now <- newDate ;;
  ret [ {| rec_id := "opt-feasible-" ++ ar_id result;
           rec_type := resource;
           title := "Optimal Resource Allocation";
           description :=
             "Your " ++ showOpt (name data)
             ++ " optimization model has a feasible solution with "
             ++ (if truthyOpt (objectiveValue data)
                 then "an objective value of " ++ toFixed h (num (objectiveValue data)) 2
                 else "optimized resource allocation")
             ++ ".";
           confidence := 0.9;
           data := JObj [("optimizationName", jstr (name data));
                         ("objectiveValue", jnum (objectiveValue data))];
           source := analysis;
           createdAt := now |} ].

Definition optResources (result : AnalysisResult) : Eff (list Recommendation) :=
  let data := ar_data result in
  match variables data with
  | Some vars =>
      let significantVariables :=
        slice0 3
          (sort (fun a b => signF (value b - value a)%float)
                (filter (fun v => (0 <? value v)%float) vars)) in
      if (0 <? List.length significantVariables)%nat then
        let varList :=
          join ", " (map (fun v => var_name v ++ ": " ++ toFixed h (value v) 2)
                         significantVariables) in
        now <- newDate ;;
        ret [ {| rec_id := "opt-resources-" ++ ar_id result;
                 rec_type := resource;
                 title := "Key Resource Allocation";
                 description :=
                   "Focus on these resources for optimal results: " ++ varList;
                 confidence := 0.8;
                 data := JObj [("optimizationName", jstr (name data));
                               ("topResources", JArr (map jvariable significantVariables))];
                 source := analysis;
                 createdAt := now |} ]
      else ret []
  | None => ret []
  end.

Definition optConstraints (result : AnalysisResult) : Eff (list Recommendation) :=
  let data := ar_data result in
  match constraints data with
  | Some cstrs =>
      let bindingConstraints :=
        map con_name
            (filter (fun c => PrimFloat.eqb (slack c) 0
                              || (PrimFloat.abs (slack c) <? 1e-3)%float) cstrs) in
      if (0 <? List.length bindingConstraints)%nat then
        now <- newDate ;;
        ret [ {| rec_id := "opt-constraints-" ++ ar_id result;
                 rec_type := business;
                 title := "Resource Bottlenecks Identified";
                 description :=
                   "These factors are limiting your optimization: "
                   ++ join ", " bindingConstraints
                   ++ ". Consider increasing these resources.";
                 confidence := 0.85;
                 data := JObj [("optimizationName", jstr (name data));
                               ("bindingConstraints", JArr (map JStr bindingConstraints))];
                 source := analysis;
                 createdAt := now |} ]
      else ret []
  | None => ret []
  end.

Definition optInfeasible (result : AnalysisResult) : Eff (list Recommendation) :=
  let data := ar_data result in
  now <- newDate ;;
  ret [ {| rec_id := "opt-infeasible-" ++ ar_id result;
           rec_type := business;
           title := "Resource Constraints Too Tight";
           description :=
             "Your " ++ showOpt (name data)
             ++ " optimization model doesn't have a feasible solution. Consider relaxing some constraints or adding more resources.";
           confidence := 0.9;
           data := JObj [("optimizationName", jstr (name data))];
           source := analysis;
           createdAt := now |} ].

(** The [forEach] callback: [feasible === true], else
    [feasible === false], else nothing. *)
Definition optimizationRecord (result : AnalysisResult) : Eff (list Recommendation) :=
  match feasible (ar_data result) with
  | Some true =>
      r1 <- optFeasible result ;;
      r2 <- optResources result ;;
      r3 <- optConstraints result ;;
      ret (r1 ++ r2 ++ r3)%list
  | Some false => optInfeasible result
  | None => ret []
  end.

Definition extractOptimizationRecommendations (results : list AnalysisResult)
  : Eff (list Recommendation) :=
  let optimizationResults :=
    sortByRecency (filter (fun r => ar_type r =? "optimization") results) in
  let recentOptimizations := slice0 3 optimizationResults in
  forEachPush optimizationRecord recentOptimizations.
(** ** Chat-insight extractor *)

(** [keywordMap], in the order [Object.entries] visits it. *)
Definition keywordMap : list (string * string) :=
  [ ("increase", "growth"); ("expand", "growth"); ("grow", "growth");
    ("profit", "profit"); ("revenue", "profit");
    ("cost", "cost"); ("expense", "cost"); ("save", "cost");
    ("risk", "risk");
    ("market", "market"); ("demand", "market"); ("customer", "market");
    ("season", "seasonal"); ("weather", "seasonal"); ("climate", "seasonal");
    ("resource", "resource"); ("water", "resource"); ("soil", "resource");
    ("fertilizer", "resource"); ("pest", "resource"); ("equipment", "resource") ].

(** The [categories] object: its keys in insertion order, each with
    the sentences pushed so far. *)
Definition Categories : Type := list (string * list string).

Definition initialCategories : Categories :=
  [ ("growth", []); ("profit", []); ("cost", []); ("risk", []);
    ("market", []); ("seasonal", []); ("resource", []) ].

(** [categories[category].push(s)] *)
Definition pushTo (category s : string) (categories : Categories) : Categories :=
  map (fun kv => if fst kv =? category then (fst kv, (snd kv ++ [s])%list) else kv)
      categories.

Definition recentAssistantMessages (messages : list ChatMessage) : list ChatMessage :=
  let sortedMessages :=
    sort (fun a b =>
            let dateA := match msg_created_at a with Some t => t | None => 0%Z end in
            let dateB := match msg_created_at b with Some t => t | None => 0%Z end in
            signZ (dateB - dateA))
         (filter (fun m => role m =? "assistant") messages) in
  slice0 10 sortedMessages.

(** The inner callback, for one [keyword, category] entry. *)
Definition scanKeyword (message : ChatMessage) (categories : Categories)
           (entry : string * string) : Categories :=
  let (keyword, category) := entry in
  let lowered := toLowerCase (content message) in
  if includes keyword lowered then
    let sentences := splitSentences (content message) in
    let relevantSentences :=
      filter (fun s => includes keyword (toLowerCase s)) sentences in
    match relevantSentences with
    | first :: _ => pushTo category (trim first) categories
    | [] => categories
    end
  else categories.

Definition scanMessage (categories : Categories) (message : ChatMessage) : Categories :=
  fold_left (scanKeyword message) keywordMap categories.

Definition collectCategories (messages : list ChatMessage) : Categories :=
  fold_left scanMessage (recentAssistantMessages messages) initialCategories.

Definition chatType (category : string) : RecType :=
  if (category =? "growth") || (category =? "profit") then business
  else if (category =? "market") || (category =? "seasonal") then market
  else if (category =? "resource") || (category =? "cost") then resource
  else business.

Definition chatTitles : list (string * string) :=
  [ ("growth", "Growth Opportunity"); ("profit", "Profit Enhancement");
    ("cost", "Cost Saving Opportunity"); ("risk", "Risk Management");
    ("market", "Market Intelligence"); ("seasonal", "Seasonal Planning");
    ("resource", "Resource Optimization") ].

Fixpoint lookup {V} (k : string) (o : list (string * V)) : option V :=
  match o with
  | [] => None
  | (k', v) :: o' => if k' =? k then Some v else lookup k o'
  end.

(** [t || d] on a string that may be absent. *)
Definition orString (t : option string) (d : string) : string :=
  match t with
  | Some s => if s =? "" then d else s
  | None => d
  end.

Definition chatCandidate (entry : string * list string) : Eff (list Recommendation) :=
  let (category, sentences) := entry in
  match sentences with
  | topSentence :: _ =>
      let type := chatType category in
      let title := lookup category chatTitles in
      stamp <- Date_now ;;
      now <- newDate ;;
      ret [ {| rec_id := "chat-" ++ category ++ "-" ++ showZ stamp;
               rec_type := type;
               title := orString title "AI Insight";
               description := topSentence;
               confidence := 0.6;
               data := JObj [("category", JStr category);
                             ("relatedSentences", JArr (map JStr sentences))];
               source := chat;
               createdAt := now |} ]
  | [] => ret []
  end.

Definition extractChatInsights (messages : list ChatMessage) : Eff (list Recommendation) :=
  forEachPush chatCandidate (collectCategories messages).

(** ** Seasonal advisor *)

Definition seasonName (s : Season) : string :=
  match s with
  | spring => "spring" | summer => "summer" | fall => "fall" | winter => "winter"
  end.

Definition seasonalCrops (s : Season) : list string :=
  match s with
  | spring => ["Corn"; "Soybeans"; "Rice"; "Cotton"; "Vegetables"]
  | summer => ["Sunflower"; "Sorghum"; "Millet"; "Vegetables"; "Fruits"]
  | fall => ["Winter Wheat"; "Barley"; "Rapeseed"; "Root vegetables"]
  | winter => ["Planning"; "Equipment maintenance"; "Soil preparation"]
  end.

Definition seasonalActivities (s : Season) : list string :=
  match s with
  | spring => ["Planting"; "Soil preparation"; "Fertilizing"; "Pest management planning"]
  | summer => ["Irrigation management"; "Pest control"; "Crop monitoring";
               "Early harvest planning"]
  | fall => ["Harvesting"; "Storage preparation"; "Market research"; "Winter crop planting"]
  | winter => ["Equipment maintenance"; "Financial planning"; "Education"; "Crop planning"]
  end.

(** [s.charAt(0).toUpperCase() + s.slice(1)] *)
Definition capitalized (s : string) : string :=
  toUpperCase (charAt0 s) ++ slice1 s.

Definition addSeasonalRecommendations (currentSeason : option Season)
  : Eff (list Recommendation) :=
  match currentSeason with
  | None => ret []
  | Some season =>
      let s := seasonName season in
      stamp1 <- Date_now ;;
      now1 <- newDate ;;
      stamp2 <- Date_now ;;
      now2 <- newDate ;;
      ret [ {| rec_id := "seasonal-crop-" ++ showZ stamp1;
               rec_type := crop;
               title := capitalized s ++ " Crop Recommendations";
               description :=
                 "Consider focusing on these crops this " ++ s ++ ": "
                 ++ join ", " (seasonalCrops season) ++ ".";
               confidence := 0.7;
               data := JObj [("season", JStr s);
                             ("recommendedCrops", JArr (map JStr (seasonalCrops season)))];
               source := seasonal;
               createdAt := now1 |};
            {| rec_id := "seasonal-activity-" ++ showZ stamp2;
               rec_type := business;
               title := capitalized s ++ " Activity Focus";
               description :=
                 "Key activities for this " ++ s ++ ": "
                 ++ join ", " (seasonalActivities season) ++ ".";
               confidence := 0.7;
               data := JObj [("season", JStr s);
                             ("recommendedActivities",
                              JArr (map JStr (seasonalActivities season)))];
               source := seasonal;
               createdAt := now2 |} ]
  end.

(** ** Aggregator *)

(** First comparator of [generateRecommendations]: creation time,
    newest first. *)
Definition byCreationTime (a b : Recommendation) : comparison :=
  let dateA := match createdAt a with ADate ms => ms | NotADate => 0%Z end in
  let dateB := match createdAt b with ADate ms => ms | NotADate => 0%Z end in
  signZ (dateB - dateA).

(** The text compared by the second comparator: the printed day of a
    [Date] ([Some day]), the empty string otherwise ([None]). *)
Definition dayText (c : Recommendation) : option Z :=
  match createdAt c with ADate ms => Some (toDateString ms) | NotADate => None end.

Definition dayText_eqb (x y : option Z) : bool :=
  match x, y with
  | Some d, Some e => Z.eqb d e
  | None, None => true
  | _, _ => false
  end.

(** Second comparator: confidence, highest first, between candidates
    of one day; [0] between candidates of different days. *)
Definition bySameDayConfidence (a b : Recommendation) : comparison :=
  let dateA := dayText a in
  let dateB := dayText b in
  if dayText_eqb dateA dateB then signQ (confidence b - confidence a)
  else Eq.

(** The two successive [allRecommendations.sort] calls. *)
Definition rank (allRecommendations : list Recommendation) : list Recommendation :=
  sort bySameDayConfidence (sort byCreationTime allRecommendations).

Definition fallbackSummary : string :=
  "Insufficient data for personalized recommendations. Continue using Arina to analyze your agricultural business for tailored insights.".

Definition titleSentence (r : option Recommendation) : string :=
  match r with Some c => title c ++ ". " | None => "" end.

Definition countType (t : string) (results : list AnalysisResult) : nat :=
  List.length (filter (fun r => ar_type r =? t) results).

Definition buildSummary (input : RecommendationInput)
           (topRecs : list Recommendation) : string :=
  if (0 <? List.length topRecs)%nat then
    let businessRec := find (fun r => RecType_eqb (rec_type r) business) topRecs in
    let marketRec := find (fun r => RecType_eqb (rec_type r) market) topRecs in
    let resourceRec := find (fun r => RecType_eqb (rec_type r) resource) topRecs in
    let cropRec := find (fun r => RecType_eqb (rec_type r) crop) topRecs in
    let cBusiness := countType "business_feasibility" (analysisResults input) in
    let cForecast := countType "demand_forecast" (analysisResults input) in
    let cOptimization := countType "optimization" (analysisResults input) in
    let opener :=
      if (0 <? cBusiness)%nat || (0 <? cForecast)%nat || (0 <? cOptimization)%nat then
        "Based on your "
        ++ (if (0 <? cBusiness)%nat then "business feasibility analysis, " else "")
        ++ (if (0 <? cForecast)%nat then "demand forecasting, " else "")
        ++ (if (0 <? cOptimization)%nat then "optimization analysis, " else "")
        ++ "we recommend: "
      else "Based on your historical data, we recommend: " in
    opener
    ++ titleSentence businessRec ++ titleSentence marketRec
    ++ titleSentence resourceRec ++ titleSentence cropRec
    ++ match currentSeason input with
       | Some season =>
           "Consider adjusting your strategy for the " ++ seasonName season ++ " season."
       | None => ""
       end
  else fallbackSummary.

(** The candidates of the five producers, concatenated in the order
    business, forecast, optimization, chat, seasonal. *)
Definition mergedRecommendations (input : RecommendationInput)
  : Eff (list Recommendation) :=
  let sortedResults := slice0 10 (sortByRecency (analysisResults input)) in
  businessRecs <- extractBusinessRecommendations sortedResults ;;
  forecastRecs <- extractForecastRecommendations sortedResults ;;
  optimizationRecs <- extractOptimizationRecommendations sortedResults ;;
  chatRecs <- extractChatInsights (chatHistory input) ;;
  seasonalRecs <- addSeasonalRecommendations (currentSeason input) ;;
  ret (businessRecs ++ forecastRecs ++ optimizationRecs ++ chatRecs ++ seasonalRecs)%list.

Definition generateRecommendations (input : RecommendationInput)
  : Eff RecommendationOutput :=
  allRecommendations <- mergedRecommendations input ;;
  let ranked := rank allRecommendations in
  let finalRecommendations := slice0 10 ranked in
  let topRecs := slice0 5 finalRecommendations in
  let summary := buildSummary input topRecs in
  stamp <- Date_now ;;
  now <- newDate ;;
  ret {| out_id := "rec-set-" ++ showZ stamp;
         out_userId := userId input;
         recommendations := finalRecommendations;
         summary := summary;
         out_createdAt := now |}.
End Engine.

(* ================================================================== *)
(** * Storage adapter: [createRecommendationSet] *)
(* ================================================================== *)

Module Storage.
Open Scope string_scope.

(** A property value of a stored document. *)
Inductive value :=
| VStr (s : string)
| VDate (ms : Z)
| VOther (j : json).

(** A JavaScript object: its own properties, in insertion order. *)
Definition object : Type := list (string * value).

Fixpoint get (k : string) (o : object) : option value :=
  match o with
  | [] => None
  | (k', v) :: o' => if k' =? k then Some v else get k o'
  end.

(** Defining property [k] in an object literal: an existing property
    keeps its place and takes the new value; a new one goes last. *)
Fixpoint setProp (k : string) (v : value) (o : object) : object :=
  match o with
  | [] => [(k, v)]
  | (k', v') :: o' => if k' =? k then (k', v) :: o' else (k', v') :: setProp k v o'
  end.

(** [{ ...src }] continued onto the literal built so far. *)
Definition spread (src : object) (o : object) : object :=
  fold_left (fun acc kv => setProp (fst kv) (snd kv) acc) src o.

(** The collection, and how many uuids and clock readings were drawn. *)
Record Db := {
  recommendation_sets : list object;
  uuidsDrawn : nat;
  clockReads : nat
}.

Section WithHost.
Variable h : Host.

(** [{ id: v4(), ...setData, created_at: new Date() }], then
    [insertOne(set)] and [return set]. *)
Definition createRecommendationSet (setData : object) (db : Db) : object * Db :=
  let fresh := VStr (v4 h (uuidsDrawn db)) in
  let now := VDate (wallClock h (clockReads db)) in
  let set := setProp "created_at" now (spread setData (setProp "id" fresh [])) in
  (set,
   {| recommendation_sets := recommendation_sets db ++ [set];
      uuidsDrawn := S (uuidsDrawn db);
      clockReads := S (clockReads db) |}).

(** [RecommendationService.generateRecommendations], the step that
    stores the set: the service draws [setId] and a creation time of
    its own and passes both in [setToInsert]. *)
Definition storeGeneratedSet (user summaryText : string) (db : Db) : object * Db :=
  let setId := v4 h (uuidsDrawn db) in
  let created := wallClock h (clockReads db) in
  let setToInsert :=
    [ ("id", VStr setId); ("user_id", VStr user);
      ("summary", VStr summaryText); ("created_at", VDate created) ] in
  createRecommendationSet setToInsert
    {| recommendation_sets := recommendation_sets db;
       uuidsDrawn := S (uuidsDrawn db);
       clockReads := S (clockReads db) |}.
End WithHost.
End Storage.

(* ================================================================== *)
(** * Storage adapter: sets and items, and the service on top of it *)
(* ================================================================== *)

Module Store.
Import Storage.
Open Scope string_scope.

(** The [recommendation_sets] collection with the two counters ([db]),
    and the [recommendation_items] collection. *)
Record State := {
  db : Db;
  recommendation_items : list object
}.

(** Reading [doc.k]: [None] when the property is missing; a property
    holding [undefined] or [null] is not listed in an [object]. *)
Definition prop (k : string) (v : option value) : object :=
  match v with Some x => [(k, x)] | None => [] end.

(** The query filter [{ field: id }] for a string [id]. *)
Definition fieldIs (field id : string) (doc : object) : bool :=
  match get field doc with
  | Some (VStr s) => s =? id
  | _ => false
  end.

(** [findOne(filter)] *)
Definition findOne (p : object -> bool) (docs : list object) : option object :=
  find p docs.

(** [deleteOne(filter)]: the first matching document is removed. *)
Fixpoint deleteOne (p : object -> bool) (docs : list object) : list object :=
  match docs with
  | [] => []
  | d :: ds => if p d then ds else d :: deleteOne p ds
  end.

(** [deleteMany(filter)]: every matching document is removed. *)
Definition deleteMany (p : object -> bool) (docs : list object) : list object :=
  filter (fun d => negb (p d)) docs.

(** The comparator of [.sort({ created_at: -1 })]: documents whose
    [created_at] is a Date come first, newest first.  The order among
    documents with equal keys is the stored order. *)
Definition byCreatedAtDesc (a b : object) : comparison :=
  match get "created_at" a, get "created_at" b with
  | Some (VDate ta), Some (VDate tb) => Js.signZ (tb - ta)
  | Some (VDate _), _ => Lt
  | _, Some (VDate _) => Gt
  | _, _ => Eq
  end.

(** What the driver reads back for a value it has written.  BSON has
    no [undefined]: with the driver's default ([ignoreUndefined] off) a
    property or an array element holding [undefined] is written as
    [null], at any depth.  Strings, dates, numbers and booleans are read
    back as they were written. *)
Fixpoint fromBson (j : json) : json :=
  match j with
  | JUndefined => JNull
  | JArr l => JArr (map fromBson l)
  | JObj fields =>
      JObj (map (fun kv : string * json => let (k, v) := kv in (k, fromBson v)) fields)
  | _ => j
  end.

Definition readValue (v : value) : value :=
  match v with
  | VOther j => VOther (fromBson j)
  | _ => v
  end.

(** A document as [find] and [findOne] return it.  A collection is
    kept as the list of the objects handed to [insertOne]; what a query
    returns is what the driver reads back for them. *)
Definition readDocument (doc : object) : object :=
  map (fun kv => (fst kv, readValue (snd kv))) doc.

(** The projection of [getRecommendationSet]. *)
Definition setRow (s : object) : object :=
  (prop "id" (get "id" s) ++ prop "user_id" (get "user_id" s)
   ++ prop "summary" (get "summary" s) ++ prop "created_at" (get "created_at" s))%list.

(** The projection of [getRecommendationItems]. *)
Definition itemRow (i : object) : object :=
  (prop "id" (get "id" i) ++ prop "set_id" (get "set_id" i)
   ++ prop "title" (get "title" i) ++ prop "type" (get "type" i)
   ++ prop "description" (get "description" i)
   ++ prop "confidence" (get "confidence" i) ++ prop "data" (get "data" i)
   ++ prop "source" (get "source" i) ++ prop "created_at" (get "created_at" i))%list.

Definition getRecommendationSet (id : string) (st : State) : option object :=
  match findOne (fieldIs "id" id) (recommendation_sets (db st)) with
  | Some s => Some (setRow (readDocument s))
  | None => None
  end.

Definition getRecommendationItems (setId : string) (st : State) : list object :=
  map (fun i => itemRow (readDocument i))
      (Js.sort byCreatedAtDesc
               (filter (fieldIs "set_id" setId) (recommendation_items st))).

(** [deleteOne] on the sets, then [deleteMany] on the items. *)
Definition deleteRecommendationSet (id : string) (st : State) : State :=
  {| db := {| recommendation_sets :=
                deleteOne (fieldIs "id" id) (recommendation_sets (db st));
              uuidsDrawn := uuidsDrawn (db st);
              clockReads := clockReads (db st) |};
     recommendation_items :=
       deleteMany (fieldIs "set_id" id) (recommendation_items st) |}.

Definition typeName (t : RecType) : string :=
  match t with
  | business => "business" | market => "market"
  | resource => "resource" | crop => "crop"
  end.

Definition sourceName (s : RecSource) : string :=
  match s with
  | analysis => "analysis" | pattern => "pattern"
  | chat => "chat" | seasonal => "seasonal"
  end.

(** What the service returns for a set: the mapped set and its mapped
    items. *)
Record ApiSet := {
  api_fields : object;
  api_items : list object
}.

Section WithHost.
Variable h : Host.
Variable numberToString : Q -> string.        (* Number.prototype.toString *)
Variable toNumber : option value -> float.    (* Number(x) *)
Variable toISOString : Z -> string.           (* Date.prototype.toISOString *)

(** [createRecommendationSet] on the whole state. *)
Definition createSet (setData : object) (st : State) : object * State :=
  let (set, db') := createRecommendationSet h setData (db st) in
  (set, {| db := db'; recommendation_items := recommendation_items st |}).

(** [{ id: v4(), ...itemData, created_at: new Date() }], then
    [insertOne(item)] and [return item]. *)
Definition createRecommendationItem (itemData : object) (st : State) : object * State :=
  let fresh := VStr (v4 h (uuidsDrawn (db st))) in
  let now := VDate (wallClock h (clockReads (db st))) in
  let item := setProp "created_at" now (spread itemData (setProp "id" fresh [])) in
  (item,
   {| db := {| recommendation_sets := recommendation_sets (db st);
               uuidsDrawn := S (uuidsDrawn (db st));
               clockReads := S (clockReads (db st)) |};
      recommendation_items := (recommendation_items st ++ [item])%list |}).

(** [x instanceof Date ? x.toISOString() : x] *)
Definition isoOrSame (v : option value) : option value :=
  match v with
  | Some (VDate ms) => Some (VStr (toISOString ms))
  | _ => v
  end.

Definition mapRecommendationSetFromDb (set : object) : object :=
  (prop "id" (get "id" set) ++ prop "userId" (get "user_id" set)
   ++ prop "summary" (get "summary" set)
   ++ prop "createdAt" (isoOrSame (get "created_at" set)))%list.

Definition mapRecommendationItemFromDb (item : object) : object :=
  (prop "id" (get "id" item) ++ prop "setId" (get "set_id" item)
   ++ prop "type" (get "type" item) ++ prop "title" (get "title" item)
   ++ prop "description" (get "description" item)
   ++ [("confidence", VOther (JNum (toNumber (get "confidence" item))))]
   ++ prop "data" (get "data" item) ++ prop "source" (get "source" item)
   ++ prop "createdAt" (isoOrSame (get "created_at" item)))%list.

(** One turn of the loop that stores the items: the service builds
    [itemToInsert] (drawing a uuid and reading the clock), the store
    creates the item, the mapped item is pushed. *)
Definition storeItem (setIdValue : option value) (acc : list object * State)
           (rec : Recommendation) : list object * State :=
  let (items, st) := acc in
  let itemId := v4 h (uuidsDrawn (db st)) in
  let created := wallClock h (clockReads (db st)) in
  let itemToInsert :=
    ([("id", VStr itemId)] ++ prop "set_id" setIdValue
     ++ [ ("type", VStr (typeName (rec_type rec)));
          ("title", VStr (title rec));
          ("description", VStr (description rec));
          ("confidence", VStr (numberToString (confidence rec)));
          ("data", VOther (data rec));
          ("source", VStr (sourceName (source rec)));
          ("created_at", VDate created) ])%list in
  let st1 :=
    {| db := {| recommendation_sets := recommendation_sets (db st);
                uuidsDrawn := S (uuidsDrawn (db st));
                clockReads := S (clockReads (db st)) |};
       recommendation_items := recommendation_items st |} in
  let (item, st2) := createRecommendationItem itemToInsert st1 in
  ((items ++ [mapRecommendationItemFromDb item])%list, st2).

(** [RecommendationService.generateRecommendations] from the point
    where the engine has returned: store the set, then the items. *)
Definition storeGenerated (user : string) (generated : RecommendationOutput)
           (st : State) : ApiSet * State :=
  let setId := v4 h (uuidsDrawn (db st)) in
  let created := wallClock h (clockReads (db st)) in
  let setToInsert :=
    [ ("id", VStr setId); ("user_id", VStr user);
      ("summary", VStr (summary generated)); ("created_at", VDate created) ] in
  let st1 :=
    {| db := {| recommendation_sets := recommendation_sets (db st);
                uuidsDrawn := S (uuidsDrawn (db st));
                clockReads := S (clockReads (db st)) |};
       recommendation_items := recommendation_items st |} in
  let (recommendationSet, st2) := createSet setToInsert st1 in
  let (items, st3) :=
    fold_left (storeItem (get "id" recommendationSet))
              (recommendations generated) ([], st2) in
  ({| api_fields := mapRecommendationSetFromDb recommendationSet;
      api_items := items |}, st3).

(** [RecommendationService.generateRecommendations] once the analysis
    results and the chat messages of the user have been fetched: run the
    engine (its clock readings advance the same clock), then store. *)
Definition generateFromFetched (user : string) (season : option Season)
           (fetchedResults : list AnalysisResult) (chatMessages : list ChatMessage)
           (st : State) : ApiSet * State :=
  let recommendationInput :=
    {| userId := user; analysisResults := fetchedResults;
       chatHistory := chatMessages; currentSeason := season |} in
  let (generated, reads) :=
    generateRecommendations h recommendationInput (clockReads (db st)) in
  storeGenerated user generated
    {| db := {| recommendation_sets := recommendation_sets (db st);
                uuidsDrawn := uuidsDrawn (db st);
                clockReads := reads |};
       recommendation_items := recommendation_items st |}.

(** [RecommendationService.getRecommendationSet]: [null] when the store
    has no such set. *)
Definition serviceGetRecommendationSet (setId : string) (st : State) : option ApiSet :=
  match getRecommendationSet setId st with
  | None => None
  | Some set =>
      Some {| api_fields := mapRecommendationSetFromDb set;
              api_items := map mapRecommendationItemFromDb
                               (getRecommendationItems setId st) |}
  end.

End WithHost.
End Store.

(* ================================================================== *)
(** * Sample host and inputs *)
(* ================================================================== *)

Module Sample.
Open Scope string_scope.

(** A fixed offset keeps the days in the order of the instants. *)
Lemma fixedOffset_localDay (off a b : Z) :
  (a <= b)%Z -> ((a + off) / 86400000 <= (b + off) / 86400000)%Z.
Proof. intro H. apply Z.div_le_mono; lia. Qed.

(** A clock that advances one millisecond per reading, in UTC. *)
Definition host : Host :=
  {| wallClock := fun k => (1700000000000 + Z.of_nat k)%Z;
     tzOffsetMs := fun _ => 0%Z;
     toFixed := fun _ _ => "0.0";
     v4 := fun k => "uuid-" ++ Js.showZ (Z.of_nat k);
     localDay_mono := fixedOffset_localDay 0 |}.

(** New York around the end of daylight saving time in 2023: four
    hours behind UTC until 2023-11-05 06:00 UTC, five hours from then
    on. *)
Definition newYorkOffset (t : Z) : Z :=
  if (t <? 1699164000000)%Z then (-14400000)%Z else (-18000000)%Z.

(** The hour gained on 5 November lies within that day (01:00 to
    02:00 local time, twice). *)
Lemma newYork_localDay (a b : Z) :
  (a <= b)%Z ->
  ((a + newYorkOffset a) / 86400000 <= (b + newYorkOffset b) / 86400000)%Z.
Proof.
  intro H. unfold newYorkOffset.
  destruct (Z.ltb_spec a 1699164000000), (Z.ltb_spec b 1699164000000);
    try lia; try (apply Z.div_le_mono; lia).
  apply Z.le_trans with 19666%Z.
  - apply Z.lt_succ_r, Z.div_lt_upper_bound; lia.
  - apply Z.div_le_lower_bound; lia.
Qed.

(** A host in New York.  The first reading of its clock is 00:30
    local time on 5 November 2023 (04:30 UTC), the later ones shortly
    after 23:30 local time on the same day (04:30 UTC on 6 November). *)
Definition newYork : Host :=
  {| wallClock := fun k =>
       match k with
       | O => 1699158600000%Z
       | _ => (1699245000000 + Z.of_nat k)%Z
       end;
     tzOffsetMs := newYorkOffset;
     toFixed := fun _ _ => "0.0";
     v4 := fun k => "uuid-" ++ Js.showZ (Z.of_nat k);
     localDay_mono := newYork_localDay |}.

Definition forecastResult (points : list float) (m : option float) : AnalysisResult :=
  {| ar_id := "f1"; ar_type := "demand_forecast";
     ar_data :=
       {| businessName := None; profitMargin := None; roi := None;
          paybackPeriod := None; operationalCosts := None;
          breakEvenUnits := None; monthlySalesVolume := None;
          productName := Some "Rice";
          forecasted :=
            match points with
            | [] => None
            | _ => Some (map (fun x => {| forecast := x |}) points)
            end;
          chart := None;
          accuracy := match m with Some x => Some {| mape := Some x |} | None => None end;
          name := None; feasible := None; objectiveValue := None;
          variables := None; constraints := None |};
     created_at := Some 1699000000000%Z |}.

Definition optimizationResult (f : option bool) : AnalysisResult :=
  {| ar_id := "o1"; ar_type := "optimization";
     ar_data :=
       {| businessName := None; profitMargin := None; roi := None;
          paybackPeriod := None; operationalCosts := None;
          breakEvenUnits := None; monthlySalesVolume := None;
          productName := None; forecasted := None; chart := None;
          accuracy := None;
          name := Some "Irrigation"; feasible := f;
          objectiveValue := Some 1250.5%float;
          variables := Some [ {| var_name := "water"; value := 3%float |} ];
          constraints := Some [ {| con_name := "land"; slack := 0%float |} ] |};
     created_at := Some 1699000000000%Z |}.

Definition candidate (i : string) (ms : Z) (c : Q) : Recommendation :=
  {| rec_id := i; rec_type := business; title := i; description := "";
     confidence := c; data := JUndefined; source := analysis;
     createdAt := ADate ms |}.

Definition emptyInput : RecommendationInput :=
  {| userId := "u1"; analysisResults := []; chatHistory := [];
     currentSeason := None |}.

Definition message (r c : string) (t : Z) : ChatMessage :=
  {| role := r; content := c; msg_created_at := Some t |}.

(** U+00A0 (no-break space) and U+FEFF (byte order mark) in UTF-8. *)
Definition nbsp : string :=
  String (ascii_of_nat 194) (String (ascii_of_nat 160) EmptyString).

Definition bom : string :=
  String (ascii_of_nat 239) (String (ascii_of_nat 187)
    (String (ascii_of_nat 191) EmptyString)).

(** An assistant message whose second sentence stands between
    no-break spaces. *)
Definition paddedMessage : ChatMessage :=
  message "assistant" ("Note." ++ nbsp ++ "Market prices rose" ++ nbsp) 5.

(** An infeasible optimization run that carries no name. *)
Definition unnamedRun : AnalysisResult :=
  {| ar_id := "o2"; ar_type := "optimization";
     ar_data :=
       {| businessName := None; profitMargin := None; roi := None;
          paybackPeriod := None; operationalCosts := None;
          breakEvenUnits := None; monthlySalesVolume := None;
          productName := None; forecasted := None; chart := None;
          accuracy := None; name := None; feasible := Some false;
          objectiveValue := None; variables := None; constraints := None |};
     created_at := Some 1699000000000%Z |}.

Definition db0 : Storage.Db :=
  {| Storage.recommendation_sets := []; Storage.uuidsDrawn := 0; Storage.clockReads := 0 |}.

(** One infeasible optimization run and one assistant message that
    mentions a risk. *)
Definition riskInput : RecommendationInput :=
  {| userId := "u1";
     analysisResults := [optimizationResult (Some false)];
     chatHistory := [message "assistant" "The risk is low." 5];
     currentSeason := None |}.
End Sample.

(** An empty store, stand-ins for the number and date built-ins, and
    what the engine generates for [Sample.riskInput]. *)
Module SampleStore.
Definition empty : Store.State :=
  {| Store.db := Sample.db0; Store.recommendation_items := [] |}.

Definition numberToString (q : Q) : string := "0.6"%string.
Definition toNumber (v : option Storage.value) : float := 0.6%float.
Definition toISOString (ms : Z) : string := Js.showZ ms.

Definition generated : RecommendationOutput :=
  fst (generateRecommendations Sample.host Sample.riskInput 0%nat).

(** The store after the set generated for [Sample.riskInput] was
    stored for another user: one set and two items; six uuids drawn. *)
Definition stocked : Store.State :=
  snd (Store.storeGenerated Sample.host numberToString toNumber toISOString
         "u0" generated empty).

(** What the engine generates for the unnamed run alone. *)
Definition sparse : RecommendationOutput :=
  fst (generateRecommendations Sample.host
         {| userId := "u1"; analysisResults := [Sample.unnamedRun];
            chatHistory := []; currentSeason := None |} 0%nat).
End SampleStore.

(* ================================================================== *)
(** * Vocabulary of the statements *)
(* ================================================================== *)

Definition before {A} (a b : A) (l : list A) : Prop :=
  exists p q r, l = p ++ a :: q ++ b :: r.

(** The candidate carries a [Date], as every candidate the engine
    builds does. *)
Definition hasDate (c : Recommendation) : Prop := exists ms, createdAt c = ADate ms.

Definition timeOf (c : Recommendation) : Z :=
  match createdAt c with ADate ms => ms | NotADate => 0%Z end.

Definition dayOf (h : Host) (c : Recommendation) : Z := toDateString h (timeOf c).

(** The order the two passes establish together: later day first;
    within a day higher confidence first; at equal confidence newer
    first. *)
Definition rankOrder (h : Host) (a b : Recommendation) : Prop :=
  (dayOf h b < dayOf h a)%Z \/
  (dayOf h a = dayOf h b /\
   (confidence b < confidence a \/
    (confidence a == confidence b /\ (timeOf b <= timeOf a)%Z))).

(** Same creation instant and same confidence: the candidates neither
    pass tells apart. *)
Definition sameStamp (a b : Recommendation) : bool :=
  DateValue_eqb (createdAt a) (createdAt b) && Qeq_bool (confidence a) (confidence b).

Definition newerFirst (a b : Recommendation) : Prop := (timeOf b <= timeOf a)%Z.

(** Everything in a candidate except its [id] and [createdAt]. *)
Definition contentOf (c : Recommendation)
  : RecType * string * string * Q * json * RecSource :=
  (rec_type c, title c, description c, confidence c, data c, source c).

(** The category a chat candidate was built for, read from its [data]. *)
Definition chatCategory (c : Recommendation) : option string :=
  match data c with
  | JObj (("category"%string, JStr s) :: _) => Some s
  | _ => None
  end.

Definition isRiskCandidate (c : Recommendation) : bool :=
  match chatCategory c with
  | Some s => (s =? "risk")%string
  | None => false
  end.

Definition noDelim (k : string) : Prop :=
  forall c, In c (list_ascii_of_string k) -> Js.isDelim c = false.

(** The risk bucket exists and holds at least one sentence. *)
Definition riskFilled (categories : Categories) : Prop :=
  exists s v, lookup "risk"%string categories = Some (s :: v).

Definition riskKeyed (categories : Categories) : Prop :=
  exists v, lookup "risk"%string categories = Some v.

(** The number [sortByRecency] compares: the creation time, [0] for
    [null]. *)
Definition recencyKey (r : AnalysisResult) : Z :=
  match created_at r with Some t => t | None => 0%Z end.

Definition recentFirst (a b : AnalysisResult) : Prop :=
  (recencyKey b <= recencyKey a)%Z.

(** The input bundle with its analysis results cut down to the ten most
    recent ones. *)
Definition tenMostRecent (input : RecommendationInput) : RecommendationInput :=
  {| userId := userId input;
     analysisResults := Js.slice0 10 (sortByRecency (analysisResults input));
     chatHistory := chatHistory input;
     currentSeason := currentSeason input |}.

(** The comparator [(a, b) => key(b) - key(a)]: larger key first. *)
Definition keyDesc {A : Type} (key : A -> Z) (a b : A) : comparison :=
  Js.signZ (key b - key a).

(** The part of a candidate a rule fixes: id, type, confidence, source. *)
Definition signature (c : Recommendation) : string * RecType * Q * RecSource :=
  (rec_id c, rec_type c, confidence c, source c).

(** Nothing, or exactly one of the listed alternatives. *)
Definition oneOf {A} (alternatives : list A) (l : list A) : Prop :=
  l = [] \/ exists x, In x alternatives /\ l = [x].

Definition bizProfit (r : AnalysisResult) := (("biz-profit-" ++ ar_id r)%string, business, 0.8, analysis).

Definition bizRoi (r : AnalysisResult) := (("biz-roi-" ++ ar_id r)%string, business, 0.75, analysis).

Definition bizCost (r : AnalysisResult) := (("biz-cost-" ++ ar_id r)%string, resource, 0.7, analysis).

Definition bizBreakEven (r : AnalysisResult) :=
  (("biz-breakeven-" ++ ar_id r)%string, business, 0.85, analysis).

Definition fcGrowth (r : AnalysisResult) := (("forecast-growth-" ++ ar_id r)%string, market, 0.75, analysis).

Definition fcDecline (r : AnalysisResult) := (("forecast-decline-" ++ ar_id r)%string, market, 0.75, analysis).

Definition fcSeasonal (r : AnalysisResult) := (("forecast-seasonal-" ++ ar_id r)%string, market, 0.7, pattern).

Definition fcAccuracy (r : AnalysisResult) := (("forecast-accuracy-" ++ ar_id r)%string, business, 0.8, analysis).

Definition fcInaccuracy (r : AnalysisResult) :=
  (("forecast-inaccuracy-" ++ ar_id r)%string, business, 0.7, analysis).

Definition optFeasibleSig (r : AnalysisResult) := (("opt-feasible-" ++ ar_id r)%string, resource, 0.9, analysis).

Definition optResourcesSig (r : AnalysisResult) := (("opt-resources-" ++ ar_id r)%string, resource, 0.8, analysis).

Definition optConstraintsSig (r : AnalysisResult) :=
  (("opt-constraints-" ++ ar_id r)%string, business, 0.85, analysis).

Definition optInfeasibleSig (r : AnalysisResult) :=
  (("opt-infeasible-" ++ ar_id r)%string, business, 0.9, analysis).

(** [l1] is [l2] with some elements left out, order kept. *)
Inductive subseq {A : Type} : list A -> list A -> Prop :=
| subseq_nil : forall l, subseq [] l
| subseq_keep : forall x l1 l2, subseq l1 l2 -> subseq (x :: l1) (x :: l2)
| subseq_skip : forall x l1 l2, subseq l1 l2 -> subseq l1 (x :: l2).

(** Category, type and title of a chat candidate. *)
Definition chatRow (c : Recommendation) : option string * RecType * string :=
  (chatCategory c, rec_type c, title c).

(** The seven categories in emission order, with the type and title
    each one gets. *)
Definition chatTable : list (option string * RecType * string) :=
  [ (Some "growth", business, "Growth Opportunity");
    (Some "profit", business, "Profit Enhancement");
    (Some "cost", resource, "Cost Saving Opportunity");
    (Some "risk", business, "Risk Management");
    (Some "market", market, "Market Intelligence");
    (Some "seasonal", market, "Seasonal Planning");
    (Some "resource", resource, "Resource Optimization") ]%string.


(** A confidence the engine can emit lies between 0.6 and 0.9. *)
Definition confidenceInRange (c : Recommendation) : Prop :=
  0.6 <= confidence c /\ confidence c <= 0.9.

(** The historical points of a record, none when [chart] or
    [chart.historical] is absent. *)
Definition historyOf (r : AnalysisResult) : list HistPoint :=
  match chart (ar_data r) with
  | Some c => match historical c with Some hist => hist | None => [] end
  | None => []
  end.

(** [c.slack === 0 || Math.abs(c.slack) < 1e-3] *)
Definition isBinding (c : OptConstraint) : bool :=
  PrimFloat.eqb (slack c) 0 || (PrimFloat.abs (slack c) <? 1e-3)%float.

(** The state after [n] more turns of the item loop, apart from the
    items themselves. *)
Definition advanced (n : nat) (st : Store.State) (items : list Storage.object)
  : Store.State :=
  {| Store.db :=
       {| Storage.recommendation_sets := Storage.recommendation_sets (Store.db st);
          Storage.uuidsDrawn := (2 * n + Storage.uuidsDrawn (Store.db st))%nat;
          Storage.clockReads := (2 * n + Storage.clockReads (Store.db st))%nat |};
     Store.recommendation_items := Store.recommendation_items st ++ items |}.

(* ================================================================== *)
(** * Properties of the built-ins *)
(* ================================================================== *)

Example splitSentences_ex :
  Js.splitSentences "Cut costs now!! Risk is low. Ok?"
  = ["Cut costs now"; " Risk is low"; " Ok"; ""]%string.
Proof. reflexivity. Qed.

Example trim_ex : Js.trim "  Risk is low " = "Risk is low"%string.
Proof. reflexivity. Qed.

(** White space outside ASCII is stripped at both ends and kept
    inside; a letter outside ASCII is kept. *)
Example trim_unicode_ex :
  Js.trim (Sample.nbsp ++ " Market prices" ++ Sample.nbsp ++ "rose"
           ++ Sample.bom ++ Sample.nbsp)%string
  = ("Market prices" ++ Sample.nbsp ++ "rose")%string /\
  Js.trim (String (ascii_of_nat 195) (String (ascii_of_nat 169) " "))
  = String (ascii_of_nat 195) (String (ascii_of_nat 169) "") /\
  Js.trim (Sample.nbsp ++ Sample.bom)%string = ""%string.
Proof. repeat split; vm_compute; reflexivity. Qed.

Example showZ_ex : Js.showZ 1700000000123 = "1700000000123"%string.
Proof. reflexivity. Qed.

(** ** The clock monad *)

Lemma forEachPush_cons {A B} (f : A -> Eff (list B)) (x : A) (l : list A) (k : nat) :
  fst (forEachPush f (x :: l) k)
  = fst (f x k) ++ fst (forEachPush f l (snd (f x k))).
Proof.
  simpl. unfold bind, ret.
  destruct (f x k) as [out k1]. simpl.
  destruct (forEachPush f l k1) as [rest k2]. reflexivity.
Qed.

Lemma forEachPush_Forall {A B} (P : B -> Prop) (f : A -> Eff (list B)) :
  (forall x k, Forall P (fst (f x k))) ->
  forall l k, Forall P (fst (forEachPush f l k)).
Proof.
  intros Hf l. induction l as [|x l IH]; intro k.
  - constructor.
  - rewrite forEachPush_cons. apply Forall_app. split; [apply Hf | apply IH].
Qed.

(** ** [Array.prototype.sort] *)

Section SortFacts.
Context {A : Type}.
Variable cmp : A -> A -> comparison.

Lemma insert_perm (x : A) (s : list A) : Permutation (Js.insert cmp x s) (x :: s).
Proof.
  induction s as [|y s IH]; simpl.
  - apply Permutation_refl.
  - destruct (cmp x y); try apply Permutation_refl.
    eapply perm_trans; [apply perm_skip, IH | apply perm_swap].
Qed.

Lemma sort_perm (l : list A) : Permutation (Js.sort cmp l) l.
Proof.
  induction l as [|x l IH]; simpl.
  - constructor.
  - eapply perm_trans; [apply insert_perm | apply perm_skip, IH].
Qed.

Lemma sort_In (l : list A) (a : A) : In a (Js.sort cmp l) <-> In a l.
Proof.
  split; apply Permutation_in; [| apply Permutation_sym]; apply sort_perm.
Qed.

Lemma sort_Forall (P : A -> Prop) (l : list A) :
  Forall P l -> Forall P (Js.sort cmp l).
Proof.
  intro H. eapply Permutation_Forall; [apply Permutation_sym, sort_perm | exact H].
Qed.

(** Stability: elements the comparator never orders strictly keep
    their relative order, whatever happens to the others. *)
Section Stable.
Variable P : A -> bool.
Hypothesis never_swapped :
  forall a b, P a = true -> P b = true -> cmp a b <> Gt.

Lemma filter_insert (x : A) (s : list A) :
  filter P (Js.insert cmp x s) = filter P (x :: s).
Proof.
  induction s as [|y s IH]; [reflexivity|].
  simpl Js.insert. destruct (cmp x y) eqn:E; try reflexivity.
  cbn [filter]. rewrite IH. cbn [filter].
  destruct (P x) eqn:Px, (P y) eqn:Py; try reflexivity.
  exfalso. exact (never_swapped x y Px Py E).
Qed.

Lemma filter_sort (l : list A) : filter P (Js.sort cmp l) = filter P l.
Proof.
  induction l as [|x l IH]; [reflexivity|].
  simpl Js.sort. rewrite filter_insert. simpl. now rewrite IH.
Qed.
End Stable.
End SortFacts.

(** Two lists sorted for the same order, in which every class of
    equivalent elements appears in the same sequence, are equal. *)
Section SortedUnique.
Context {A : Type}.
Variable R : A -> A -> Prop.
Variable E : A -> A -> bool.
Variable ok : A -> Prop.
Hypothesis E_refl : forall a, E a a = true.
Hypothesis R_antisym :
  forall a b, ok a -> ok b -> R a b -> R b a -> E a b = true.

Lemma sorted_unique (l1 l2 : list A) :
  Forall ok l1 -> Forall ok l2 ->
  StronglySorted R l1 -> StronglySorted R l2 ->
  (forall x, filter (E x) l1 = filter (E x) l2) ->
  l1 = l2.
Proof.
  revert l2. induction l1 as [|a t1 IH]; intros l2 O1 O2 S1 S2 HF.
  - destruct l2 as [|b t2]; [reflexivity|].
    specialize (HF b). simpl in HF. rewrite E_refl in HF. discriminate.
  - destruct l2 as [|b t2].
    + specialize (HF a). simpl in HF. rewrite E_refl in HF. discriminate.
    + inversion O1 as [|? ? Oa Ot1]; subst.
      inversion O2 as [|? ? Ob Ot2]; subst.
      inversion S1 as [|? ? St1 Ra]; subst.
      inversion S2 as [|? ? St2 Rb]; subst.
      assert (Hab : E a b = true \/ a = b).
      { assert (Ia : In a (b :: t2)).
        { apply (proj1 (filter_In (E a) a (b :: t2))).
          rewrite <- HF. simpl. rewrite E_refl. now left. }
        assert (Ib : In b (a :: t1)).
        { apply (proj1 (filter_In (E b) b (a :: t1))).
          rewrite HF. simpl. rewrite E_refl. now left. }
        destruct Ia as [->|Ia]; [now right|].
        destruct Ib as [->|Ib]; [now right|].
        left. apply R_antisym; trivial.
        - rewrite Forall_forall in Ra. now apply Ra.
        - rewrite Forall_forall in Rb. now apply Rb. }
      assert (a = b) as <-.
      { destruct Hab as [Hab|]; [|assumption].
        specialize (HF a). simpl in HF. rewrite E_refl, Hab in HF.
        now injection HF. }
      f_equal. apply IH; trivial.
      intro x. specialize (HF x). simpl in HF.
      destruct (E x a); [now injection HF | exact HF].
Qed.
End SortedUnique.

(** ** Occurrence order in a list *)

Lemma before_sorted {A} (R : A -> A -> Prop) (a b : A) (l : list A) :
  StronglySorted R l -> before a b l -> R a b.
Proof.
  intros S (p & q & r & ->).
  induction p as [|x p IH]; simpl in S; inversion S as [|? ? S' F]; subst.
  - rewrite Forall_forall in F. apply F. apply in_or_app. right. now left.
  - now apply IH.
Qed.

Lemma before_In {A} (a b : A) (l : list A) : before a b l -> In a l /\ In b l.
Proof.
  intros (p & q & r & ->). split.
  - apply in_or_app. right. now left.
  - apply in_or_app. right. right. apply in_or_app. right. now left.
Qed.

Lemma before_or {A} (a b : A) (l : list A) :
  In a l -> In b l -> a <> b -> before a b l \/ before b a l.
Proof.
  intros Ia Ib Hne.
  destruct (in_split _ _ Ia) as (p & r & ->).
  apply in_app_or in Ib. destruct Ib as [Ib|[Ib|Ib]].
  - right. destruct (in_split _ _ Ib) as (p1 & p2 & ->).
    exists p1, p2, r. now rewrite <- app_assoc.
  - congruence.
  - left. destruct (in_split _ _ Ib) as (r1 & r2 & ->).
    now exists p, r1, r2.
Qed.

(* ================================================================== *)
(** * The ranking *)
(* ================================================================== *)

Lemma toDateString_mono (h : Host) (a b : Z) :
  (a <= b)%Z -> (toDateString h a <= toDateString h b)%Z.
Proof.
  intro H. unfold toDateString. now apply localDay_mono.
Qed.

(** The two instants of [Sample.newYork] lie on the same printed day,
    although a fixed offset of either four or five hours puts them on
    different days. *)
Example newYork_same_day :
  toDateString Sample.newYork 1699158600000 = 19666%Z /\
  toDateString Sample.newYork 1699245000001 = 19666%Z /\
  ((1699158600000 - 14400000) / 86400000 <> (1699245000001 - 14400000) / 86400000)%Z /\
  ((1699158600000 - 18000000) / 86400000 <> (1699245000001 - 18000000) / 86400000)%Z.
Proof. repeat split; vm_compute; congruence. Qed.

Lemma dayText_hasDate (h : Host) (c : Recommendation) :
  hasDate c -> dayText h c = Some (dayOf h c).
Proof.
  intros [ms E]. unfold dayText, dayOf, timeOf. now rewrite E.
Qed.

Lemma byCreationTime_Gt (a b : Recommendation) :
  byCreationTime a b = Gt <-> (timeOf a < timeOf b)%Z.
Proof.
  unfold byCreationTime, Js.signZ, timeOf.
  rewrite Z.compare_gt_iff. lia.
Qed.

Lemma signQ_Gt (x y : Q) : Js.signQ (y - x) = Gt <-> x < y.
Proof.
  unfold Js.signQ. rewrite <- Qgt_alt. rewrite (Qlt_minus_iff x y). reflexivity.
Qed.

Lemma signQ_Eq (x y : Q) : x == y -> Js.signQ (y - x) = Eq.
Proof.
  intro H. unfold Js.signQ. rewrite <- Qeq_alt. rewrite H. ring.
Qed.

Lemma bySameDayConfidence_Gt (h : Host) (a b : Recommendation) :
  hasDate a -> hasDate b ->
  (bySameDayConfidence h a b = Gt <->
   dayOf h a = dayOf h b /\ confidence a < confidence b).
Proof.
  intros Ha Hb. unfold bySameDayConfidence.
  rewrite (dayText_hasDate h a Ha), (dayText_hasDate h b Hb). simpl.
  destruct (Z.eqb_spec (dayOf h a) (dayOf h b)) as [E|N].
  - rewrite signQ_Gt. tauto.
  - split; [discriminate | tauto].
Qed.

(** ** First pass: newest first *)

Lemma insert_byCreationTime_sorted (x : Recommendation) (s : list Recommendation) :
  StronglySorted newerFirst s ->
  StronglySorted newerFirst (Js.insert byCreationTime x s).
Proof.
  induction s as [|y s IH]; intro S; simpl.
  - repeat constructor.
  - inversion S as [|? ? S' F]; subst.
    destruct (byCreationTime x y) eqn:E.
    + constructor; [exact S|].
      assert (Hxy : newerFirst x y).
      { unfold newerFirst. destruct (Z.lt_ge_cases (timeOf x) (timeOf y)) as [L|G]; [|lia].
        apply byCreationTime_Gt in L. congruence. }
      constructor; [exact Hxy|].
      eapply Forall_impl; [|exact F]. unfold newerFirst in *. intros; lia.
    + constructor; [exact S|].
      assert (Hxy : newerFirst x y).
      { unfold newerFirst. destruct (Z.lt_ge_cases (timeOf x) (timeOf y)) as [L|G]; [|lia].
        apply byCreationTime_Gt in L. congruence. }
      constructor; [exact Hxy|].
      eapply Forall_impl; [|exact F]. unfold newerFirst in *. intros; lia.
    + apply byCreationTime_Gt in E.
      constructor; [now apply IH|].
      eapply Permutation_Forall; [apply Permutation_sym, insert_perm|].
      constructor; [unfold newerFirst; lia | exact F].
Qed.

Lemma sort_byCreationTime_sorted (l : list Recommendation) :
  StronglySorted newerFirst (Js.sort byCreationTime l).
Proof.
  induction l as [|x l IH]; simpl; [constructor|].
  now apply insert_byCreationTime_sorted.
Qed.

(** ** Second pass, on the output of the first *)

Lemma insert_bySameDay_sorted (h : Host) (x : Recommendation) (s : list Recommendation) :
  hasDate x -> Forall hasDate s ->
  Forall (newerFirst x) s ->
  StronglySorted (rankOrder h) s ->
  StronglySorted (rankOrder h) (Js.insert (bySameDayConfidence h) x s).
Proof.
  intros Hx. induction s as [|y s IH]; intros Hs Hn S; simpl.
  - repeat constructor.
  - inversion Hs as [|? ? Hy Hs']; subst.
    inversion Hn as [|? ? Nxy Hn']; subst.
    inversion S as [|? ? S' F]; subst.
    assert (Keep : bySameDayConfidence h x y <> Gt ->
                   StronglySorted (rankOrder h) (x :: y :: s)).
    { intro NG. constructor; [exact S|].
      assert (Dxy : (dayOf h y <= dayOf h x)%Z) by (apply toDateString_mono; exact Nxy).
      assert (Rxy : rankOrder h x y).
      { destruct (Z.eq_dec (dayOf h x) (dayOf h y)) as [E|N].
        - right. split; [exact E|].
          destruct (Qlt_le_dec (confidence x) (confidence y)) as [L|G].
          + exfalso. apply NG. apply bySameDayConfidence_Gt; auto.
          + apply Qle_lteq in G. destruct G as [G|G]; [now left|].
            right. split; [now symmetry | exact Nxy].
        - left. lia. }
      constructor; [exact Rxy|].
      rewrite Forall_forall in *. intros z Hz.
      specialize (F z Hz). specialize (Hn' z Hz).
      assert (Dxz : (dayOf h z <= dayOf h x)%Z) by (apply toDateString_mono; exact Hn').
      unfold rankOrder in *.
      destruct (Z.eq_dec (dayOf h x) (dayOf h z)) as [E|N]; [|left; lia].
      right. split; [exact E|].
      destruct Rxy as [Rxy|[Exy Rxy]]; [destruct F as [F|[F _]]; lia|].
      destruct F as [F|[Eyz F]]; [lia|].
      destruct Rxy as [Rxy|[Cxy _]], F as [F|[Cyz _]].
      + left. eapply Qlt_trans; eauto.
      + left. now rewrite <- Cyz.
      + left. now rewrite Cxy.
      + right. split; [now rewrite Cxy | exact Hn']. }
    destruct (bySameDayConfidence h x y) eqn:E;
      try (apply Keep; discriminate).
    apply bySameDayConfidence_Gt in E; auto. destruct E as [Dxy Cxy].
    constructor; [now apply IH|].
    eapply Permutation_Forall; [apply Permutation_sym, insert_perm|].
    constructor; [|exact F].
    right. split; [now symmetry | now left].
Qed.

Lemma sort_bySameDay_sorted (h : Host) (l : list Recommendation) :
  Forall hasDate l -> StronglySorted newerFirst l ->
  StronglySorted (rankOrder h) (Js.sort (bySameDayConfidence h) l).
Proof.
  induction l as [|x l IH]; intros Hd S; simpl; [constructor|].
  inversion Hd; subst. inversion S; subst.
  apply insert_bySameDay_sorted; auto.
  - now apply sort_Forall.
  - now apply sort_Forall.
Qed.

Lemma rank_sorted (h : Host) (l : list Recommendation) :
  Forall hasDate l -> StronglySorted (rankOrder h) (rank h l).
Proof.
  intro Hd. unfold rank. apply sort_bySameDay_sorted.
  - now apply sort_Forall.
  - apply sort_byCreationTime_sorted.
Qed.

Lemma rank_perm (h : Host) (l : list Recommendation) : Permutation (rank h l) l.
Proof.
  unfold rank. eapply perm_trans; apply sort_perm.
Qed.

(** ** Both passes are stable on candidates of one stamp *)

Lemma DateValue_eqb_eq (a b : DateValue) : DateValue_eqb a b = true <-> a = b.
Proof.
  destruct a, b; simpl; try (split; [discriminate | congruence]).
  - rewrite Z.eqb_eq. split; congruence.
  - tauto.
Qed.

Lemma sameStamp_refl (a : Recommendation) : sameStamp a a = true.
Proof.
  unfold sameStamp. apply andb_true_intro. split.
  - now apply DateValue_eqb_eq.
  - apply Qeq_bool_iff. reflexivity.
Qed.

Lemma sameStamp_spec (a b : Recommendation) :
  sameStamp a b = true <-> createdAt a = createdAt b /\ confidence a == confidence b.
Proof.
  unfold sameStamp. now rewrite andb_true_iff, DateValue_eqb_eq, Qeq_bool_iff.
Qed.

Lemma byCreationTime_sameStamp (x a b : Recommendation) :
  sameStamp x a = true -> sameStamp x b = true -> byCreationTime a b <> Gt.
Proof.
  rewrite !sameStamp_spec. intros [Ta _] [Tb _] G.
  apply byCreationTime_Gt in G. unfold timeOf in G.
  rewrite <- Ta, <- Tb in G. lia.
Qed.

Lemma bySameDayConfidence_sameStamp (h : Host) (x a b : Recommendation) :
  sameStamp x a = true -> sameStamp x b = true -> bySameDayConfidence h a b <> Gt.
Proof.
  rewrite !sameStamp_spec. intros [Ta Ca] [Tb Cb].
  unfold bySameDayConfidence.
  destruct (dayText_eqb (dayText h a) (dayText h b)); [|discriminate].
  rewrite signQ_Eq; [discriminate|]. now rewrite <- Ca, <- Cb.
Qed.

Lemma rank_stable (h : Host) (x : Recommendation) (l : list Recommendation) :
  filter (sameStamp x) (rank h l) = filter (sameStamp x) l.
Proof.
  unfold rank.
  rewrite filter_sort by apply bySameDayConfidence_sameStamp.
  apply filter_sort, byCreationTime_sameStamp.
Qed.

Lemma rankOrder_antisym (h : Host) (a b : Recommendation) :
  hasDate a -> hasDate b -> rankOrder h a b -> rankOrder h b a -> sameStamp a b = true.
Proof.
  intros [ta Ea] [tb Eb] [D1|[D1 C1]] [D2|[D2 C2]]; try lia.
  apply sameStamp_spec.
  destruct C1 as [C1|[Q1 T1]], C2 as [C2|[Q2 T2]].
  - exfalso. apply (Qlt_irrefl (confidence a)). eapply Qlt_trans; eauto.
  - exfalso. rewrite Q2 in C1. exact (Qlt_irrefl _ C1).
  - exfalso. rewrite Q1 in C2. exact (Qlt_irrefl _ C2).
  - split; [|exact Q1]. unfold timeOf in T1, T2. rewrite Ea, Eb in *.
    f_equal. lia.
Qed.

(** ** Every candidate the engine builds carries a [Date] *)

Lemma bind_Forall {B C} (P : C -> Prop) (m : Eff (list B)) (f : list B -> Eff (list C))
      (Q : B -> Prop) :
  (forall k, Forall Q (fst (m k))) ->
  (forall a k, Forall Q a -> Forall P (fst (f a k))) ->
  forall k, Forall P (fst (bind m f k)).
Proof.
  intros Hm Hf k. unfold bind. specialize (Hm k).
  destruct (m k) as [a k']. now apply Hf.
Qed.

(** A rule is a tree of guards over [ret []] and single candidates
    stamped by [new Date()]: split the guards at the head. *)
Ltac rule_dated :=
  cbv zeta;
  repeat match goal with
         | |- Forall _ (fst ((if ?c then _ else _) _)) => destruct c
         | |- Forall _ (fst ((match ?o with Some _ => _ | None => _ end) _)) => destruct o
         | |- Forall _ (fst ((match ?l with [] => _ | _ :: _ => _ end) _)) => destruct l
         end;
  try (unfold bind, ret, newDate, Date_now; cbn [fst];
       repeat constructor; eexists; reflexivity).

Ltac all_dated := repeat constructor; eexists; reflexivity.

Ltac record_dated :=
  repeat (apply bind_Forall with (Q := hasDate); [intro | intros ? ? ?]);
  try (unfold ret; cbn [fst]; repeat (apply Forall_app; split); assumption).

Lemma businessRecord_hasDate (h : Host) (r : AnalysisResult) (k : nat) :
  Forall hasDate (fst (businessRecord h r k)).
Proof.
  revert k. unfold businessRecord. record_dated.
  - unfold businessProfit. rule_dated.
  - unfold businessRoi. rule_dated.
  - unfold businessCost. rule_dated.
  - unfold businessBreakEven. rule_dated.
Qed.

Lemma forecastRecord_hasDate (h : Host) (r : AnalysisResult) (k : nat) :
  Forall hasDate (fst (forecastRecord h r k)).
Proof.
  revert k. unfold forecastRecord. record_dated.
  - unfold forecastGrowth. rule_dated.
  - unfold forecastSeasonal. rule_dated.
  - unfold forecastAccuracy. rule_dated.
Qed.

Lemma optimizationRecord_hasDate (h : Host) (r : AnalysisResult) (k : nat) :
  Forall hasDate (fst (optimizationRecord h r k)).
Proof.
  unfold optimizationRecord.
  destruct (feasible (ar_data r)) as [[|]|].
  - revert k. record_dated.
    + unfold optFeasible. rule_dated.
    + unfold optResources. rule_dated.
    + unfold optConstraints. rule_dated.
  - unfold optInfeasible. rule_dated.
  - constructor.
Qed.

Lemma chatCandidate_hasDate (h : Host) (e : string * list string) (k : nat) :
  Forall hasDate (fst (chatCandidate h e k)).
Proof.
  destruct e as [category sentences]. unfold chatCandidate. rule_dated.
Qed.

Lemma addSeasonalRecommendations_hasDate (h : Host) (s : option Season) (k : nat) :
  Forall hasDate (fst (addSeasonalRecommendations h s k)).
Proof.
  unfold addSeasonalRecommendations. rule_dated.
Qed.

Lemma mergedRecommendations_hasDate (h : Host) (input : RecommendationInput) (k : nat) :
  Forall hasDate (fst (mergedRecommendations h input k)).
Proof.
  revert k. unfold mergedRecommendations. cbv zeta. record_dated.
  - apply forEachPush_Forall, businessRecord_hasDate.
  - apply forEachPush_Forall, forecastRecord_hasDate.
  - apply forEachPush_Forall, optimizationRecord_hasDate.
  - apply forEachPush_Forall, chatCandidate_hasDate.
  - apply addSeasonalRecommendations_hasDate.
Qed.

(* ================================================================== *)
(** * Claims about the ranking *)
(* ================================================================== *)

(** C8 - Ranking twice gives the order that ranking once gives: for
    every list of candidates whose [createdAt] are fixed [Date] values,
    [rank (rank l) = rank l]. *)
Theorem rank_idempotent (h : Host) (l : list Recommendation) :
  Forall hasDate l -> rank h (rank h l) = rank h l.
Proof.
  intro Hd.
  assert (Hr : Forall hasDate (rank h l)).
  { eapply Permutation_Forall; [apply Permutation_sym, rank_perm | exact Hd]. }
  apply (sorted_unique (rankOrder h) sameStamp hasDate sameStamp_refl
           (rankOrder_antisym h)).
  - eapply Permutation_Forall; [apply Permutation_sym, rank_perm | exact Hr].
  - exact Hr.
  - now apply rank_sorted.
  - now apply rank_sorted.
  - intro x. apply rank_stable.
Qed.

Lemma rank_idempotent_witness :
  Forall hasDate
    [Sample.candidate "a" 1000 0.6; Sample.candidate "b" 2000 0.9;
     Sample.candidate "c" 86400000 0.7; Sample.candidate "d" 86400001 0.8]
  /\ rank Sample.host
       (rank Sample.host
          [Sample.candidate "a" 1000 0.6; Sample.candidate "b" 2000 0.9;
           Sample.candidate "c" 86400000 0.7; Sample.candidate "d" 86400001 0.8])
     = rank Sample.host
         [Sample.candidate "a" 1000 0.6; Sample.candidate "b" 2000 0.9;
          Sample.candidate "c" 86400000 0.7; Sample.candidate "d" 86400001 0.8].
Proof.
  assert (H : Forall hasDate
    [Sample.candidate "a" 1000 0.6; Sample.candidate "b" 2000 0.9;
     Sample.candidate "c" 86400000 0.7; Sample.candidate "d" 86400001 0.8])
    by all_dated.
  split; [exact H | exact (rank_idempotent Sample.host _ H)].
Defined.

(** What the second pass does to the output of the first, for any
    list of dated candidates. *)
Lemma second_pass_spec (h : Host) (l : list Recommendation) :
  Forall hasDate l ->
  let pass1 := Js.sort byCreationTime l in
  let pass2 := Js.sort (bySameDayConfidence h) pass1 in
  Permutation pass1 pass2 /\
  (forall a b, dayText h a <> dayText h b ->
               (before a b pass1 <-> before a b pass2)) /\
  (forall a b, dayText h a = dayText h b ->
               before a b pass2 -> confidence b <= confidence a) /\
  (forall a b, In a l -> In b l -> dayText h a = dayText h b ->
               confidence a == 0.9 -> confidence b == 0.6 ->
               before a b pass2 /\ ~ before b a pass2).
Proof.
  intros Hd pass1 pass2.
  assert (S1 : StronglySorted newerFirst pass1) by apply sort_byCreationTime_sorted.
  assert (S2 : StronglySorted (rankOrder h) pass2) by (apply (rank_sorted h l Hd)).
  assert (P12 : Permutation pass1 pass2) by (apply Permutation_sym, sort_perm).
  assert (D1 : forall c, In c pass1 -> hasDate c).
  { intros c Hc. apply sort_In in Hc. rewrite Forall_forall in Hd. auto. }
  assert (D2 : forall c, In c pass2 -> hasDate c).
  { intros c Hc. apply D1. eapply Permutation_in; [apply Permutation_sym, P12 | exact Hc]. }
  assert (SameDay : forall a b, dayText h a = dayText h b -> before a b pass2 ->
                                confidence b <= confidence a).
  { intros a b E B.
    destruct (before_In _ _ _ B) as [Ia Ib].
    rewrite (dayText_hasDate h a (D2 a Ia)), (dayText_hasDate h b (D2 b Ib)) in E.
    injection E as E.
    destruct (before_sorted _ _ _ _ S2 B) as [L|[_ [C|[C _]]]].
    - lia.
    - now apply Qlt_le_weak.
    - rewrite C. apply Qle_refl. }
  repeat split.
  - exact P12.
  - intro B. destruct (before_In _ _ _ B) as [Ia Ib].
    rewrite (dayText_hasDate h a (D1 a Ia)), (dayText_hasDate h b (D1 b Ib)) in H.
    assert (Hne : a <> b) by congruence.
    pose proof (before_sorted _ _ _ _ S1 B) as N.
    apply (toDateString_mono h) in N. fold (dayOf h b) (dayOf h a) in N.
    destruct (before_or a b pass2) as [B2|B2]; trivial;
      try (eapply Permutation_in; [exact P12 | assumption]).
    destruct (before_sorted _ _ _ _ S2 B2) as [L|[E _]]; [lia | congruence].
  - intro B. destruct (before_In _ _ _ B) as [Ia Ib].
    rewrite (dayText_hasDate h a (D2 a Ia)), (dayText_hasDate h b (D2 b Ib)) in H.
    assert (Hne : a <> b) by congruence.
    destruct (before_sorted _ _ _ _ S2 B) as [L|[E _]]; [|congruence].
    destruct (before_or a b pass1) as [B1|B1]; trivial;
      try (eapply Permutation_in; [apply Permutation_sym, P12 | assumption]).
    pose proof (before_sorted _ _ _ _ S1 B1) as N.
    apply (toDateString_mono h) in N. fold (dayOf h b) (dayOf h a) in N. lia.
  - exact SameDay.
  - assert (Hne : a <> b).
    { intros ->. rewrite H2 in H3. discriminate. }
    assert (NB : ~ before b a pass2).
    { intro B. apply SameDay in B; [|congruence].
      rewrite H2, H3 in B. revert B. now compute. }
    destruct (before_or a b pass2) as [B2|B2]; trivial; try tauto;
      eapply Permutation_in; try exact P12; now apply sort_In.
  - intro B. apply SameDay in B; [|congruence].
    rewrite H2, H3 in B. revert B. now compute.
Qed.

(** C1 - In the ranking of the merged candidate list, the second sort
    pass only permutes the output of the first; two candidates of
    different calendar days keep the relative order the first pass gave
    them; of two candidates of the same day, the one placed first has
    the higher (or equal) confidence; in particular a same-day pair with
    confidences 0.9 and 0.6 ends with the 0.9 candidate first.  The
    calendar day of a candidate is the local day [toDateString] prints
    for its creation time under the zone rules of the host, daylight
    saving included. *)
Theorem ranking_second_pass (h : Host) (input : RecommendationInput) (k : nat) :
  let merged := fst (mergedRecommendations h input k) in
  let pass1 := Js.sort byCreationTime merged in
  let pass2 := Js.sort (bySameDayConfidence h) pass1 in
  pass2 = rank h merged /\
  Permutation pass1 pass2 /\
  (forall a b, dayText h a <> dayText h b ->
               (before a b pass1 <-> before a b pass2)) /\
  (forall a b, dayText h a = dayText h b ->
               before a b pass2 -> confidence b <= confidence a) /\
  (forall a b, In a merged -> In b merged -> dayText h a = dayText h b ->
               confidence a == 0.9 -> confidence b == 0.6 ->
               before a b pass2 /\ ~ before b a pass2).
Proof.
  intros merged pass1 pass2. split; [reflexivity|].
  apply second_pass_spec, mergedRecommendations_hasDate.
Qed.

(** The theorem at work across the end of daylight saving time: on
    [Sample.newYork] the infeasible-optimization candidate (0.9) is
    created at 00:30 and the chat candidate (0.6) at 23:30 of the same
    local day, 24 hours later.  The first pass puts the newer chat
    candidate first, the second pass puts the 0.9 candidate first. *)
Lemma ranking_second_pass_witness :
  map rec_id (Js.sort byCreationTime
                (fst (mergedRecommendations Sample.newYork Sample.riskInput 0%nat)))
  = ["chat-risk-1699245000001"; "opt-infeasible-o1"]%string /\
  map rec_id (rank Sample.newYork
                (fst (mergedRecommendations Sample.newYork Sample.riskInput 0%nat)))
  = ["opt-infeasible-o1"; "chat-risk-1699245000001"]%string /\
  map (dayText Sample.newYork)
      (fst (mergedRecommendations Sample.newYork Sample.riskInput 0%nat))
  = [Some 19666%Z; Some 19666%Z] /\
  forall a b,
    In a (fst (mergedRecommendations Sample.newYork Sample.riskInput 0%nat)) ->
    In b (fst (mergedRecommendations Sample.newYork Sample.riskInput 0%nat)) ->
    dayText Sample.newYork a = dayText Sample.newYork b ->
    confidence a == 0.9 -> confidence b == 0.6 ->
    before a b (rank Sample.newYork
                  (fst (mergedRecommendations Sample.newYork Sample.riskInput 0%nat))).
Proof.
  split; [vm_compute; reflexivity|]. split; [vm_compute; reflexivity|].
  split; [vm_compute; reflexivity|].
  intros a b Ia Ib D Ca Cb.
  exact (proj1 (proj2 (proj2 (proj2 (proj2
           (ranking_second_pass Sample.newYork Sample.riskInput 0%nat))))
           a b Ia Ib D Ca Cb)).
Defined.

(* ================================================================== *)
(** * Claims about [generateRecommendations] *)
(* ================================================================== *)

Lemma generateRecommendations_fst (h : Host) (input : RecommendationInput) (k : nat) :
  let final := Js.slice0 10 (rank h (fst (mergedRecommendations h input k))) in
  recommendations (fst (generateRecommendations h input k)) = final /\
  summary (fst (generateRecommendations h input k))
  = buildSummary input (Js.slice0 5 final).
Proof.
  unfold generateRecommendations, bind, ret, Date_now, newDate.
  destruct (mergedRecommendations h input k) as [merged k']. cbn. split; reflexivity.
Qed.

(** C4 - Whatever the input bundle (any analysis results, any chat
    history, any optional season) and whatever the clock, the ranked list
    [generateRecommendations] returns holds at most 10 candidates. *)
Theorem generateRecommendations_at_most_10
  (h : Host) (input : RecommendationInput) (k : nat) :
  (List.length (recommendations (fst (generateRecommendations h input k))) <= 10)%nat.
Proof.
  destruct (generateRecommendations_fst h input k) as [-> _].
  apply firstn_le_length.
Qed.

(** C5 - With no analysis results, no chat history and no season,
    [generateRecommendations] returns an empty candidate list and the
    fixed fallback summary; and for every input, an empty candidate list
    comes with the fallback summary. *)
Theorem generateRecommendations_empty (h : Host) (k : nat) :
  (forall user : string,
      let out := fst (generateRecommendations h
                        {| userId := user; analysisResults := [];
                           chatHistory := []; currentSeason := None |} k) in
      recommendations out = [] /\ summary out = fallbackSummary) /\
  (forall input : RecommendationInput,
      let out := fst (generateRecommendations h input k) in
      recommendations out = [] -> summary out = fallbackSummary).
Proof.
  split.
  - intro user. split; reflexivity.
  - intros input out. subst out.
    destruct (generateRecommendations_fst h input k) as [-> ->].
    intros ->. reflexivity.
Qed.

Lemma generateRecommendations_empty_witness :
  recommendations (fst (generateRecommendations Sample.host Sample.emptyInput 0%nat)) = []
  /\ summary (fst (generateRecommendations Sample.host Sample.emptyInput 0%nat))
     = "Insufficient data for personalized recommendations. Continue using Arina to analyze your agricultural business for tailored insights."%string.
Proof.
  assert (E : recommendations
                (fst (generateRecommendations Sample.host Sample.emptyInput 0%nat)) = [])
    by reflexivity.
  split; [exact E|].
  exact (proj2 (generateRecommendations_empty Sample.host 0%nat) Sample.emptyInput E).
Defined.

(* ================================================================== *)
(** * Claims about the optimization extractor *)
(* ================================================================== *)

(** C7 - A record whose [feasible] field is [false] yields exactly one
    candidate, titled "Resource Constraints Too Tight", with confidence
    0.90; a record whose [feasible] field is absent yields no candidate.
    The extractor applies this to each record of its slice: on a slice of
    one infeasible optimization record it returns that single candidate. *)
Theorem optimization_infeasible_or_absent (h : Host) (result : AnalysisResult) (k : nat) :
  (feasible (ar_data result) = Some false ->
   exists c,
     fst (optimizationRecord h result k) = [c] /\
     title c = "Resource Constraints Too Tight"%string /\
     confidence c = 0.9 /\
     (ar_type result = "optimization"%string ->
      fst (extractOptimizationRecommendations h [result] k) = [c])) /\
  (feasible (ar_data result) = None ->
   fst (optimizationRecord h result k) = [] /\
   fst (extractOptimizationRecommendations h [result] k) = []).
Proof.
  split; intro F.
  - unfold optimizationRecord. rewrite F.
    eexists. split; [reflexivity|]. split; [reflexivity|]. split; [reflexivity|].
    intro T. unfold extractOptimizationRecommendations. cbn [filter].
    rewrite T. cbn [String.eqb Ascii.eqb Bool.eqb].
    change (Js.slice0 3 (sortByRecency [result])) with [result].
    rewrite forEachPush_cons. unfold optimizationRecord. rewrite F.
    cbn. reflexivity.
  - unfold optimizationRecord. rewrite F. split; [reflexivity|].
    unfold extractOptimizationRecommendations. cbn [filter].
    destruct (ar_type result =? "optimization")%string.
    + change (Js.slice0 3 (sortByRecency [result])) with [result].
      rewrite forEachPush_cons. unfold optimizationRecord. rewrite F. reflexivity.
    + reflexivity.
Qed.

Lemma optimization_infeasible_or_absent_witness :
  feasible (ar_data (Sample.optimizationResult (Some false))) = Some false /\
  exists c,
    fst (optimizationRecord Sample.host (Sample.optimizationResult (Some false)) 0%nat) = [c] /\
    title c = "Resource Constraints Too Tight"%string /\
    confidence c = 0.9 /\
    (ar_type (Sample.optimizationResult (Some false)) = "optimization"%string ->
     fst (extractOptimizationRecommendations Sample.host
            [Sample.optimizationResult (Some false)] 0%nat) = [c]).
Proof.
  split; [reflexivity|].
  exact (proj1 (optimization_infeasible_or_absent Sample.host
                  (Sample.optimizationResult (Some false)) 0%nat) eq_refl).
Defined.

(* ================================================================== *)
(** * Claims about the seasonal advisor *)
(* ================================================================== *)

(** C6, as the claim states it, fails: the advisor is not a function of
    the season alone.  The same season at two clock readings gives
    different candidates (their ids and creation times differ). *)
Lemma seasonal_advisor_reads_clock :
  fst (addSeasonalRecommendations Sample.host (Some winter) 0%nat)
  <> fst (addSeasonalRecommendations Sample.host (Some winter) 4%nat).
Proof.
  intro H. apply (f_equal (map rec_id)) in H. vm_compute in H. discriminate H.
Qed.

(** C6, amended - Without a season the advisor returns no candidate.
    For each of the four seasons it returns exactly two candidates: a
    crop-focus candidate (type [crop], confidence 0.70, source
    [seasonal]) whose description lists that season's curated crops, and
    an activity-focus candidate (type [business], confidence 0.70, source
    [seasonal]) whose description lists that season's curated activities.
    Apart from [id] and [createdAt], which are read from the clock, the
    candidates depend on the season alone. *)
Theorem seasonal_advisor (h : Host) (k : nat) :
  fst (addSeasonalRecommendations h None k) = [] /\
  forall season : Season,
  exists c1 c2,
    fst (addSeasonalRecommendations h (Some season) k) = [c1; c2] /\
    (rec_type c1 = crop /\ confidence c1 = 0.7 /\ source c1 = seasonal /\
     description c1
     = ("Consider focusing on these crops this " ++ seasonName season ++ ": "
        ++ Js.join ", " (seasonalCrops season) ++ ".")%string) /\
    (rec_type c2 = business /\ confidence c2 = 0.7 /\ source c2 = seasonal /\
     description c2
     = ("Key activities for this " ++ seasonName season ++ ": "
        ++ Js.join ", " (seasonalActivities season) ++ ".")%string) /\
    forall (h' : Host) (k' : nat),
      map contentOf (fst (addSeasonalRecommendations h' (Some season) k'))
      = [contentOf c1; contentOf c2].
Proof.
  split; [reflexivity|].
  intro season. do 2 eexists.
  split; [reflexivity|].
  split; [repeat split|]. split; [repeat split|].
  intros h' k'. reflexivity.
Qed.

Example seasonal_winter :
  map description (fst (addSeasonalRecommendations Sample.host (Some winter) 0%nat))
  = [ "Consider focusing on these crops this winter: Planning, Equipment maintenance, Soil preparation.";
      "Key activities for this winter: Equipment maintenance, Financial planning, Education, Crop planning." ]%string.
Proof. reflexivity. Qed.

(* ================================================================== *)
(** * Claims about the demand-forecast extractor *)
(* ================================================================== *)

(** ** Order facts on binary64 *)

Lemma ltb_neg_pos (g : float) :
  (g <? -0.1)%float = true -> (0.1 <? g)%float = false.
Proof.
  rewrite !ltb_spec.
  replace (Prim2SF (-0.1)) with (S754_finite true 7205759403792794 (-56))
    by (vm_compute; reflexivity).
  replace (Prim2SF 0.1) with (S754_finite false 7205759403792794 (-56))
    by (vm_compute; reflexivity).
  unfold SFltb, SFcompare.
  destruct (Prim2SF g) as [s|s| |s m e]; try destruct s;
    try discriminate; reflexivity.
Qed.

Lemma ltb_20_10 (x : float) :
  (20 <? x)%float = true -> (x <? 10)%float = false.
Proof.
  rewrite !ltb_spec.
  replace (Prim2SF 20) with (S754_finite false 5629499534213120 (-48))
    by (vm_compute; reflexivity).
  replace (Prim2SF 10) with (S754_finite false 5629499534213120 (-49))
    by (vm_compute; reflexivity).
  unfold SFltb, SFcompare.
  destruct (Prim2SF x) as [s|s| |s m e]; try destruct s;
    try discriminate; try reflexivity.
  destruct (Z.compare_spec (-48) e) as [E|L|G]; try discriminate.
  - subst e. cbn. intros _. reflexivity.
  - intros _. destruct (Z.compare_spec e (-49)) as [E'|L'|G']; try reflexivity; lia.
Qed.

(** C3 - The growth/decline rule tests the relative change
    [(last - first) / first] between the first and the last forecast
    entry with strict inequalities: a change greater than 0.10 yields the
    growth candidate (confidence 0.75), a change less than -0.10 the
    decline candidate (confidence 0.75), anything else - a change of
    exactly 0.10 or -0.10 included - yields no candidate; a record with
    fewer than two forecast points (or no forecast series) yields
    neither.  The candidate records the change it was built from. *)
Theorem forecastGrowth_strict (h : Host) (result : AnalysisResult) (k : nat) :
  let points := match forecasted (ar_data result) with Some p => p | None => [] end in
  let first := forecast (nth 0 points nanPoint) in
  let last := forecast (nth (List.length points - 1) points nanPoint) in
  let change := ((last - first) / first)%float in
  let out := fst (forecastGrowth h result k) in
  ((List.length points < 2)%nat -> out = []) /\
  ((2 <= List.length points)%nat ->
   ((0.1 <? change)%float = true ->
    exists c, out = [c] /\
              rec_id c = ("forecast-growth-" ++ ar_id result)%string /\
              title c = "Growing Demand Trend"%string /\ confidence c = 0.75 /\
              data c = JObj [("productName"%string, jstr (productName (ar_data result)));
                             ("growthRate"%string, JNum change);
                             ("firstForecast"%string, JNum first);
                             ("lastForecast"%string, JNum last)]) /\
   ((change <? -0.1)%float = true ->
    exists c, out = [c] /\
              rec_id c = ("forecast-decline-" ++ ar_id result)%string /\
              title c = "Declining Demand Alert"%string /\ confidence c = 0.75 /\
              data c = JObj [("productName"%string, jstr (productName (ar_data result)));
                             ("declineRate"%string, JNum (PrimFloat.abs change));
                             ("firstForecast"%string, JNum first);
                             ("lastForecast"%string, JNum last)]) /\
   ((0.1 <? change)%float = false -> (change <? -0.1)%float = false -> out = []) /\
   (change = 0.1%float \/ change = (-0.1)%float -> out = [])).
Proof.
  intros points first last change out. subst out. unfold forecastGrowth. cbv zeta.
  subst change first last points.
  destruct (forecasted (ar_data result)) as [points|].
  2:{ split; [reflexivity|]. cbn. intro; lia. }
  set (first := forecast (nth 0 points nanPoint)).
  set (last := forecast (nth (List.length points - 1) points nanPoint)).
  set (change := ((last - first) / first)%float).
  destruct (Nat.ltb_spec 1 (List.length points)) as [L|G].
  2:{ split; [reflexivity|]. intro; lia. }
  split; [intro; lia|]. intros _.
  repeat split.
  - intro Hg. rewrite Hg. eexists. repeat split.
  - intro Hd. rewrite (ltb_neg_pos _ Hd), Hd. eexists. repeat split.
  - intros Hg Hd. rewrite Hg, Hd. reflexivity.
  - intros [E|E]; rewrite E; reflexivity.
Qed.

Lemma forecastGrowth_strict_witness :
  (2 <= List.length [10000%float; 11001%float])%nat /\
  (0.1 <? (11001 - 10000) / 10000)%float = true /\
  exists c,
    fst (forecastGrowth Sample.host
           (Sample.forecastResult [10000%float; 11001%float] None) 0%nat) = [c] /\
    rec_id c = "forecast-growth-f1"%string /\
    title c = "Growing Demand Trend"%string /\ confidence c = 0.75 /\
    data c = JObj [("productName"%string, JStr "Rice");
                   ("growthRate"%string, JNum ((11001 - 10000) / 10000)%float);
                   ("firstForecast"%string, JNum 10000%float);
                   ("lastForecast"%string, JNum 11001%float)].
Proof.
  assert (L : (2 <= List.length [10000%float; 11001%float])%nat) by (cbn; lia).
  assert (G : (0.1 <? (11001 - 10000) / 10000)%float = true) by (vm_compute; reflexivity).
  split; [exact L|]. split; [exact G|].
  exact (proj1 (proj2 (forecastGrowth_strict Sample.host
                         (Sample.forecastResult [10000%float; 11001%float] None) 0%nat)
                      L) G).
Defined.

(** The boundary on concrete series: 100 -> 110 and 100 -> 90 are
    changes of exactly 0.10 and -0.10 and yield nothing; 10000 -> 11001
    (+10.01%) yields the growth candidate, 100 -> 50 the decline
    candidate. *)
Example growth_boundary :
  ((110 - 100) / 100 = 0.1)%float /\
  ((90 - 100) / 100 = -0.1)%float /\
  fst (forecastGrowth Sample.host (Sample.forecastResult [100; 110]%float None) 0%nat) = [] /\
  fst (forecastGrowth Sample.host (Sample.forecastResult [100; 90]%float None) 0%nat) = [] /\
  map title (fst (forecastGrowth Sample.host
                    (Sample.forecastResult [10000; 11001]%float None) 0%nat))
  = ["Growing Demand Trend"%string] /\
  map title (fst (forecastGrowth Sample.host
                    (Sample.forecastResult [100; 50]%float None) 0%nat))
  = ["Declining Demand Alert"%string] /\
  fst (forecastGrowth Sample.host (Sample.forecastResult [100]%float None) 0%nat) = [].
Proof. repeat split; vm_compute; reflexivity. Qed.

(** What the accuracy rule does on a MAPE the guard [mape && ...]
    lets through (any number other than [0] and [NaN]). *)
Lemma forecastAccuracy_truthy (h : Host) (result : AnalysisResult) (x : float) (k : nat) :
  accuracy (ar_data result) = Some {| mape := Some x |} ->
  Js.truthy x = true ->
  let out := fst (forecastAccuracy h result k) in
  ((x <? 10)%float = true ->
   exists c, out = [c] /\ title c = "High Forecast Reliability"%string /\
             confidence c = 0.8) /\
  ((20 <? x)%float = true ->
   exists c, out = [c] /\ title c = "Forecast Uncertainty Alert"%string /\
             confidence c = 0.7) /\
  ((x <? 10)%float = false -> (20 <? x)%float = false -> out = []).
Proof.
  intros A T out. subst out. unfold forecastAccuracy. cbv zeta. rewrite A.
  cbn [mape Js.truthyOpt JsNum.num]. rewrite T. cbn [andb].
  repeat split.
  - intro L. rewrite L. eexists. repeat split.
  - intro G. rewrite (ltb_20_10 _ G), G. eexists. repeat split.
  - intros L G. rewrite L, G. reflexivity.
Qed.

(** C2 - The claim holds for every MAPE except [0]: a forecast whose
    MAPE is present and equal to [0] (less than 10) gets no
    high-reliability candidate, because the guard [mape && mape < 10]
    treats the number [0] as absent. *)
Theorem forecastAccuracy_zero_mape (h : Host) (result : AnalysisResult) (k : nat) :
  accuracy (ar_data result) = Some {| mape := Some 0%float |} ->
  (0 <? 10)%float = true /\ fst (forecastAccuracy h result k) = [].
Proof.
  intro A. split; [reflexivity|].
  unfold forecastAccuracy. cbv zeta. rewrite A. reflexivity.
Qed.

Lemma forecastAccuracy_zero_mape_witness :
  accuracy (ar_data (Sample.forecastResult [] (Some 0%float)))
  = Some {| mape := Some 0%float |} /\
  (0 <? 10)%float = true /\
  fst (forecastAccuracy Sample.host (Sample.forecastResult [] (Some 0%float)) 0%nat) = [].
Proof.
  split; [reflexivity|].
  exact (forecastAccuracy_zero_mape Sample.host
           (Sample.forecastResult [] (Some 0%float)) 0%nat eq_refl).
Defined.

(* ================================================================== *)
(** * Claims about the chat-insight extractor *)
(* ================================================================== *)

(** ** Splitting keeps a keyword inside one sentence *)

Lemma splitSentences_nonempty (s : string) : Js.splitSentences s <> [].
Proof.
  induction s as [|c s IH]; simpl; [discriminate|].
  destruct (Js.isDelim c).
  - destruct (Js.startsWithDelim s); [exact IH | discriminate].
  - destruct (Js.splitSentences s); discriminate.
Qed.

Lemma startsWith_includes (k p : string) :
  Js.startsWith k p = true -> Js.includes k p = true.
Proof.
  intro H. destruct p; simpl; rewrite H; reflexivity.
Qed.

Lemma startsWith_head (k s : string) :
  noDelim k -> Js.startsWith k s = true ->
  Js.startsWith k (hd EmptyString (Js.splitSentences s)) = true.
Proof.
  revert s. induction k as [|a k IH]; intros s N H; [reflexivity|].
  destruct s as [|b s]; [discriminate|].
  simpl in H. apply andb_true_iff in H. destruct H as [Eab Hk].
  apply Ascii.eqb_eq in Eab. subst b.
  assert (Da : Js.isDelim a = false) by (apply N; now left).
  assert (Nk : noDelim k) by (intros c Hc; apply N; now right).
  specialize (IH s Nk Hk).
  simpl. rewrite Da.
  destruct (Js.splitSentences s) as [|p ps] eqn:E.
  - now destruct (splitSentences_nonempty s).
  - simpl in *. now rewrite Ascii.eqb_refl, IH.
Qed.

Lemma includes_sentence (k s : string) :
  noDelim k -> Js.includes k s = true ->
  exists p, In p (Js.splitSentences s) /\ Js.includes k p = true.
Proof.
  intro N. induction s as [|c s IH]; intro H.
  - simpl in H. rewrite orb_false_r in H.
    exists EmptyString. split; [now left|]. now apply startsWith_includes.
  - simpl in H. apply orb_true_iff in H. destruct H as [H|H].
    + exists (hd EmptyString (Js.splitSentences (String c s))). split.
      * destruct (Js.splitSentences (String c s)) eqn:E; [|now left].
        now destruct (splitSentences_nonempty (String c s)).
      * apply startsWith_includes. now apply startsWith_head.
    + destruct (IH H) as (p & Hp & Hk). simpl.
      destruct (Js.isDelim c).
      * exists p. split; [|exact Hk].
        destruct (Js.startsWithDelim s); [exact Hp | now right].
      * destruct (Js.splitSentences s) as [|p0 ps]; [contradiction|].
        destruct Hp as [->|Hp].
        -- exists (String c p). split; [now left|].
           simpl. rewrite Hk. apply orb_true_r.
        -- exists p. split; [now right | exact Hk].
Qed.

Lemma isDelim_lowerChar (c : ascii) : Js.isDelim (Js.lowerChar c) = Js.isDelim c.
Proof.
  destruct c as [[] [] [] [] [] [] [] []]; reflexivity.
Qed.

Lemma startsWithDelim_toLowerCase (s : string) :
  Js.startsWithDelim (Js.toLowerCase s) = Js.startsWithDelim s.
Proof.
  destruct s; [reflexivity | apply isDelim_lowerChar].
Qed.

Lemma splitSentences_toLowerCase (s : string) :
  Js.splitSentences (Js.toLowerCase s) = map Js.toLowerCase (Js.splitSentences s).
Proof.
  induction s as [|c s IH]; [reflexivity|].
  simpl. rewrite isDelim_lowerChar, startsWithDelim_toLowerCase, IH.
  destruct (Js.isDelim c).
  - destruct (Js.startsWithDelim s); reflexivity.
  - destruct (Js.splitSentences s); reflexivity.
Qed.

(** A message whose lower-cased text contains the keyword has a
    sentence whose lower-cased text contains it. *)
Lemma relevantSentences_nonempty (k text : string) :
  noDelim k -> Js.includes k (Js.toLowerCase text) = true ->
  filter (fun s => Js.includes k (Js.toLowerCase s)) (Js.splitSentences text) <> [].
Proof.
  intros N H.
  destruct (includes_sentence _ _ N H) as (p & Hp & Hk).
  rewrite splitSentences_toLowerCase in Hp. apply in_map_iff in Hp.
  destruct Hp as (s & <- & Hs).
  intro E.
  assert (I : In s (filter (fun s => Js.includes k (Js.toLowerCase s))
                           (Js.splitSentences text)))
    by (apply filter_In; split; assumption).
  rewrite E in I. exact I.
Qed.

Lemma noDelim_risk : noDelim "risk".
Proof.
  intros c H. simpl in H.
  repeat (destruct H as [<-|H]; [reflexivity|]). contradiction.
Qed.

(** ** The buckets *)

Lemma lookup_pushTo (k category s : string) (categories : Categories) :
  lookup k (pushTo category s categories)
  = match lookup k categories with
    | Some v => Some (if (k =? category)%string then v ++ [s] else v)
    | None => None
    end.
Proof.
  induction categories as [|[k' v] cs IH]; [reflexivity|].
  simpl. destruct (String.eqb_spec k' category) as [->|Hc]; simpl.
  - destruct (String.eqb_spec category k) as [->|Hk].
    + now rewrite String.eqb_refl.
    + exact IH.
  - destruct (String.eqb_spec k' k) as [->|Hk].
    + destruct (String.eqb_spec k category); [congruence | reflexivity].
    + exact IH.
Qed.

Lemma keys_pushTo (category s : string) (categories : Categories) :
  map fst (pushTo category s categories) = map fst categories.
Proof.
  unfold pushTo. rewrite map_map. apply map_ext.
  intros [k v]. simpl. now destruct (k =? category)%string.
Qed.

Lemma keys_scanKeyword (m : ChatMessage) (categories : Categories) (e : string * string) :
  map fst (scanKeyword m categories e) = map fst categories.
Proof.
  destruct e as [keyword category]. unfold scanKeyword.
  destruct (Js.includes keyword _); [|reflexivity].
  destruct (filter _ _); [reflexivity | apply keys_pushTo].
Qed.

(** A property every step of a [forEach] keeps is kept by the loop. *)
Lemma fold_left_keeps {S X} (P : S -> Prop) (f : S -> X -> S) :
  (forall s x, P s -> P (f s x)) ->
  forall l s, P s -> P (fold_left f l s).
Proof.
  intros Hf l. induction l as [|x l IH]; intros s Hs; [exact Hs|].
  cbn [fold_left]. apply IH, Hf, Hs.
Qed.

(** If one element's step establishes [Q] from [P], and every step
    keeps both, the loop over a list holding that element ends in [Q]. *)
Lemma fold_left_reaches {S X} (P Q : S -> Prop) (f : S -> X -> S) (l : list X) (x : X) :
  In x l ->
  (forall s y, P s -> P (f s y)) ->
  (forall s y, Q s -> Q (f s y)) ->
  (forall s, P s -> Q (f s x)) ->
  forall s, P s -> Q (fold_left f l s).
Proof.
  intros Hx HP HQ HPQ s Hs.
  destruct (in_split _ _ Hx) as (l1 & l2 & ->).
  rewrite fold_left_app. cbn [fold_left].
  apply (fold_left_keeps Q f HQ). apply HPQ.
  now apply (fold_left_keeps P f HP).
Qed.

Lemma keys_scanMessage (cs : Categories) (m : ChatMessage) :
  map fst (scanMessage cs m) = map fst cs.
Proof.
  exact (fold_left_keeps (fun c => map fst c = map fst cs) (fun c e => scanKeyword m c e)
           (fun c e H => eq_trans (keys_scanKeyword m c e) H) keywordMap cs eq_refl).
Qed.

Lemma keys_collectCategories (messages : list ChatMessage) :
  map fst (collectCategories messages) = map fst initialCategories.
Proof.
  exact (fold_left_keeps (fun c => map fst c = map fst initialCategories) scanMessage
           (fun c m H => eq_trans (keys_scanMessage c m) H)
           (recentAssistantMessages messages) initialCategories eq_refl).
Qed.

Lemma riskFilled_pushTo (category s : string) (categories : Categories) :
  riskFilled categories -> riskFilled (pushTo category s categories).
Proof.
  intros (s0 & v & E). unfold riskFilled. rewrite lookup_pushTo, E.
  destruct (_ =? _)%string; simpl; eauto.
Qed.

Lemma riskKeyed_pushTo (category s : string) (categories : Categories) :
  riskKeyed categories -> riskKeyed (pushTo category s categories).
Proof.
  intros (v & E). unfold riskKeyed. rewrite lookup_pushTo, E. eauto.
Qed.

Lemma riskKeyed_pushTo_risk (s : string) (categories : Categories) :
  riskKeyed categories -> riskFilled (pushTo "risk" s categories).
Proof.
  intros (v & E). unfold riskFilled. rewrite lookup_pushTo, E. simpl.
  destruct v as [|s0 v]; simpl; eauto.
Qed.

Lemma scanKeyword_keeps_keyed (m : ChatMessage) (cs : Categories) (e : string * string) :
  riskKeyed cs -> riskKeyed (scanKeyword m cs e).
Proof.
  destruct e as [keyword category]. unfold scanKeyword.
  destruct (Js.includes keyword _); [|tauto].
  destruct (filter _ _); [tauto | apply riskKeyed_pushTo].
Qed.

Lemma scanKeyword_keeps_filled (m : ChatMessage) (cs : Categories) (e : string * string) :
  riskFilled cs -> riskFilled (scanKeyword m cs e).
Proof.
  destruct e as [keyword category]. unfold scanKeyword.
  destruct (Js.includes keyword _); [|tauto].
  destruct (filter _ _); [tauto | apply riskFilled_pushTo].
Qed.

Lemma scanKeyword_risk (m : ChatMessage) (cs : Categories) :
  Js.includes "risk" (Js.toLowerCase (content m)) = true ->
  riskKeyed cs -> riskFilled (scanKeyword m cs ("risk", "risk")%string).
Proof.
  intros H K. unfold scanKeyword. rewrite H.
  pose proof (relevantSentences_nonempty _ _ noDelim_risk H) as NE.
  destruct (filter _ _) as [|s0 rest]; [congruence|].
  now apply riskKeyed_pushTo_risk.
Qed.

Lemma risk_in_keywordMap : In ("risk", "risk")%string keywordMap.
Proof. do 8 right. left. reflexivity. Qed.

Lemma scanMessage_keeps_keyed (cs : Categories) (m : ChatMessage) :
  riskKeyed cs -> riskKeyed (scanMessage cs m).
Proof.
  exact (fold_left_keeps riskKeyed (fun c e => scanKeyword m c e)
           (scanKeyword_keeps_keyed m) keywordMap cs).
Qed.

Lemma scanMessage_keeps_filled (cs : Categories) (m : ChatMessage) :
  riskFilled cs -> riskFilled (scanMessage cs m).
Proof.
  exact (fold_left_keeps riskFilled (fun c e => scanKeyword m c e)
           (scanKeyword_keeps_filled m) keywordMap cs).
Qed.

Lemma scanMessage_risk (m : ChatMessage) (cs : Categories) :
  Js.includes "risk" (Js.toLowerCase (content m)) = true ->
  riskKeyed cs -> riskFilled (scanMessage cs m).
Proof.
  intro H.
  exact (fold_left_reaches riskKeyed riskFilled (fun c e => scanKeyword m c e)
           keywordMap ("risk", "risk")%string risk_in_keywordMap
           (scanKeyword_keeps_keyed m) (scanKeyword_keeps_filled m)
           (fun c => scanKeyword_risk m c H) cs).
Qed.

Lemma initialCategories_keyed : riskKeyed initialCategories.
Proof. now exists []. Qed.

Lemma collectCategories_risk (messages : list ChatMessage) :
  (exists m, In m (recentAssistantMessages messages) /\
             Js.includes "risk" (Js.toLowerCase (content m)) = true) ->
  riskFilled (collectCategories messages).
Proof.
  intros (m & Hm & H).
  exact (fold_left_reaches riskKeyed riskFilled scanMessage
           (recentAssistantMessages messages) m Hm
           scanMessage_keeps_keyed scanMessage_keeps_filled
           (fun c => scanMessage_risk m c H) initialCategories initialCategories_keyed).
Qed.

(** ** Emission *)

Lemma chatCandidate_filter_risk (h : Host) (category : string) (v : list string) (k : nat) :
  filter isRiskCandidate (fst (chatCandidate h (category, v) k))
  = if (category =? "risk")%string then fst (chatCandidate h (category, v) k) else [].
Proof.
  unfold chatCandidate. destruct v as [|top rest].
  - now destruct (category =? "risk")%string.
  - unfold bind, ret, Date_now, newDate. cbn [fst filter].
    unfold isRiskCandidate, chatCategory. cbn [data].
    now destruct (category =? "risk")%string.
Qed.

(** C10 - When one of the 10 most recent assistant messages contains
    "risk" (in any letter case), the extractor emits exactly one
    candidate for the risk category, titled "Risk Management", of type
    [business] (the default branch of the category switch), with
    confidence 0.60 and source [chat]. *)
Theorem chat_risk_candidate (h : Host) (messages : list ChatMessage) (k : nat) :
  (exists m, In m (recentAssistantMessages messages) /\
             Js.includes "risk" (Js.toLowerCase (content m)) = true) ->
  exists c,
    filter isRiskCandidate (fst (extractChatInsights h messages k)) = [c] /\
    chatCategory c = Some "risk"%string /\
    title c = "Risk Management"%string /\
    rec_type c = business /\
    confidence c = 0.6 /\
    source c = chat.
Proof.
  intro Hm. apply collectCategories_risk in Hm.
  pose proof (keys_collectCategories messages) as Keys.
  unfold extractChatInsights.
  destruct Hm as (s0 & v & L).
  destruct (collectCategories messages)
    as [|[k1 v1] [|[k2 v2] [|[k3 v3] [|[k4 v4] [|[k5 v5] [|[k6 v6] [|[k7 v7] [|]]]]]]]];
    try discriminate Keys.
  cbn in Keys.
  injection Keys as -> -> -> -> -> -> ->.
  cbn in L. injection L as ->.
  repeat rewrite forEachPush_cons.
  repeat rewrite filter_app.
  repeat rewrite chatCandidate_filter_risk.
  cbn [String.eqb Ascii.eqb Bool.eqb app forEachPush ret fst filter].
  rewrite app_nil_r.
  unfold chatCandidate, bind, ret, Date_now, newDate. cbn [fst].
  eexists. split; [reflexivity|]. repeat split.
Qed.

Lemma chat_risk_candidate_witness :
  (exists m,
      In m (recentAssistantMessages
              [Sample.message "assistant" "Hello. The RISK is low! Cut costs." 5;
               Sample.message "user" "risk market" 6]) /\
      Js.includes "risk" (Js.toLowerCase (content m)) = true) /\
  exists c,
    filter isRiskCandidate
      (fst (extractChatInsights Sample.host
              [Sample.message "assistant" "Hello. The RISK is low! Cut costs." 5;
               Sample.message "user" "risk market" 6] 0%nat)) = [c] /\
    chatCategory c = Some "risk"%string /\
    title c = "Risk Management"%string /\
    rec_type c = business /\
    confidence c = 0.6 /\
    source c = chat.
Proof.
  assert (H : exists m,
      In m (recentAssistantMessages
              [Sample.message "assistant" "Hello. The RISK is low! Cut costs." 5;
               Sample.message "user" "risk market" 6]) /\
      Js.includes "risk" (Js.toLowerCase (content m)) = true).
  { exists (Sample.message "assistant" "Hello. The RISK is low! Cut costs." 5).
    split; [left; reflexivity | reflexivity]. }
  split; [exact H|].
  exact (chat_risk_candidate Sample.host _ 0%nat H).
Defined.

(* ================================================================== *)
(** * Claims about the storage adapter *)
(* ================================================================== *)

Lemma get_setProp_same (k : string) (v : Storage.value) (o : Storage.object) :
  Storage.get k (Storage.setProp k v o) = Some v.
Proof.
  induction o as [|[k' v'] o IH]; simpl.
  - now rewrite String.eqb_refl.
  - destruct (String.eqb_spec k' k) as [->|N]; simpl.
    + now rewrite String.eqb_refl.
    + destruct (String.eqb_spec k' k); [congruence | exact IH].
Qed.

Lemma get_setProp_other (k k' : string) (v : Storage.value) (o : Storage.object) :
  k' <> k -> Storage.get k (Storage.setProp k' v o) = Storage.get k o.
Proof.
  intro N. induction o as [|[k0 v0] o IH]; simpl.
  - destruct (String.eqb_spec k' k); [congruence | reflexivity].
  - destruct (String.eqb_spec k0 k') as [->|N0]; simpl.
    + destruct (String.eqb_spec k' k); [congruence | reflexivity].
    + destruct (String.eqb_spec k0 k); [reflexivity | exact IH].
Qed.

Lemma get_None_notin (k : string) (o : Storage.object) :
  ~ In k (map fst o) -> Storage.get k o = None.
Proof.
  induction o as [|[k' v'] o IH]; intro N; [reflexivity|].
  simpl in *. destruct (String.eqb_spec k' k); [tauto | apply IH; tauto].
Qed.

(** A spread property overrides what the literal held so far; a
    property the source lacks is left as it was. *)
Lemma get_spread (k : string) (src o : Storage.object) :
  NoDup (map fst src) ->
  Storage.get k (Storage.spread src o)
  = match Storage.get k src with Some v => Some v | None => Storage.get k o end.
Proof.
  unfold Storage.spread. revert o.
  induction src as [|[k1 v1] src IH]; intros o ND; [reflexivity|].
  inversion ND as [|? ? Hnotin ND']; subst.
  cbn [fold_left fst snd]. rewrite (IH _ ND'). simpl.
  destruct (String.eqb_spec k1 k) as [->|N].
  - rewrite (get_None_notin _ _ Hnotin). apply get_setProp_same.
  - destruct (Storage.get k src); [reflexivity|]. now apply get_setProp_other.
Qed.

(** C9, as the claim states it, fails on the id: when the caller's data
    carries an [id], the stored set keeps it.  This is what the service
    does: the set it stores has the [setId] the service drew (the first
    uuid) and not the uuid the store drew for it (the second). *)
Lemma createRecommendationSet_keeps_caller_id :
  let stored := fst (Storage.storeGeneratedSet Sample.host "u1" "summary" Sample.db0) in
  Storage.get "id" stored = Some (Storage.VStr (v4 Sample.host 0%nat)) /\
  Storage.get "id" stored <> Some (Storage.VStr (v4 Sample.host 1%nat)).
Proof.
  split; [reflexivity|]. vm_compute. discriminate.
Qed.

(** C9, amended - For every call of [createRecommendationSet], the
    creation time of the stored (and returned) set is the store's
    current time, whatever [created_at] the caller's data holds; its id
    is the caller's [id] when the data carries one, and otherwise a uuid
    the store draws; the returned set is the one appended to the
    collection. *)
Theorem createRecommendationSet_assigns
  (h : Host) (setData : Storage.object) (db : Storage.Db) :
  NoDup (map fst setData) ->
  let set := fst (Storage.createRecommendationSet h setData db) in
  let db' := snd (Storage.createRecommendationSet h setData db) in
  Storage.get "created_at" set
  = Some (Storage.VDate (wallClock h (Storage.clockReads db))) /\
  Storage.get "id" set
  = match Storage.get "id" setData with
    | Some v => Some v
    | None => Some (Storage.VStr (v4 h (Storage.uuidsDrawn db)))
    end /\
  Storage.recommendation_sets db' = Storage.recommendation_sets db ++ [set].
Proof.
  intros ND set db'. subst set db'. unfold Storage.createRecommendationSet.
  cbn [fst snd Storage.recommendation_sets].
  repeat split.
  - apply get_setProp_same.
  - rewrite get_setProp_other by discriminate.
    rewrite get_spread by exact ND.
    destruct (Storage.get "id" setData); reflexivity.
Qed.

Lemma createRecommendationSet_assigns_witness :
  NoDup (map fst [("user_id", Storage.VStr "u1"); ("summary", Storage.VStr "s");
                  ("created_at", Storage.VDate 5)]%string) /\
  Storage.get "created_at"
    (fst (Storage.createRecommendationSet Sample.host
            [("user_id", Storage.VStr "u1"); ("summary", Storage.VStr "s");
             ("created_at", Storage.VDate 5)]%string
            Sample.db0))
  = Some (Storage.VDate 1700000000000) /\
  Storage.get "id"
    (fst (Storage.createRecommendationSet Sample.host
            [("user_id", Storage.VStr "u1"); ("summary", Storage.VStr "s");
             ("created_at", Storage.VDate 5)]%string
            Sample.db0))
  = Some (Storage.VStr "uuid-0").
Proof.
  assert (ND : NoDup (map fst [("user_id", Storage.VStr "u1");
                               ("summary", Storage.VStr "s");
                               ("created_at", Storage.VDate 5)]%string)).
  { cbn. repeat constructor; cbn; intuition discriminate. }
  split; [exact ND|].
  pose proof (createRecommendationSet_assigns Sample.host _ Sample.db0 ND) as H.
  cbv zeta in H. destruct H as (T & I & _).
  split; [exact T | exact I].
Defined.

(* ================================================================== *)
(** * Further properties: recency order and the shared slice *)
(* ================================================================== *)

Section SortByKey.
Context {A : Type}.
Variable key : A -> Z.

Lemma keyDesc_Gt (a b : A) : (keyDesc key) a b = Gt <-> (key a < key b)%Z.
Proof.
  unfold keyDesc, Js.signZ. rewrite Z.compare_gt_iff. lia.
Qed.

Lemma insert_keyDesc_sorted (x : A) (s : list A) :
  StronglySorted (fun a b => (key b <= key a)%Z) s ->
  StronglySorted (fun a b => (key b <= key a)%Z) (Js.insert (keyDesc key) x s).
Proof.
  induction s as [|y s IH]; intro S; simpl.
  - repeat constructor.
  - inversion S as [|? ? S' F]; subst.
    destruct ((keyDesc key) x y) eqn:E.
    + assert (Hxy : (key y <= key x)%Z).
      { destruct (Z.lt_ge_cases (key x) (key y)) as [L|G]; [|lia].
        apply keyDesc_Gt in L. congruence. }
      constructor; [exact S|]. constructor; [exact Hxy|].
      eapply Forall_impl; [|exact F]. cbn. intros; lia.
    + assert (Hxy : (key y <= key x)%Z).
      { destruct (Z.lt_ge_cases (key x) (key y)) as [L|G]; [|lia].
        apply keyDesc_Gt in L. congruence. }
      constructor; [exact S|]. constructor; [exact Hxy|].
      eapply Forall_impl; [|exact F]. cbn. intros; lia.
    + apply keyDesc_Gt in E.
      constructor; [now apply IH|].
      eapply Permutation_Forall; [apply Permutation_sym, insert_perm|].
      constructor; [lia | exact F].
Qed.

Lemma sort_keyDesc_sorted (l : list A) :
  StronglySorted (fun a b => (key b <= key a)%Z) (Js.sort (keyDesc key) l).
Proof.
  induction l as [|x l IH]; simpl; [constructor|].
  now apply insert_keyDesc_sorted.
Qed.

(** Sorting a list that is already in order changes nothing. *)
Lemma sort_keyDesc_fixed (l : list A) :
  StronglySorted (fun a b => (key b <= key a)%Z) l -> Js.sort (keyDesc key) l = l.
Proof.
  induction l as [|x l IH]; intro S; [reflexivity|].
  inversion S as [|? ? S' F]; subst.
  cbn [Js.sort fold_right]. change (fold_right (Js.insert (keyDesc key)) [] l)
    with (Js.sort (keyDesc key) l). rewrite (IH S').
  destruct l as [|y l']; [reflexivity|].
  cbn [Js.insert]. inversion F as [|? ? Hxy _]; subst.
  destruct ((keyDesc key) x y) eqn:E; try reflexivity.
  apply keyDesc_Gt in E. lia.
Qed.
End SortByKey.

Lemma StronglySorted_firstn {A} (R : A -> A -> Prop) (n : nat) (l : list A) :
  StronglySorted R l -> StronglySorted R (firstn n l).
Proof.
  revert n. induction l as [|x l IH]; intros n S.
  - destruct n; constructor.
  - destruct n; [constructor|].
    inversion S as [|? ? S' F]; subst. cbn [firstn].
    constructor; [now apply IH|].
    rewrite Forall_forall in *. intros y Hy. apply F.
    rewrite <- (firstn_skipn n l). apply in_or_app. now left.
Qed.

Lemma StronglySorted_filter {A} (R : A -> A -> Prop) (p : A -> bool) (l : list A) :
  StronglySorted R l -> StronglySorted R (filter p l).
Proof.
  induction l as [|x l IH]; intro S; [constructor|].
  inversion S as [|? ? S' F]; subst. cbn [filter].
  destruct (p x); [|now apply IH].
  constructor; [now apply IH|].
  rewrite Forall_forall in *. intros y Hy. apply F.
  now apply filter_In in Hy.
Qed.

Lemma sortByRecency_keyDesc (l : list AnalysisResult) :
  sortByRecency l = Js.sort (keyDesc recencyKey) l.
Proof. reflexivity. Qed.

(** X1 - [sortByRecency] returns the same records, newest first, a
    [null] creation time counting as epoch 0; records with the same
    creation time keep the order they came in. *)
Theorem sortByRecency_spec (l : list AnalysisResult) :
  Permutation (sortByRecency l) l /\
  StronglySorted recentFirst (sortByRecency l) /\
  forall t : Z,
    filter (fun r => Z.eqb (recencyKey r) t) (sortByRecency l)
    = filter (fun r => Z.eqb (recencyKey r) t) l.
Proof.
  rewrite sortByRecency_keyDesc. repeat split.
  - apply sort_perm.
  - apply sort_keyDesc_sorted.
  - intro t. apply filter_sort. intros a b Ha Hb G.
    apply keyDesc_Gt in G. apply Z.eqb_eq in Ha, Hb. lia.
Qed.

Lemma resort_shared (p : AnalysisResult -> bool) (results : list AnalysisResult) :
  sortByRecency (filter p (Js.slice0 10 (sortByRecency results)))
  = filter p (Js.slice0 10 (sortByRecency results)).
Proof.
  rewrite (sortByRecency_keyDesc (filter _ _)). apply sort_keyDesc_fixed.
  apply StronglySorted_filter, StronglySorted_firstn.
  rewrite sortByRecency_keyDesc. apply sort_keyDesc_sorted.
Qed.

(** X2 - Inside [generateRecommendations] every extractor receives the
    ten most recent results already in recency order, so its own
    re-sort changes nothing: it handles the first three records of its
    type among those ten. *)
Theorem extractors_on_shared_slice (h : Host) (results : list AnalysisResult) (k : nat) :
  let shared := Js.slice0 10 (sortByRecency results) in
  let ofType t := filter (fun r => (ar_type r =? t)%string) shared in
  extractBusinessRecommendations h shared k
  = forEachPush (businessRecord h) (firstn 3 (ofType "business_feasibility"%string)) k /\
  extractForecastRecommendations h shared k
  = forEachPush (forecastRecord h) (firstn 3 (ofType "demand_forecast"%string)) k /\
  extractOptimizationRecommendations h shared k
  = forEachPush (optimizationRecord h) (firstn 3 (ofType "optimization"%string)) k.
Proof.
  intros shared ofType. subst shared ofType.
  unfold extractBusinessRecommendations, extractForecastRecommendations,
    extractOptimizationRecommendations.
  rewrite !resort_shared. repeat split.
Qed.

(** X3 - Only the ten most recent analysis results can contribute a
    candidate: dropping every older result from the input leaves the
    merged candidate list (and the clock readings made) unchanged. *)
Theorem merged_uses_ten_most_recent (h : Host) (input : RecommendationInput) (k : nat) :
  mergedRecommendations h (tenMostRecent input) k = mergedRecommendations h input k.
Proof.
  unfold mergedRecommendations, tenMostRecent.
  cbn [analysisResults chatHistory currentSeason].
  assert (E : Js.slice0 10 (sortByRecency
                (Js.slice0 10 (sortByRecency (analysisResults input))))
              = Js.slice0 10 (sortByRecency (analysisResults input))).
  { rewrite (sortByRecency_keyDesc (Js.slice0 _ _)).
    rewrite sort_keyDesc_fixed.
    - unfold Js.slice0. rewrite firstn_firstn. reflexivity.
    - apply StronglySorted_firstn. rewrite sortByRecency_keyDesc.
      apply sort_keyDesc_sorted. }
  rewrite E. reflexivity.
Qed.

(* ================================================================== *)
(** * Further properties: what each extractor can emit *)
(* ================================================================== *)

Lemma oneOf_length {A} (alts l : list A) : oneOf alts l -> (List.length l <= 1)%nat.
Proof.
  intros [->|(x & _ & ->)]; cbn; lia.
Qed.

Lemma oneOf_In {A} (alts l : list A) (x : A) : oneOf alts l -> In x l -> In x alts.
Proof.
  intros [->|(y & Hy & ->)] H; [contradiction|].
  destruct H as [<-|[]]. exact Hy.
Qed.

Lemma bind_fst {A B} (m : Eff A) (f : A -> Eff B) (k : nat) :
  fst (bind m f k) = fst (f (fst (m k)) (snd (m k))).
Proof.
  unfold bind. now destruct (m k).
Qed.

Lemma forEachPush_Forall_In {A B} (P : B -> Prop) (f : A -> Eff (list B)) (l : list A) :
  (forall x, In x l -> forall k, Forall P (fst (f x k))) ->
  forall k, Forall P (fst (forEachPush f l k)).
Proof.
  induction l as [|x l IH]; intros Hf k.
  - constructor.
  - rewrite forEachPush_cons. apply Forall_app. split.
    + apply Hf. now left.
    + apply IH. intros y Hy. apply Hf. now right.
Qed.

Lemma forEachPush_length {A B} (f : A -> Eff (list B)) (n : nat) :
  (forall x k, (List.length (fst (f x k)) <= n)%nat) ->
  forall l k, (List.length (fst (forEachPush f l k)) <= n * List.length l)%nat.
Proof.
  intros Hf l. induction l as [|x l IH]; intro k.
  - cbn. lia.
  - rewrite forEachPush_cons, length_app. cbn [List.length].
    specialize (Hf x k). specialize (IH (snd (f x k))). lia.
Qed.

Lemma in_firstn {A} (n : nat) (l : list A) (x : A) : In x (firstn n l) -> In x l.
Proof.
  intro H. rewrite <- (firstn_skipn n l). apply in_or_app. now left.
Qed.

Lemma in_recent_of_type (p : AnalysisResult -> bool) (n : nat)
      (results : list AnalysisResult) (r : AnalysisResult) :
  In r (Js.slice0 n (sortByRecency (filter p results))) -> In r results /\ p r = true.
Proof.
  intro H. apply in_firstn in H.
  unfold sortByRecency in H. apply sort_In in H. now apply filter_In in H.
Qed.

(** Split the guards standing at the head of a rule's body. *)
Ltac rule_cases :=
  cbv zeta;
  repeat match goal with
         | |- context [fst ((if ?c then _ else _) _)] => destruct c
         | |- context [fst ((match ?o with Some _ => _ | None => _ end) _)] => destruct o
         | |- context [fst ((match ?l with [] => _ | _ :: _ => _ end) _)] => destruct l
         end.

Ltac rule_oneOf :=
  rule_cases;
  first [ left; reflexivity
        | right; eexists; split; [| unfold bind, ret, newDate; cbn [fst map]; reflexivity];
          cbn; tauto ].

Lemma businessProfit_sig (h : Host) (r : AnalysisResult) (k : nat) :
  oneOf [bizProfit r] (map signature (fst (businessProfit h r k))).
Proof. unfold businessProfit. rule_oneOf. Qed.

Lemma businessRoi_sig (h : Host) (r : AnalysisResult) (k : nat) :
  oneOf [bizRoi r] (map signature (fst (businessRoi h r k))).
Proof. unfold businessRoi. rule_oneOf. Qed.

Lemma businessCost_sig (h : Host) (r : AnalysisResult) (k : nat) :
  oneOf [bizCost r] (map signature (fst (businessCost h r k))).
Proof. unfold businessCost. rule_oneOf. Qed.

Lemma businessBreakEven_sig (h : Host) (r : AnalysisResult) (k : nat) :
  oneOf [bizBreakEven r] (map signature (fst (businessBreakEven h r k))).
Proof. unfold businessBreakEven. rule_oneOf. Qed.

Lemma forecastGrowth_sig (h : Host) (r : AnalysisResult) (k : nat) :
  oneOf [fcGrowth r; fcDecline r] (map signature (fst (forecastGrowth h r k))).
Proof. unfold forecastGrowth. rule_oneOf. Qed.

Lemma forecastSeasonal_sig (h : Host) (r : AnalysisResult) (k : nat) :
  oneOf [fcSeasonal r] (map signature (fst (forecastSeasonal h r k))).
Proof. unfold forecastSeasonal. rule_oneOf. Qed.

Lemma forecastAccuracy_sig (h : Host) (r : AnalysisResult) (k : nat) :
  oneOf [fcAccuracy r; fcInaccuracy r] (map signature (fst (forecastAccuracy h r k))).
Proof. unfold forecastAccuracy. rule_oneOf. Qed.

Lemma optResources_sig (h : Host) (r : AnalysisResult) (k : nat) :
  oneOf [optResourcesSig r] (map signature (fst (optResources h r k))).
Proof. unfold optResources. rule_oneOf. Qed.

Lemma optConstraints_sig (h : Host) (r : AnalysisResult) (k : nat) :
  oneOf [optConstraintsSig r] (map signature (fst (optConstraints h r k))).
Proof. unfold optConstraints. rule_oneOf. Qed.

Lemma businessRecord_shape (h : Host) (r : AnalysisResult) (k : nat) :
  exists a b c d,
    map signature (fst (businessRecord h r k)) = a ++ b ++ c ++ d /\
    oneOf [bizProfit r] a /\ oneOf [bizRoi r] b /\
    oneOf [bizCost r] c /\ oneOf [bizBreakEven r] d.
Proof.
  unfold businessRecord. repeat (rewrite bind_fst; cbv beta).
  unfold ret. cbn [fst]. rewrite !map_app.
  do 4 eexists. split; [reflexivity|].
  auto using businessProfit_sig, businessRoi_sig, businessCost_sig, businessBreakEven_sig.
Qed.

Lemma forecastRecord_shape (h : Host) (r : AnalysisResult) (k : nat) :
  exists a b c,
    map signature (fst (forecastRecord h r k)) = a ++ b ++ c /\
    oneOf [fcGrowth r; fcDecline r] a /\ oneOf [fcSeasonal r] b /\
    oneOf [fcAccuracy r; fcInaccuracy r] c.
Proof.
  unfold forecastRecord. repeat (rewrite bind_fst; cbv beta).
  unfold ret. cbn [fst]. rewrite !map_app.
  do 3 eexists. split; [reflexivity|].
  auto using forecastGrowth_sig, forecastSeasonal_sig, forecastAccuracy_sig.
Qed.

Lemma optimizationRecord_shape (h : Host) (r : AnalysisResult) (k : nat) :
  match feasible (ar_data r) with
  | Some true =>
      exists b c,
        map signature (fst (optimizationRecord h r k)) = [optFeasibleSig r] ++ b ++ c /\
        oneOf [optResourcesSig r] b /\ oneOf [optConstraintsSig r] c
  | Some false => map signature (fst (optimizationRecord h r k)) = [optInfeasibleSig r]
  | None => fst (optimizationRecord h r k) = []
  end.
Proof.
  unfold optimizationRecord. destruct (feasible (ar_data r)) as [[|]|].
  - repeat (rewrite bind_fst; cbv beta).
    unfold ret. cbn [fst]. rewrite !map_app.
    do 2 eexists. split; [reflexivity|].
    auto using optResources_sig, optConstraints_sig.
  - reflexivity.
  - reflexivity.
Qed.

Lemma in_map_signature (c : Recommendation) (l : list Recommendation) :
  In c l -> In (signature c) (map signature l).
Proof. apply in_map. Qed.

Lemma extractBusiness_facts (h : Host) (results : list AnalysisResult) (k : nat) :
      let out := fst (extractBusinessRecommendations h results k) in
      (List.length out <= 12)%nat /\
      forall c, In c out ->
        exists r, In r results /\ ar_type r = "business_feasibility"%string /\
                  In (signature c) [bizProfit r; bizRoi r; bizCost r; bizBreakEven r].
Proof.
  intro out. subst out. unfold extractBusinessRecommendations. split.
  - eapply Nat.le_trans.
    + apply (forEachPush_length (businessRecord h) 4).
      intros x j. destruct (businessRecord_shape h x j) as (a & b & c & d & E & A & B & C & D).
      rewrite <- (length_map signature), E, !length_app.
      apply oneOf_length in A, B, C, D. lia.
    + pose proof (firstn_le_length 3
        (sortByRecency (filter (fun r => (ar_type r =? "business_feasibility")%string) results))).
      unfold Js.slice0. lia.
  - apply Forall_forall. apply forEachPush_Forall_In. intros r Hr j.
    apply in_recent_of_type in Hr. destruct Hr as [Hin Ht]. apply String.eqb_eq in Ht.
    apply Forall_forall. intros c Hc. exists r. repeat split; trivial.
    destruct (businessRecord_shape h r j) as (a & b & c' & d & E & A & B & C & D).
    apply in_map_signature in Hc. rewrite E in Hc.
    repeat (apply in_app_or in Hc; destruct Hc as [Hc|Hc]).
    + apply (oneOf_In _ _ _ A) in Hc. cbn in *. tauto.
    + apply (oneOf_In _ _ _ B) in Hc. cbn in *. tauto.
    + apply (oneOf_In _ _ _ C) in Hc. cbn in *. tauto.
    + apply (oneOf_In _ _ _ D) in Hc. cbn in *. tauto.
Qed.

(** X4 - A business-feasibility record yields its candidates in the
    order profit, ROI, cost, break-even, each rule at most once, each
    with the id [<tag>-<record id>], type, confidence and source of its
    rule.  The extractor returns at most 12 candidates, and each one
    stems from a record of the input whose type is
    [business_feasibility]. *)
Theorem business_candidates (h : Host) :
  (forall r k, exists a b c d,
      map signature (fst (businessRecord h r k)) = a ++ b ++ c ++ d /\
      oneOf [bizProfit r] a /\ oneOf [bizRoi r] b /\
      oneOf [bizCost r] c /\ oneOf [bizBreakEven r] d) /\
  (forall results k,
      let out := fst (extractBusinessRecommendations h results k) in
      (List.length out <= 12)%nat /\
      forall c, In c out ->
        exists r, In r results /\ ar_type r = "business_feasibility"%string /\
                  In (signature c) [bizProfit r; bizRoi r; bizCost r; bizBreakEven r]).
Proof.
  split; [apply businessRecord_shape | apply extractBusiness_facts].
Qed.

Lemma extractForecast_facts (h : Host) (results : list AnalysisResult) (k : nat) :
      let out := fst (extractForecastRecommendations h results k) in
      (List.length out <= 9)%nat /\
      forall c, In c out ->
        exists r, In r results /\ ar_type r = "demand_forecast"%string /\
                  In (signature c)
                     [fcGrowth r; fcDecline r; fcSeasonal r; fcAccuracy r; fcInaccuracy r].
Proof.
  intro out. subst out. unfold extractForecastRecommendations. split.
  - eapply Nat.le_trans.
    + apply (forEachPush_length (forecastRecord h) 3).
      intros x j. destruct (forecastRecord_shape h x j) as (a & b & c & E & A & B & C).
      rewrite <- (length_map signature), E, !length_app.
      apply oneOf_length in A, B, C. lia.
    + pose proof (firstn_le_length 3
        (sortByRecency (filter (fun r => (ar_type r =? "demand_forecast")%string) results))).
      unfold Js.slice0. lia.
  - apply Forall_forall. apply forEachPush_Forall_In. intros r Hr j.
    apply in_recent_of_type in Hr. destruct Hr as [Hin Ht]. apply String.eqb_eq in Ht.
    apply Forall_forall. intros c Hc. exists r. repeat split; trivial.
    destruct (forecastRecord_shape h r j) as (a & b & c' & E & A & B & C).
    apply in_map_signature in Hc. rewrite E in Hc.
    repeat (apply in_app_or in Hc; destruct Hc as [Hc|Hc]).
    + apply (oneOf_In _ _ _ A) in Hc. cbn in *. tauto.
    + apply (oneOf_In _ _ _ B) in Hc. cbn in *. tauto.
    + apply (oneOf_In _ _ _ C) in Hc. cbn in *. tauto.
Qed.

(** X5 - A demand-forecast record yields at most three candidates, in
    the order trend, seasonality, accuracy: growth or decline (never
    both), then the seasonal pattern, then high reliability or
    uncertainty (never both), each with the id, type, confidence and
    source of its rule.  The extractor returns at most 9 candidates, each
    stemming from an input record of type [demand_forecast]. *)
Theorem forecast_candidates (h : Host) :
  (forall r k, exists a b c,
      map signature (fst (forecastRecord h r k)) = a ++ b ++ c /\
      oneOf [fcGrowth r; fcDecline r] a /\ oneOf [fcSeasonal r] b /\
      oneOf [fcAccuracy r; fcInaccuracy r] c) /\
  (forall results k,
      let out := fst (extractForecastRecommendations h results k) in
      (List.length out <= 9)%nat /\
      forall c, In c out ->
        exists r, In r results /\ ar_type r = "demand_forecast"%string /\
                  In (signature c)
                     [fcGrowth r; fcDecline r; fcSeasonal r; fcAccuracy r; fcInaccuracy r]).
Proof.
  split; [apply forecastRecord_shape | apply extractForecast_facts].
Qed.

Lemma extractOptimization_facts (h : Host) (results : list AnalysisResult) (k : nat) :
      let out := fst (extractOptimizationRecommendations h results k) in
      (List.length out <= 9)%nat /\
      forall c, In c out ->
        exists r, In r results /\ ar_type r = "optimization"%string /\
                  In (signature c)
                     [optFeasibleSig r; optResourcesSig r; optConstraintsSig r;
                      optInfeasibleSig r].
Proof.
  intro out. subst out. unfold extractOptimizationRecommendations.
  assert (Sigs : forall r j,
             (List.length (fst (optimizationRecord h r j)) <= 3)%nat /\
             forall c, In c (fst (optimizationRecord h r j)) ->
                       In (signature c)
                          [optFeasibleSig r; optResourcesSig r; optConstraintsSig r;
                           optInfeasibleSig r]).
  { intros r j. pose proof (optimizationRecord_shape h r j) as S.
    destruct (feasible (ar_data r)) as [[|]|].
    - destruct S as (b & c & E & B & C). split.
      + rewrite <- (length_map signature), E, !length_app.
        apply oneOf_length in B, C. cbn [List.length]. lia.
      + intros x Hx. apply in_map_signature in Hx. rewrite E in Hx.
        repeat (apply in_app_or in Hx; destruct Hx as [Hx|Hx]).
        * cbn in *. tauto.
        * apply (oneOf_In _ _ _ B) in Hx. cbn in *. tauto.
        * apply (oneOf_In _ _ _ C) in Hx. cbn in *. tauto.
    - split.
      + rewrite <- (length_map signature), S. cbn. lia.
      + intros x Hx. apply in_map_signature in Hx. rewrite S in Hx. cbn in *. tauto.
    - rewrite S. split; [cbn; lia | intros x []]. }
  split.
  - eapply Nat.le_trans.
    + apply (forEachPush_length (optimizationRecord h) 3). intros x j. apply Sigs.
    + pose proof (firstn_le_length 3
        (sortByRecency (filter (fun r => (ar_type r =? "optimization")%string) results))).
      unfold Js.slice0. lia.
  - apply Forall_forall. apply forEachPush_Forall_In. intros r Hr j.
    apply in_recent_of_type in Hr. destruct Hr as [Hin Ht]. apply String.eqb_eq in Ht.
    apply Forall_forall. intros c Hc. exists r.
    split; [exact Hin|]. split; [exact Ht|].
    exact (proj2 (Sigs r j) c Hc).
Qed.

(** X6 - An optimization record with [feasible === true] yields the
    "optimal allocation" candidate first, then at most the "key
    resources" and the "bottleneck" candidates, in that order; with
    [feasible === false] only the "constraints too tight" candidate; with
    [feasible] absent nothing.  The extractor returns at most 9
    candidates, each stemming from an input record of type
    [optimization]. *)
Theorem optimization_candidates (h : Host) :
  (forall r k,
      match feasible (ar_data r) with
      | Some true =>
          exists b c,
            map signature (fst (optimizationRecord h r k)) = [optFeasibleSig r] ++ b ++ c /\
            oneOf [optResourcesSig r] b /\ oneOf [optConstraintsSig r] c
      | Some false => map signature (fst (optimizationRecord h r k)) = [optInfeasibleSig r]
      | None => fst (optimizationRecord h r k) = []
      end) /\
  (forall results k,
      let out := fst (extractOptimizationRecommendations h results k) in
      (List.length out <= 9)%nat /\
      forall c, In c out ->
        exists r, In r results /\ ar_type r = "optimization"%string /\
                  In (signature c)
                     [optFeasibleSig r; optResourcesSig r; optConstraintsSig r;
                      optInfeasibleSig r]).
Proof.
  split; [apply optimizationRecord_shape | apply extractOptimization_facts].
Qed.

(* ================================================================== *)
(** * Further properties: the chat-insight extractor *)
(* ================================================================== *)

Lemma subseq_length {A} (l1 l2 : list A) :
  subseq l1 l2 -> (List.length l1 <= List.length l2)%nat.
Proof.
  induction 1; cbn; lia.
Qed.

Lemma subseq_In {A} (l1 l2 : list A) (x : A) : subseq l1 l2 -> In x l1 -> In x l2.
Proof.
  intro S. induction S as [l|y l1 l2 S IH|y l1 l2 S IH]; intro Hx.
  - contradiction.
  - destruct Hx as [<-|Hx]; [now left | right; auto].
  - right; auto.
Qed.

Lemma subseq_app_one {A} (a b t : list A) (x : A) :
  subseq a [x] -> subseq b t -> subseq (a ++ b) (x :: t).
Proof.
  intros Ha Hb. inversion Ha as [l|y l1 l2 H1|y l1 l2 H1]; subst.
  - now apply subseq_skip.
  - inversion H1; subst. cbn. now apply subseq_keep.
  - inversion H1; subst. now apply subseq_skip.
Qed.

Lemma chatCandidate_row (h : Host) (k : string) (v : list string) (j : nat) :
  subseq (map chatRow (fst (chatCandidate h (k, v) j)))
         [(Some k, chatType k, orString (lookup k chatTitles) "AI Insight")] /\
  Forall (fun c => confidence c = 0.6 /\ source c = chat /\
                   description c = hd EmptyString v /\ v <> [])
         (fst (chatCandidate h (k, v) j)).
Proof.
  unfold chatCandidate. destruct v as [|top rest].
  - split; constructor.
  - unfold bind, ret, Date_now, newDate. cbn [fst map]. split.
    + apply subseq_keep, subseq_nil.
    + repeat constructor. discriminate.
Qed.








Lemma extractChat_rows (h : Host) (messages : list ChatMessage) (k : nat) :
  let out := fst (extractChatInsights h messages k) in
  subseq (map chatRow out) chatTable /\
  (List.length out <= 7)%nat /\
  Forall (fun c => confidence c = 0.6 /\ source c = chat) out.
Proof.
  intro out. subst out. unfold extractChatInsights.
  pose proof (keys_collectCategories messages) as Keys.
  destruct (collectCategories messages)
    as [|[k1 v1] [|[k2 v2] [|[k3 v3] [|[k4 v4] [|[k5 v5] [|[k6 v6] [|[k7 v7] [|]]]]]]]];
    try discriminate Keys.
  cbn in Keys. injection Keys as -> -> -> -> -> -> ->.
  assert (S : subseq
                (map chatRow
                   (fst (forEachPush (chatCandidate h)
                           [("growth", v1); ("profit", v2); ("cost", v3); ("risk", v4);
                            ("market", v5); ("seasonal", v6); ("resource", v7)]%string k)))
                chatTable).
  { repeat rewrite forEachPush_cons. repeat rewrite map_app.
    unfold chatTable.
    repeat (apply subseq_app_one; [apply chatCandidate_row|]).
    cbn. apply subseq_nil. }
  split; [exact S|]. split.
  - apply subseq_length in S. rewrite length_map in S. exact S.
  - apply forEachPush_Forall. intros [c v] j.
    eapply Forall_impl; [|apply (chatCandidate_row h c v j)]. cbn. tauto.
Qed.

(** X7 - The chat extractor emits at most one candidate per category,
    in the fixed order growth, profit, cost, risk, market, seasonal,
    resource, each with the type and title the table gives its category
    (the fallback title "AI Insight" is never used); every candidate has
    confidence 0.6 and source [chat]; there are at most seven. *)
Theorem chat_candidates (h : Host) (messages : list ChatMessage) (k : nat) :
  let out := fst (extractChatInsights h messages k) in
  subseq (map chatRow out) chatTable /\
  (List.length out <= 7)%nat /\
  Forall (fun c => confidence c = 0.6 /\ source c = chat) out.
Proof.
  exact (extractChat_rows h messages k).
Qed.


(** A sentence that stands between no-break spaces (U+00A0) is
    described without them. *)
Example chat_description_no_break_space :
  map description (fst (extractChatInsights Sample.host [Sample.paddedMessage] 0%nat))
  = ["Market prices rose"%string].
Proof. vm_compute. reflexivity. Qed.

(* ================================================================== *)
(** * Further properties: the aggregator *)
(* ================================================================== *)

Lemma mergedRecommendations_parts (h : Host) (input : RecommendationInput) (k : nat) :
  let shared := Js.slice0 10 (sortByRecency (analysisResults input)) in
  exists k1 k2 k3 k4,
    fst (mergedRecommendations h input k)
    = fst (extractBusinessRecommendations h shared k)
      ++ fst (extractForecastRecommendations h shared k1)
      ++ fst (extractOptimizationRecommendations h shared k2)
      ++ fst (extractChatInsights h (chatHistory input) k3)
      ++ fst (addSeasonalRecommendations h (currentSeason input) k4).
Proof.
  intro shared. unfold mergedRecommendations. fold shared.
  repeat (rewrite bind_fst; cbv beta). unfold ret. cbn [fst].
  do 4 eexists. reflexivity.
Qed.

Lemma signature_confidence (c : Recommendation) (i : string) (t : RecType) (q : Q)
      (s : RecSource) :
  (i, t, q, s) = signature c -> confidence c = q.
Proof.
  unfold signature. intro E. now injection E.
Qed.

Lemma addSeasonalRecommendations_two (h : Host) (s : option Season) (k : nat) :
  (List.length (fst (addSeasonalRecommendations h s k)) <= 2)%nat /\
  Forall confidenceInRange (fst (addSeasonalRecommendations h s k)).
Proof.
  destruct s as [season|]; cbn.
  - split; [lia|]. repeat constructor; cbn; discriminate.
  - split; [lia | constructor].
Qed.

Ltac conf_from_table H :=
  cbn in H;
  repeat (destruct H as [H|H];
          [apply signature_confidence in H; unfold confidenceInRange; rewrite H;
           split; discriminate|]);
  contradiction.

(** X9 - The merged candidate list never holds more than 39 candidates
    (12 business, 9 forecast, 9 optimization, 7 chat, 2 seasonal), and
    every candidate in it - hence every candidate
    [generateRecommendations] returns - has a confidence between 0.6 and
    0.9, within the [0, 1] range of the data model. *)
Theorem merged_size_and_confidence (h : Host) (input : RecommendationInput) (k : nat) :
  (List.length (fst (mergedRecommendations h input k)) <= 39)%nat /\
  Forall confidenceInRange (fst (mergedRecommendations h input k)) /\
  Forall confidenceInRange (recommendations (fst (generateRecommendations h input k))).
Proof.
  assert (M : (List.length (fst (mergedRecommendations h input k)) <= 39)%nat /\
              Forall confidenceInRange (fst (mergedRecommendations h input k))).
  { destruct (mergedRecommendations_parts h input k) as (k1 & k2 & k3 & k4 & E).
    rewrite E. clear E.
    set (shared := Js.slice0 10 (sortByRecency (analysisResults input))).
    destruct (extractBusiness_facts h shared k) as [Lb Pb].
    destruct (extractForecast_facts h shared k1) as [Lf Pf].
    destruct (extractOptimization_facts h shared k2) as [Lo Po].
    destruct (extractChat_rows h (chatHistory input) k3) as (_ & Lc & Pc).
    destruct (addSeasonalRecommendations_two h (currentSeason input) k4) as [Ls Ps].
    split.
    - rewrite !length_app. lia.
    - repeat (apply Forall_app; split).
      + apply Forall_forall. intros c Hc. destruct (Pb c Hc) as (r & _ & _ & T).
        conf_from_table T.
      + apply Forall_forall. intros c Hc. destruct (Pf c Hc) as (r & _ & _ & T).
        conf_from_table T.
      + apply Forall_forall. intros c Hc. destruct (Po c Hc) as (r & _ & _ & T).
        conf_from_table T.
      + eapply Forall_impl; [|exact Pc]. intros c [Hq _].
        unfold confidenceInRange. rewrite Hq. split; discriminate.
      + exact Ps. }
  destruct M as [L F]. split; [exact L|]. split; [exact F|].
  destruct (generateRecommendations_fst h input k) as [-> _].
  apply Forall_forall. intros c Hc. apply in_firstn in Hc.
  apply (Permutation_in _ (rank_perm h _)) in Hc.
  rewrite Forall_forall in F. now apply F.
Qed.

(** X10 - The list [generateRecommendations] returns is in ranking
    order (later day first; within a day higher confidence first; at
    equal confidence newer first), holds only candidates of the merged
    list, and holds all of them when there are at most ten.  The day is
    the local day under the zone rules of the host, daylight saving
    included. *)
Theorem returned_list_ordered (h : Host) (input : RecommendationInput) (k : nat) :
  let merged := fst (mergedRecommendations h input k) in
  let out := recommendations (fst (generateRecommendations h input k)) in
  StronglySorted (rankOrder h) out /\
  (forall c, In c out -> In c merged) /\
  ((List.length merged <= 10)%nat -> Permutation out merged).
Proof.
  intros merged out. subst out.
  destruct (generateRecommendations_fst h input k) as [-> _]. fold merged.
  split; [|split].
  - apply StronglySorted_firstn, rank_sorted, mergedRecommendations_hasDate.
  - intros c Hc. apply in_firstn in Hc.
    now apply (Permutation_in _ (rank_perm h merged)) in Hc.
  - intro L. unfold Js.slice0. rewrite firstn_all2.
    + apply rank_perm.
    + rewrite (Permutation_length (rank_perm h merged)). exact L.
Qed.

(** The theorem at work across the end of daylight saving time: both
    candidates of [Sample.riskInput] are of one local day on
    [Sample.newYork], and the older one, of confidence 0.9, comes first. *)
Lemma returned_list_ordered_witness :
  (List.length (fst (mergedRecommendations Sample.newYork Sample.riskInput 0%nat))
   <= 10)%nat /\
  map rec_id
      (recommendations (fst (generateRecommendations Sample.newYork Sample.riskInput 0%nat)))
  = ["opt-infeasible-o1"; "chat-risk-1699245000001"]%string /\
  StronglySorted (rankOrder Sample.newYork)
    (recommendations (fst (generateRecommendations Sample.newYork Sample.riskInput 0%nat))) /\
  Permutation
    (recommendations (fst (generateRecommendations Sample.newYork Sample.riskInput 0%nat)))
    (fst (mergedRecommendations Sample.newYork Sample.riskInput 0%nat)).
Proof.
  assert (L : (List.length
                 (fst (mergedRecommendations Sample.newYork Sample.riskInput 0%nat))
               <= 10)%nat).
  { vm_compute. repeat constructor. }
  split; [exact L|]. split; [vm_compute; reflexivity|].
  split.
  - exact (proj1 (returned_list_ordered Sample.newYork Sample.riskInput 0%nat)).
  - exact (proj2 (proj2 (returned_list_ordered Sample.newYork Sample.riskInput 0%nat)) L).
Defined.

Lemma rank_pair_same_confidence (h : Host) (a b : Recommendation) :
  confidence a = confidence b ->
  rank h [a; b] = [a; b] \/ rank h [a; b] = [b; a].
Proof.
  intro E. unfold rank. cbn [Js.sort fold_right Js.insert].
  assert (NoSwap : forall x y, confidence x = confidence y ->
                               Js.sort (bySameDayConfidence h) [x; y] = [x; y]).
  { intros x y Exy. cbn [Js.sort fold_right Js.insert].
    unfold bySameDayConfidence.
    destruct (dayText_eqb _ _); [|reflexivity].
    rewrite signQ_Eq; [reflexivity|]. now rewrite Exy. }
  destruct (byCreationTime a b).
  - left. now apply NoSwap.
  - left. now apply NoSwap.
  - right. apply NoSwap. now symmetry.
Qed.

(** X11 - The seasonal-only scenario: with no analysis results and no
    chat history but a season, [generateRecommendations] returns exactly
    the two seasonal candidates, and the summary opens with the
    historical-data clause, names the activity focus, then the crop
    recommendations, and closes with the season sentence - whatever the
    clock reads. *)
Theorem seasonal_only_scenario (h : Host) (k : nat) (user : string) (season : Season) :
  let out := fst (generateRecommendations h
                    {| userId := user; analysisResults := [];
                       chatHistory := []; currentSeason := Some season |} k) in
  List.length (recommendations out) = 2%nat /\
  Permutation (map title (recommendations out))
              [ (capitalized (seasonName season) ++ " Crop Recommendations")%string;
                (capitalized (seasonName season) ++ " Activity Focus")%string ] /\
  summary out
  = ("Based on your historical data, we recommend: "
     ++ capitalized (seasonName season) ++ " Activity Focus. "
     ++ capitalized (seasonName season) ++ " Crop Recommendations. "
     ++ "Consider adjusting your strategy for the " ++ seasonName season ++ " season.")%string.
Proof.
  intro out. subst out.
  match goal with |- context [generateRecommendations h ?i k] => set (input := i) end.
  destruct (generateRecommendations_fst h input k) as [-> ->].
  assert (M : exists a b,
             fst (mergedRecommendations h input k) = [a; b] /\
             confidence a = confidence b /\
             rec_type a = crop /\ rec_type b = business /\
             title a = (capitalized (seasonName season) ++ " Crop Recommendations")%string /\
             title b = (capitalized (seasonName season) ++ " Activity Focus")%string).
  { do 2 eexists. split; [reflexivity|]. repeat split. }
  destruct M as (a & b & -> & Eq & Ta & Tb & Na & Nb).
  destruct (rank_pair_same_confidence h a b Eq) as [-> | ->];
    cbn [Js.slice0 firstn List.length map];
    (split; [reflexivity|]); (split; [rewrite Na, Nb; try apply Permutation_refl; apply perm_swap|]);
    unfold buildSummary; cbn [List.length Nat.ltb Nat.leb find];
    rewrite Ta, Tb; cbn [RecType_eqb find titleSentence];
    rewrite Na, Nb; destruct season; reflexivity.
Qed.

Lemma string_append_assoc (a b c : string) :
  ((a ++ b) ++ c = a ++ (b ++ c))%string.
Proof.
  induction a as [|x a IH]; cbn; [reflexivity | now rewrite IH].
Qed.

(** X12 - The fallback summary is used exactly when no candidate is
    returned: with at least one candidate the summary starts with
    "Based on your ", and if a season was given it ends with the
    sentence naming that season. *)
Theorem summary_shape (h : Host) (input : RecommendationInput) (k : nat) :
  let out := fst (generateRecommendations h input k) in
  (summary out = fallbackSummary <-> recommendations out = []) /\
  (recommendations out <> [] ->
   (exists rest, summary out = ("Based on your " ++ rest)%string) /\
   forall season, currentSeason input = Some season ->
     exists front,
       summary out
       = (front ++ "Consider adjusting your strategy for the "
                ++ seasonName season ++ " season.")%string).
Proof.
  intro out. subst out.
  destruct (generateRecommendations_fst h input k) as [-> ->].
  set (final := Js.slice0 10 (rank h (fst (mergedRecommendations h input k)))).
  assert (Shape : final <> [] ->
     (exists rest, buildSummary input (Js.slice0 5 final) = ("Based on your " ++ rest)%string) /\
     forall season, currentSeason input = Some season ->
       exists front,
         buildSummary input (Js.slice0 5 final)
         = (front ++ "Consider adjusting your strategy for the "
                  ++ seasonName season ++ " season.")%string).
  { intro NE. destruct final as [|c rest]; [congruence|].
    unfold buildSummary. cbn [Js.slice0 firstn List.length Nat.ltb Nat.leb].
    split.
    - destruct (_ || _)%bool.
      + eexists. apply string_append_assoc.
      + eexists. reflexivity.
    - intros season Hs. rewrite Hs.
      match goal with
      | |- exists f, (?o ++ ?a ++ ?b ++ ?c ++ ?d ++ _)%string = _ =>
          exists (o ++ a ++ b ++ c ++ d)%string
      end.
      rewrite !string_append_assoc. reflexivity. }
  split; [split|].
  - intro E. destruct final as [|c rest] eqn:F; [reflexivity|].
    destruct Shape as [(r & S) _]; [discriminate|].
    rewrite S in E. discriminate E.
  - intros ->. reflexivity.
  - exact Shape.
Qed.

Lemma summary_shape_witness :
  recommendations (fst (generateRecommendations Sample.host Sample.riskInput 0%nat)) <> [] /\
  exists rest,
    summary (fst (generateRecommendations Sample.host Sample.riskInput 0%nat))
    = ("Based on your " ++ rest)%string.
Proof.
  assert (NE : recommendations
                 (fst (generateRecommendations Sample.host Sample.riskInput 0%nat)) <> []).
  { vm_compute. discriminate. }
  split; [exact NE|].
  exact (proj1 (proj2 (summary_shape Sample.host Sample.riskInput 0%nat) NE)).
Defined.

(* ================================================================== *)
(** * Further properties: evidence behind single rules *)
(* ================================================================== *)

(** X13 - The seasonality rule needs at least two historical points:
    a record with fewer (or with no chart or no history) never yields the
    seasonal-pattern candidate, because the number of peaks is at most
    the number of points. *)
Theorem forecastSeasonal_needs_two_points (h : Host) (r : AnalysisResult) (k : nat) :
  (List.length (historyOf r) < 2)%nat -> fst (forecastSeasonal h r k) = [].
Proof.
  unfold historyOf, forecastSeasonal. cbv zeta.
  destruct (chart (ar_data r)) as [c|]; [|reflexivity].
  destruct (historical c) as [hist|]; [|reflexivity].
  intro L.
  match goal with |- context [(2 <=? ?n)%nat] => assert (P : (n <= List.length hist)%nat) end.
  { eapply Nat.le_trans; [apply filter_length_le|]. now rewrite length_map. }
  match goal with |- context [(2 <=? ?n)%nat] => destruct (Nat.leb_spec 2 n) as [G|G] end.
  - lia.
  - reflexivity.
Qed.

Lemma forecastSeasonal_needs_two_points_witness :
  (List.length (historyOf (Sample.forecastResult [100%float; 110%float] None)) < 2)%nat /\
  fst (forecastSeasonal Sample.host
         (Sample.forecastResult [100%float; 110%float] None) 0%nat) = [].
Proof.
  assert (L : (List.length
                 (historyOf (Sample.forecastResult [100%float; 110%float] None)) < 2)%nat)
    by (cbn; lia).
  split; [exact L|].
  exact (forecastSeasonal_needs_two_points Sample.host _ 0%nat L).
Defined.

(** X14 - The "key resource allocation" candidate lists between one and
    three variables of the record, every one with a value greater than
    zero; when the record has no variable with a positive value (or no
    variables list) the candidate is not emitted. *)
Theorem key_resources_positive (h : Host) (r : AnalysisResult) (k : nat) :
  (forall c, In c (fst (optResources h r k)) ->
     exists all top,
       variables (ar_data r) = Some all /\
       data c = JObj [("optimizationName"%string, jstr (name (ar_data r)));
                      ("topResources"%string, JArr (map jvariable top))] /\
       description c
       = ("Focus on these resources for optimal results: "
          ++ Js.join ", " (map (fun v => var_name v ++ ": " ++ toFixed h (value v) 2) top))%string /\
       (1 <= List.length top <= 3)%nat /\
       forall v, In v top -> In v all /\ (0 <? value v)%float = true) /\
  ((forall all v, variables (ar_data r) = Some all -> In v all ->
                  (0 <? value v)%float = false) ->
   fst (optResources h r k) = []).
Proof.
  unfold optResources. cbv zeta.
  destruct (variables (ar_data r)) as [all|]; [|split; [intros c []|reflexivity]].
  set (top := Js.slice0 3 _).
  assert (T : forall v, In v top -> In v all /\ (0 <? value v)%float = true).
  { intros v Hv. subst top. apply in_firstn in Hv. apply sort_In in Hv.
    now apply filter_In in Hv. }
  assert (L : (List.length top <= 3)%nat) by apply firstn_le_length.
  split.
  - intros c Hc.
    destruct (Nat.ltb_spec 0 (List.length top)) as [P|P]; [|contradiction].
    unfold bind, ret, newDate in Hc. cbn [fst] in Hc.
    destruct Hc as [<-|[]]. exists all, top. cbn [data description].
    repeat split; trivial; apply T; assumption.
  - intro NoPositive.
    destruct top as [|v rest] eqn:E; [reflexivity|].
    assert (Hv : In v top) by (rewrite E; now left).
    destruct (T v) as [Hin Hpos]; [now rewrite <- E|].
    rewrite (NoPositive all v eq_refl Hin) in Hpos. discriminate.
Qed.

Lemma isBinding_abs (c : OptConstraint) :
  isBinding c = (PrimFloat.abs (slack c) <? 1e-3)%float.
Proof.
  unfold isBinding. destruct (PrimFloat.eqb (slack c) 0) eqn:E; [|reflexivity].
  cbn [orb]. symmetry.
  rewrite FloatAxioms.eqb_spec in E. rewrite FloatAxioms.ltb_spec, FloatAxioms.abs_spec.
  replace (Prim2SF 0) with (S754_zero false) in E by (vm_compute; reflexivity).
  replace (Prim2SF 1e-3) with (S754_finite false 4611686018427388 (-62))
    by (vm_compute; reflexivity).
  destruct (Prim2SF (slack c)) as [s|s| |s m e]; try destruct s;
    try discriminate E; reflexivity.
Qed.

(** X15 - A constraint counts as binding exactly when the absolute
    value of its slack is below 0.001 (the separate test for a slack of
    zero adds nothing).  The "bottleneck" candidate names the binding
    constraints in the order of the record and is not emitted when there
    is none. *)
Theorem bottleneck_lists_binding (h : Host) (r : AnalysisResult) (k : nat) :
  let binding :=
    match constraints (ar_data r) with
    | Some cs => map con_name (filter (fun c => (PrimFloat.abs (slack c) <? 1e-3)%float) cs)
    | None => []
    end in
  (binding = [] -> fst (optConstraints h r k) = []) /\
  (forall c, In c (fst (optConstraints h r k)) ->
     description c
     = ("These factors are limiting your optimization: "
        ++ Js.join ", " binding ++ ". Consider increasing these resources.")%string /\
     data c = JObj [("optimizationName"%string, jstr (name (ar_data r)));
                    ("bindingConstraints"%string, JArr (map JStr binding))]).
Proof.
  intro binding. subst binding. unfold optConstraints. cbv zeta.
  destruct (constraints (ar_data r)) as [cs|]; [|split; [reflexivity | intros c []]].
  change (filter (fun c => PrimFloat.eqb (slack c) 0 || (PrimFloat.abs (slack c) <? 1e-3)%float) cs)
    with (filter isBinding cs).
  rewrite (filter_ext isBinding _ isBinding_abs).
  split.
  - intros ->. reflexivity.
  - intros c Hc.
    match type of Hc with
    | context [(0 <? ?n)%nat] => destruct (0 <? n)%nat; [|contradiction]
    end.
    unfold bind, ret, newDate in Hc. cbn [fst] in Hc.
    destruct Hc as [<-|[]]. split; reflexivity.
Qed.

Lemma bottleneck_lists_binding_witness :
  (match constraints (ar_data (Sample.optimizationResult None)) with
   | Some cs => map con_name (filter (fun c => (PrimFloat.abs (slack c) <? 1e-3)%float) cs)
   | None => []
   end = ["land"%string]) /\
  forall c, In c (fst (optConstraints Sample.host (Sample.optimizationResult None) 0%nat)) ->
    data c = JObj [("optimizationName"%string, JStr "Irrigation");
                   ("bindingConstraints"%string, JArr [JStr "land"])].
Proof.
  split; [vm_compute; reflexivity|].
  intros c Hc.
  exact (proj2 (proj2 (bottleneck_lists_binding Sample.host
                         (Sample.optimizationResult None) 0%nat) c Hc)).
Defined.

(* ================================================================== *)
(** * Further properties: stored sets and items *)
(* ================================================================== *)

Lemma get_app (k : string) (o1 o2 : Storage.object) :
  Storage.get k (o1 ++ o2)
  = match Storage.get k o1 with Some v => Some v | None => Storage.get k o2 end.
Proof.
  induction o1 as [|[k' v'] o1 IH]; [reflexivity|].
  cbn. destruct (k' =? k)%string; [reflexivity | exact IH].
Qed.

Lemma get_prop (k k' : string) (v : option Storage.value) :
  Storage.get k (Store.prop k' v) = if (k' =? k)%string then v else None.
Proof.
  destruct v as [x|]; cbn; now destruct (k' =? k)%string.
Qed.

Lemma fieldIs_distinct (field a b : string) (d : Storage.object) :
  a <> b -> Store.fieldIs field a d = true -> Store.fieldIs field b d = false.
Proof.
  unfold Store.fieldIs. intros N H.
  destruct (Storage.get field d) as [[s| |]|]; try discriminate.
  apply String.eqb_eq in H. subst s. now apply String.eqb_neq.
Qed.

Lemma find_deleteOne_other (p q : Storage.object -> bool) (docs : list Storage.object) :
  (forall d, q d = true -> p d = false) ->
  find q (Store.deleteOne p docs) = find q docs.
Proof.
  intro H. induction docs as [|d ds IH]; [reflexivity|].
  cbn. destruct (p d) eqn:P.
  - destruct (q d) eqn:Q; [|reflexivity].
    rewrite (H d Q) in P. discriminate.
  - cbn. now rewrite IH.
Qed.

Lemma find_deleteOne_unique (p : Storage.object -> bool) (docs : list Storage.object) :
  (List.length (filter p docs) <= 1)%nat -> find p (Store.deleteOne p docs) = None.
Proof.
  induction docs as [|d ds IH]; intro L; [reflexivity|].
  cbn in *. destruct (p d) eqn:P.
  - cbn in L. destruct (filter p ds) as [|x xs] eqn:F; [|cbn in L; lia].
    destruct (find p ds) as [y|] eqn:Fy; [|reflexivity].
    apply find_some in Fy. destruct Fy as [Hin Hp].
    assert (I : In y (filter p ds)) by (apply filter_In; now split).
    rewrite F in I. contradiction.
  - cbn. rewrite P. now apply IH.
Qed.

(** X16 - Deleting a recommendation set cascades: afterwards no item of
    that set can be fetched; the items and the sets stored under any
    other id are fetched as before; and when at most one stored set
    carried the id, the set itself is gone. *)
Theorem deleteRecommendationSet_cascades (id : string) (st : Store.State) :
  let st' := Store.deleteRecommendationSet id st in
  Store.getRecommendationItems id st' = [] /\
  (forall other, other <> id ->
     Store.getRecommendationItems other st' = Store.getRecommendationItems other st /\
     Store.getRecommendationSet other st' = Store.getRecommendationSet other st) /\
  ((List.length (filter (Store.fieldIs "id" id)
                        (Storage.recommendation_sets (Store.db st))) <= 1)%nat ->
   Store.getRecommendationSet id st' = None).
Proof.
  intro st'. subst st'.
  unfold Store.getRecommendationItems, Store.getRecommendationSet,
    Store.deleteRecommendationSet, Store.deleteMany, Store.findOne.
  cbn [Store.recommendation_items Store.db Storage.recommendation_sets].
  split; [|split].
  - assert (E : filter (Store.fieldIs "set_id" id)
                  (filter (fun d => negb (Store.fieldIs "set_id" id d))
                          (Store.recommendation_items st)) = []).
    { induction (Store.recommendation_items st) as [|d ds IH]; [reflexivity|].
      cbn. destruct (Store.fieldIs "set_id" id d) eqn:P; cbn; [exact IH|].
      rewrite P. exact IH. }
    rewrite E. reflexivity.
  - intros other N. split.
    + assert (E : filter (Store.fieldIs "set_id" other)
                    (filter (fun d => negb (Store.fieldIs "set_id" id d))
                            (Store.recommendation_items st))
                  = filter (Store.fieldIs "set_id" other) (Store.recommendation_items st)).
      { induction (Store.recommendation_items st) as [|d ds IH]; [reflexivity|].
        cbn. destruct (Store.fieldIs "set_id" id d) eqn:P; cbn.
        - rewrite (fieldIs_distinct _ _ _ _ (not_eq_sym N) P). exact IH.
        - destruct (Store.fieldIs "set_id" other d); [now rewrite IH | exact IH]. }
      now rewrite E.
    + rewrite find_deleteOne_other; [reflexivity|].
      intros d Q. now apply (fieldIs_distinct "id" other id).
  - intro L. now rewrite find_deleteOne_unique.
Qed.

Section StoredGeneration.
Variable h : Host.
Variable numberToString : Q -> string.
Variable toNumber : option Storage.value -> float.
Variable toISOString : Z -> string.

Let mapItem := Store.mapRecommendationItemFromDb toNumber toISOString.
Let mapSet := Store.mapRecommendationSetFromDb toISOString.

Lemma advanced_zero (st : Store.State) : advanced 0 st [] = st.
Proof.
  unfold advanced. destruct st as [[sets u c] items]. cbn. now rewrite app_nil_r.
Qed.

Lemma storeItem_step (sid : option Storage.value) (items : list Storage.object)
      (st : Store.State) (rec : Recommendation) :
  exists item,
    Store.storeItem h numberToString toNumber toISOString sid (items, st) rec
    = (items ++ [mapItem item], advanced 1 st [item]) /\
    Storage.get "set_id" item = sid /\
    Storage.get "id" item
    = Some (Storage.VStr (v4 h (Storage.uuidsDrawn (Store.db st)))) /\
    (exists s, Storage.get "confidence" item = Some (Storage.VStr s)) /\
    ((forall v, sid = Some v -> Store.readValue v = v) ->
     Store.fromBson (data rec) = data rec -> Store.readDocument item = item).
Proof.
  unfold Store.storeItem, Store.createRecommendationItem, advanced.
  cbn [Store.db Store.recommendation_items Storage.recommendation_sets
       Storage.uuidsDrawn Storage.clockReads].
  eexists. split; [reflexivity|].
  assert (ND : forall x y z,
             NoDup (map fst ([("id"%string, x)] ++ Store.prop "set_id" sid ++
                             [("type"%string, y); ("title"%string, y);
                              ("description"%string, y); ("confidence"%string, y);
                              ("data"%string, z); ("source"%string, y);
                              ("created_at"%string, y)]))).
  { intros x y z. destruct sid; cbn; repeat constructor; cbn; intuition discriminate. }
  split; [|split; [|split]].
  - rewrite get_setProp_other by discriminate.
    rewrite get_spread.
    + destruct sid; reflexivity.
    + destruct sid; cbn; repeat constructor; cbn; intuition discriminate.
  - rewrite get_setProp_other by discriminate.
    rewrite get_spread.
    + reflexivity.
    + destruct sid; cbn; repeat constructor; cbn; intuition discriminate.
  - rewrite get_setProp_other by discriminate.
    rewrite get_spread.
    + destruct sid; cbn; eexists; reflexivity.
    + destruct sid; cbn; repeat constructor; cbn; intuition discriminate.
  - intros Hs Hd. destruct sid as [v|]; cbn.
    + now rewrite Hd, (Hs v eq_refl).
    + now rewrite Hd.
Qed.

Lemma advanced_advanced (n m : nat) (st : Store.State) (a b : list Storage.object) :
  advanced m (advanced n st a) b = advanced (n + m) st (a ++ b).
Proof.
  unfold advanced. cbn [Store.db Store.recommendation_items Storage.recommendation_sets
                        Storage.uuidsDrawn Storage.clockReads].
  rewrite app_assoc. f_equal. f_equal; lia.
Qed.

Lemma storeItems_fold (sid : option Storage.value) (recs : list Recommendation) :
  forall (items : list Storage.object) (st : Store.State),
  exists docs,
    fold_left (Store.storeItem h numberToString toNumber toISOString sid) recs (items, st)
    = (items ++ map mapItem docs, advanced (List.length recs) st docs) /\
    List.length docs = List.length recs /\
    Forall (fun d => Storage.get "set_id" d = sid) docs /\
    Forall (fun d => exists s, Storage.get "confidence" d = Some (Storage.VStr s)) docs /\
    ((forall v, sid = Some v -> Store.readValue v = v) ->
     Forall (fun c => Store.fromBson (data c) = data c) recs ->
     Forall (fun d => Store.readDocument d = d) docs).
Proof.
  induction recs as [|rec recs IH]; intros items st.
  - exists []. cbn [fold_left map List.length]. rewrite app_nil_r, advanced_zero.
    repeat split; constructor.
  - cbn [fold_left].
    destruct (storeItem_step sid items st rec) as (item & E & Hsid & _ & Hc & Hr).
    rewrite E.
    destruct (IH (items ++ [mapItem item]) (advanced 1 st [item]))
      as (docs & E' & L & F & C & R).
    exists (item :: docs). rewrite E'. split; [|split; [|split; [|split]]].
    + rewrite advanced_advanced. cbn [map List.length].
      rewrite <- app_assoc. reflexivity.
    + cbn. now rewrite L.
    + now constructor.
    + now constructor.
    + intros Hs Hd. inversion Hd as [|? ? Hd1 Hd2]; subst.
      constructor; [now apply Hr | now apply R].
Qed.

(** What [storeGenerated] leaves in the store and returns, with the
    shape of the stored documents. *)
Lemma storeGenerated_shape (user : string) (generated : RecommendationOutput)
        (st : Store.State) :
  let result := Store.storeGenerated h numberToString toNumber toISOString
                                     user generated st in
  let setId := Storage.VStr (v4 h (Storage.uuidsDrawn (Store.db st))) in
  exists set docs,
    (Storage.recommendation_sets (Store.db (snd result))
     = Storage.recommendation_sets (Store.db st) ++ [set] /\
     Storage.get "id" set = Some setId /\
     Storage.get "user_id" set = Some (Storage.VStr user) /\
     Storage.get "summary" set = Some (Storage.VStr (summary generated)) /\
     Store.recommendation_items (snd result) = Store.recommendation_items st ++ docs /\
     List.length docs = List.length (recommendations generated) /\
     Forall (fun d => Storage.get "set_id" d = Some setId) docs /\
     Store.api_fields (fst result) = mapSet set /\
     Store.api_items (fst result) = map mapItem docs) /\
    Store.readDocument set = set /\
    Forall (fun d => exists s, Storage.get "confidence" d = Some (Storage.VStr s)) docs /\
    (Forall (fun c => Store.fromBson (data c) = data c) (recommendations generated) ->
     Forall (fun d => Store.readDocument d = d) docs).
Proof.
  intros result setId. subst result setId.
  unfold Store.storeGenerated, Store.createSet, Storage.createRecommendationSet.
  cbn [Store.db Store.recommendation_items Storage.recommendation_sets
       Storage.uuidsDrawn Storage.clockReads].
  match goal with
  | |- context [fold_left ?f ?l (?i, ?s)] =>
      destruct (storeItems_fold
                  (Storage.get "id"
                     (Storage.setProp "created_at"
                        (Storage.VDate (wallClock h (S (Storage.clockReads (Store.db st)))))
                        (Storage.spread
                           [("id"%string, Storage.VStr (v4 h (Storage.uuidsDrawn (Store.db st))));
                            ("user_id"%string, Storage.VStr user);
                            ("summary"%string, Storage.VStr (summary generated));
                            ("created_at"%string,
                             Storage.VDate (wallClock h (Storage.clockReads (Store.db st))))]
                           (Storage.setProp "id"
                              (Storage.VStr (v4 h (S (Storage.uuidsDrawn (Store.db st))))) []))))
                  l i s) as (docs & E & L & F & C & R)
  end.
  rewrite E. cbn [fst snd Store.api_fields Store.api_items advanced Store.db
                  Store.recommendation_items Storage.recommendation_sets app].
  do 2 eexists. split; [|split; [|split]].
  - repeat split; try reflexivity; assumption.
  - reflexivity.
  - exact C.
  - apply R. intros v Ev. cbn in Ev. injection Ev as <-. reflexivity.
Qed.

Lemma storeGenerated_facts (user : string) (generated : RecommendationOutput)
        (st : Store.State) :
  let result := Store.storeGenerated h numberToString toNumber toISOString
                                     user generated st in
  let setId := Storage.VStr (v4 h (Storage.uuidsDrawn (Store.db st))) in
  exists set docs,
    Storage.recommendation_sets (Store.db (snd result))
    = Storage.recommendation_sets (Store.db st) ++ [set] /\
    Storage.get "id" set = Some setId /\
    Storage.get "user_id" set = Some (Storage.VStr user) /\
    Storage.get "summary" set = Some (Storage.VStr (summary generated)) /\
    Store.recommendation_items (snd result) = Store.recommendation_items st ++ docs /\
    List.length docs = List.length (recommendations generated) /\
    Forall (fun d => Storage.get "set_id" d = Some setId) docs /\
    Store.api_fields (fst result) = mapSet set /\
    Store.api_items (fst result) = map mapItem docs.
Proof.
  destruct (storeGenerated_shape user generated st) as (set & docs & H & _).
  exists set, docs. exact H.
Qed.

(** X17 - Storing what the engine generated: the service adds exactly
    one set, whose id is the uuid the service drew ([setId]), whose
    owner is the user and whose summary is the generated summary; it adds
    exactly one item per generated recommendation, every item pointing to
    that set; and it returns as many mapped items as it stored. *)
Theorem storeGenerated_persists (user : string) (generated : RecommendationOutput)
        (st : Store.State) :
  let result := Store.storeGenerated h numberToString toNumber toISOString
                                     user generated st in
  let setId := Storage.VStr (v4 h (Storage.uuidsDrawn (Store.db st))) in
  exists set docs,
    Storage.recommendation_sets (Store.db (snd result))
    = Storage.recommendation_sets (Store.db st) ++ [set] /\
    Storage.get "id" set = Some setId /\
    Storage.get "user_id" set = Some (Storage.VStr user) /\
    Storage.get "summary" set = Some (Storage.VStr (summary generated)) /\
    Store.recommendation_items (snd result) = Store.recommendation_items st ++ docs /\
    List.length docs = List.length (recommendations generated) /\
    Forall (fun d => Storage.get "set_id" d = Some setId) docs /\
    Store.api_fields (fst result) = mapSet set /\
    Store.api_items (fst result) = map mapItem docs.
Proof.
  exact (storeGenerated_facts user generated st).
Qed.
End StoredGeneration.

Lemma get_setRow (k : string) (s : Storage.object) :
  In k ["id"; "user_id"; "summary"; "created_at"]%string ->
  Storage.get k (Store.setRow s) = Storage.get k s.
Proof.
  intro H. unfold Store.setRow. rewrite !get_app, !get_prop.
  cbn in H.
  repeat (destruct H as [<-|H];
          [cbn [String.eqb Ascii.eqb Bool.eqb];
           repeat match goal with
                  | |- context [match Storage.get ?k ?d with _ => _ end] =>
                      destruct (Storage.get k d)
                  end; reflexivity|]).
  contradiction.
Qed.

Lemma get_itemRow (k : string) (d : Storage.object) :
  In k ["id"; "set_id"; "title"; "type"; "description"; "confidence"; "data";
        "source"; "created_at"]%string ->
  Storage.get k (Store.itemRow d) = Storage.get k d.
Proof.
  intro H. unfold Store.itemRow. rewrite !get_app, !get_prop.
  cbn in H.
  repeat (destruct H as [<-|H];
          [cbn [String.eqb Ascii.eqb Bool.eqb];
           repeat match goal with
                  | |- context [match Storage.get ?k ?d with _ => _ end] =>
                      destruct (Storage.get k d)
                  end; reflexivity|]).
  contradiction.
Qed.

Lemma fieldIs_get (field id : string) (d : Storage.object) :
  Store.fieldIs field id d = true -> Storage.get field d = Some (Storage.VStr id).
Proof.
  unfold Store.fieldIs. destruct (Storage.get field d) as [[s| |]|]; try discriminate.
  intro E. apply String.eqb_eq in E. now subst.
Qed.

Lemma get_readDocument (k : string) (d : Storage.object) :
  Storage.get k (Store.readDocument d) = option_map Store.readValue (Storage.get k d).
Proof.
  induction d as [|[k' v] d IH]; [reflexivity|].
  cbn. destruct (k' =? k)%string; [reflexivity | exact IH].
Qed.

Lemma readDocument_app (a b : Storage.object) :
  Store.readDocument (a ++ b) = Store.readDocument a ++ Store.readDocument b.
Proof. apply map_app. Qed.

Lemma readDocument_prop (k : string) (v : option Storage.value) :
  Store.readDocument (Store.prop k v) = Store.prop k (option_map Store.readValue v).
Proof. now destruct v. Qed.

Section ServiceLookup.
Variable toNumber : option Storage.value -> float.
Variable toISOString : Z -> string.

Let mapItem := Store.mapRecommendationItemFromDb toNumber toISOString.
Let mapSet := Store.mapRecommendationSetFromDb toISOString.
Let serviceGet := Store.serviceGetRecommendationSet toNumber toISOString.

Lemma mapSet_setRow (s : Storage.object) : mapSet (Store.setRow s) = mapSet s.
Proof.
  unfold mapSet, Store.mapRecommendationSetFromDb.
  rewrite !get_setRow by (cbn; tauto). reflexivity.
Qed.

Lemma mapItem_itemRow (d : Storage.object) : mapItem (Store.itemRow d) = mapItem d.
Proof.
  unfold mapItem, Store.mapRecommendationItemFromDb.
  rewrite !get_itemRow by (cbn; tauto). reflexivity.
Qed.

Lemma mapItem_setId (d : Storage.object) :
  Storage.get "setId" (mapItem d) = Storage.get "set_id" d.
Proof.
  unfold mapItem, Store.mapRecommendationItemFromDb.
  rewrite !get_app, !get_prop. cbn [String.eqb Ascii.eqb Bool.eqb Storage.get].
  destruct (Storage.get "set_id" d); [reflexivity|].
  repeat match goal with
         | |- context [match ?o with Some _ => _ | None => _ end] =>
             match o with
             | None => fail 1
             | _ => destruct o
             end
         end; reflexivity.
Qed.

Lemma mapSet_id (s : Storage.object) :
  Storage.get "id" (mapSet s) = Storage.get "id" s.
Proof.
  unfold mapSet, Store.mapRecommendationSetFromDb.
  rewrite !get_app, !get_prop. cbn [String.eqb Ascii.eqb Bool.eqb].
  repeat match goal with
         | |- context [match ?o with Some _ => _ | None => _ end] =>
             match o with
             | None => fail 1
             | _ => destruct o
             end
         end; reflexivity.
Qed.

Lemma isoOrSame_readValue (v : option Storage.value) :
  Store.isoOrSame toISOString (option_map Store.readValue v)
  = option_map Store.readValue (Store.isoOrSame toISOString v).
Proof. destruct v as [[s|ms|j]|]; reflexivity. Qed.

(** Mapping what was read back is reading back what was mapped. *)
Lemma mapSet_readDocument (s : Storage.object) :
  mapSet (Store.readDocument s) = Store.readDocument (mapSet s).
Proof.
  unfold mapSet, Store.mapRecommendationSetFromDb.
  rewrite !readDocument_app, !readDocument_prop, !get_readDocument, isoOrSame_readValue.
  reflexivity.
Qed.

Lemma mapItem_readDocument (d : Storage.object) :
  (exists s, Storage.get "confidence" d = Some (Storage.VStr s)) ->
  mapItem (Store.readDocument d) = Store.readDocument (mapItem d).
Proof.
  intros [s E]. unfold mapItem, Store.mapRecommendationItemFromDb.
  rewrite !readDocument_app, !readDocument_prop, !get_readDocument, isoOrSame_readValue, E.
  reflexivity.
Qed.

(** X18 - Looking a set up through the service gives [null] exactly
    when no stored set has that id.  Otherwise the result carries the
    requested id, and its items are the stored items of that set - all of
    them (as many as are stored) and only them (each points to the
    requested id). *)
Theorem serviceGet_absent_or_linked (id : string) (st : Store.State) :
  (serviceGet id st = None <->
   forall s, In s (Storage.recommendation_sets (Store.db st)) ->
             Store.fieldIs "id" id s = false) /\
  (forall api, serviceGet id st = Some api ->
     Storage.get "id" (Store.api_fields api) = Some (Storage.VStr id) /\
     Forall (fun i => Storage.get "setId" i = Some (Storage.VStr id)) (Store.api_items api) /\
     List.length (Store.api_items api)
     = List.length (filter (Store.fieldIs "set_id" id) (Store.recommendation_items st))).
Proof.
  unfold serviceGet, Store.serviceGetRecommendationSet, Store.getRecommendationSet,
    Store.findOne.
  split.
  - destruct (find _ _) as [s|] eqn:F.
    + split; [discriminate|]. intro H.
      apply find_some in F. destruct F as [Hin Hp].
      rewrite (H s Hin) in Hp. discriminate.
    + split; [|reflexivity]. intros _ s Hs.
      exact (find_none _ _ F s Hs).
  - intros api E. destruct (find _ _) as [s|] eqn:F; [|discriminate].
    injection E as <-. cbn [Store.api_fields Store.api_items].
    apply find_some in F. destruct F as [_ Hp].
    split; [|split].
    + fold mapSet. rewrite mapSet_setRow, mapSet_id, get_readDocument.
      now rewrite (fieldIs_get _ _ _ Hp).
    + unfold Store.getRecommendationItems. rewrite map_map.
      apply Forall_forall. intros i Hi. apply in_map_iff in Hi.
      destruct Hi as (d & <- & Hd). fold mapItem.
      rewrite mapItem_itemRow, mapItem_setId, get_readDocument.
      apply sort_In in Hd. apply filter_In in Hd. destruct Hd as [_ Hd].
      now rewrite (fieldIs_get _ _ _ Hd).
    + unfold Store.getRecommendationItems. rewrite !length_map.
      apply Permutation_length, sort_perm.
Qed.
End ServiceLookup.

Lemma find_app_last {A} (p : A -> bool) (l : list A) (x : A) :
  (forall y, In y l -> p y = false) -> p x = true -> find p (l ++ [x]) = Some x.
Proof.
  intros N P. induction l as [|y l IH]; cbn.
  - now rewrite P.
  - rewrite (N y) by now left. apply IH. intros z Hz. apply N. now right.
Qed.

Lemma filter_none {A} (p : A -> bool) (l : list A) :
  (forall y, In y l -> p y = false) -> filter p l = [].
Proof.
  intro N. induction l as [|y l IH]; [reflexivity|].
  cbn. rewrite (N y) by now left. apply IH. intros z Hz. apply N. now right.
Qed.

Lemma filter_all {A} (p : A -> bool) (l : list A) :
  Forall (fun y => p y = true) l -> filter p l = l.
Proof.
  induction 1 as [|y l Py _ IH]; [reflexivity|]. cbn. now rewrite Py, IH.
Qed.

Lemma get_fieldIs (field id : string) (d : Storage.object) :
  Storage.get field d = Some (Storage.VStr id) -> Store.fieldIs field id d = true.
Proof.
  unfold Store.fieldIs. intros ->. apply String.eqb_refl.
Qed.

(** X19 - Round trip: when the uuid the service draws for the set is
    not yet the id of a stored set nor the [set_id] of a stored item,
    looking that id up after the generated set was stored returns the
    fields [generateRecommendations] of the service returned, and the
    items it returned, up to their order, as the driver reads them back:
    with every [undefined] inside an item's [data] turned into [null].
    When no candidate's [data] holds [undefined], they are the returned
    items themselves. *)
Theorem stored_then_fetched
        (h : Host) (numberToString : Q -> string)
        (toNumber : option Storage.value -> float) (toISOString : Z -> string)
        (user : string) (generated : RecommendationOutput) (st : Store.State) :
  let setId := v4 h (Storage.uuidsDrawn (Store.db st)) in
  let result := Store.storeGenerated h numberToString toNumber toISOString
                                     user generated st in
  (forall s, In s (Storage.recommendation_sets (Store.db st)) ->
             Store.fieldIs "id" setId s = false) ->
  (forall d, In d (Store.recommendation_items st) ->
             Store.fieldIs "set_id" setId d = false) ->
  exists fetched,
    Store.serviceGetRecommendationSet toNumber toISOString setId (snd result)
    = Some fetched /\
    Store.api_fields fetched = Store.api_fields (fst result) /\
    Permutation (Store.api_items fetched)
                (map Store.readDocument (Store.api_items (fst result))) /\
    (Forall (fun c => Store.fromBson (data c) = data c) (recommendations generated) ->
     Permutation (Store.api_items fetched) (Store.api_items (fst result))).
Proof.
  intros setId result FreshSet FreshItems.
  destruct (storeGenerated_shape h numberToString toNumber toISOString
              user generated st)
    as (set & docs & (Sets & Id & _ & _ & Items & _ & Link & Fields & Mapped)
        & ReadSet & Conf & ReadDocs).
  fold result in Sets, Items, Fields, Mapped. fold setId in Id, Link.
  unfold Store.serviceGetRecommendationSet, Store.getRecommendationSet,
    Store.getRecommendationItems, Store.findOne.
  rewrite Sets, Items.
  rewrite (find_app_last _ _ set FreshSet (get_fieldIs _ _ _ Id)).
  eexists. split; [reflexivity|].
  cbn [Store.api_fields Store.api_items].
  rewrite Mapped, filter_app, (filter_none _ _ FreshItems). cbn [app].
  rewrite filter_all
    by (eapply Forall_impl; [|exact Link]; intros d Hd; now apply get_fieldIs).
  assert (P : Permutation
                (map (Store.mapRecommendationItemFromDb toNumber toISOString)
                     (map (fun i => Store.itemRow (Store.readDocument i))
                          (Js.sort Store.byCreatedAtDesc docs)))
                (map Store.readDocument
                     (map (Store.mapRecommendationItemFromDb toNumber toISOString) docs))).
  { rewrite !map_map.
    rewrite (map_ext_in _
               (fun d => Store.readDocument
                           (Store.mapRecommendationItemFromDb toNumber toISOString d))).
    - apply Permutation_map, sort_perm.
    - intros d Hd. apply sort_In in Hd. rewrite Forall_forall in Conf.
      rewrite (mapItem_itemRow toNumber toISOString).
      now apply mapItem_readDocument, Conf. }
  split; [|split].
  - rewrite Fields, ReadSet. apply (mapSet_setRow toNumber toISOString).
  - exact P.
  - intro Storable. eapply perm_trans; [exact P|].
    rewrite map_map. erewrite map_ext_in; [apply Permutation_refl|].
    intros d Hd. cbv beta.
    pose proof (ReadDocs Storable) as R. rewrite Forall_forall in R, Conf.
    rewrite <- (mapItem_readDocument toNumber toISOString d (Conf d Hd)).
    now rewrite (R d Hd).
Qed.

(** The theorem at work on a store that already holds a set with two
    items, for a generated candidate whose [data] has an [undefined]
    property. *)
Lemma stored_then_fetched_witness :
  (forall s, In s (Storage.recommendation_sets (Store.db SampleStore.stocked)) ->
             Store.fieldIs "id" (v4 Sample.host 6%nat) s = false) /\
  (forall d, In d (Store.recommendation_items SampleStore.stocked) ->
             Store.fieldIs "set_id" (v4 Sample.host 6%nat) d = false) /\
  exists fetched,
    Store.serviceGetRecommendationSet SampleStore.toNumber SampleStore.toISOString
      (v4 Sample.host 6%nat)
      (snd (Store.storeGenerated Sample.host SampleStore.numberToString
              SampleStore.toNumber SampleStore.toISOString
              "u1" SampleStore.sparse SampleStore.stocked))
    = Some fetched /\
    Store.api_fields fetched
    = Store.api_fields
        (fst (Store.storeGenerated Sample.host SampleStore.numberToString
                SampleStore.toNumber SampleStore.toISOString
                "u1" SampleStore.sparse SampleStore.stocked)) /\
    Permutation
      (Store.api_items fetched)
      (map Store.readDocument
         (Store.api_items
            (fst (Store.storeGenerated Sample.host SampleStore.numberToString
                    SampleStore.toNumber SampleStore.toISOString
                    "u1" SampleStore.sparse SampleStore.stocked)))).
Proof.
  assert (F1 : forall s, In s (Storage.recommendation_sets (Store.db SampleStore.stocked)) ->
                         Store.fieldIs "id" (v4 Sample.host 6%nat) s = false).
  { intros s Hs. vm_compute in Hs. destruct Hs as [<-|[]]. vm_compute. reflexivity. }
  assert (F2 : forall d, In d (Store.recommendation_items SampleStore.stocked) ->
                         Store.fieldIs "set_id" (v4 Sample.host 6%nat) d = false).
  { intros d Hd. vm_compute in Hd. destruct Hd as [<-|[<-|[]]]; vm_compute; reflexivity. }
  split; [exact F1|]. split; [exact F2|].
  destruct (stored_then_fetched Sample.host SampleStore.numberToString
              SampleStore.toNumber SampleStore.toISOString
              "u1" SampleStore.sparse SampleStore.stocked F1 F2)
    as (fetched & E & Fields & Items & _).
  exists fetched. repeat split; assumption.
Defined.

(** On that input the item the generating call returned has
    [optimizationName: undefined] in its [data]; the item fetched
    afterwards has [optimizationName: null]. *)
Example fetched_data_reads_null :
  let result := Store.storeGenerated Sample.host SampleStore.numberToString
                  SampleStore.toNumber SampleStore.toISOString
                  "u1" SampleStore.sparse SampleStore.stocked in
  map (Storage.get "data") (Store.api_items (fst result))
  = [Some (Storage.VOther (JObj [("optimizationName"%string, JUndefined)]))] /\
  option_map (fun api => map (Storage.get "data") (Store.api_items api))
    (Store.serviceGetRecommendationSet SampleStore.toNumber SampleStore.toISOString
       (v4 Sample.host 6%nat) (snd result))
  = Some [Some (Storage.VOther (JObj [("optimizationName"%string, JNull)]))].
Proof. split; vm_compute; reflexivity. Qed.



(** X21 - One generation call of the service, from the fetched bundle
    on, stores exactly one new set and at most ten new items, and returns
    as many items as it stored. *)
Theorem generation_stores_at_most_ten
        (h : Host) (numberToString : Q -> string)
        (toNumber : option Storage.value -> float) (toISOString : Z -> string)
        (user : string) (season : option Season)
        (fetchedResults : list AnalysisResult) (chatMessages : list ChatMessage)
        (st : Store.State) :
  let result := Store.generateFromFetched h numberToString toNumber toISOString
                  user season fetchedResults chatMessages st in
  exists set docs,
    Storage.recommendation_sets (Store.db (snd result))
    = Storage.recommendation_sets (Store.db st) ++ [set] /\
    Store.recommendation_items (snd result) = Store.recommendation_items st ++ docs /\
    (List.length docs <= 10)%nat /\
    List.length (Store.api_items (fst result)) = List.length docs.
Proof.
  intro result. subst result. unfold Store.generateFromFetched.
  match goal with
  | |- context [generateRecommendations h ?i ?k] =>
      pose proof (generateRecommendations_fst h i k) as G;
      destruct (generateRecommendations h i k) as [generated reads]
  end.
  cbv zeta in G. cbn [fst] in G. destruct G as [G _].
  match goal with
  | |- context [Store.storeGenerated _ _ _ _ ?u ?g ?s] =>
      destruct (storeGenerated_facts h numberToString toNumber toISOString u g s)
        as (set & docs & Sets & _ & _ & _ & Items & L & _ & _ & Mapped)
  end.
  exists set, docs.
  cbn [Store.db Store.recommendation_items Storage.recommendation_sets] in Sets, Items.
  repeat split; trivial.
  - rewrite L, G. apply firstn_le_length.
  - rewrite Mapped. apply length_map.
Qed.
